(** * Routing and session orchestration of ai-way: a shallow embedding

    The development follows [src/core/conductor.py], [src/core/session.py]
    and the chat endpoint of [src/core/server.py].

    Conventions of the embedding
    - Text is a Rocq [string]: a sequence of 8-bit characters, read as the
      code points U+0000..U+00FF of a Python [str].
    - A Python [float] is the rational number it denotes ([Q]); parsing a
      decimal literal yields its exact value, of which Python keeps the
      nearest double.  Comparisons against 0.0 and 1.0 agree on both.
    - A Python [dict] is an association list in insertion order.
    - A Python exception is a value of [PyExc]; code that may raise returns
      a [result].  Stateful code is a function from a state to a [result]
      and the state it leaves, so that what an interrupted call already
      wrote stays visible.
    - Wall-clock readings ([RoutingDecision.timestamp], [latency_ms] of a
      response) are left out of the records: nothing below reads them. *)

From Stdlib Require Import String Ascii List ZArith QArith Lia Bool Arith.
From Stdlib Require Import DecimalString.
Import ListNotations.
Open Scope string_scope.

(* ===================================================================== *)
(** * Python values and exceptions *)
(* ===================================================================== *)

Inductive PyExc : Type :=
| ValueError
| KeyError (key : string)
| TypeError
| AttributeError
| JSONDecodeError
| HTTPError.

(** [IllTyped] marks a run-time value that does not have the type the
    dataclass annotations give it.  Python would carry on with such a value;
    the typed embedding stops there and makes no statement about the run. *)
Inductive result (A : Type) : Type :=
| Ok (a : A)
| Raise (e : PyExc)
| IllTyped.
Arguments Ok {A} a.
Arguments Raise {A} e.
Arguments IllTyped {A}.

Definition nl : string := String "010"%char EmptyString.
Definition dq : string := String (ascii_of_nat 34) EmptyString.

(** ** Characters *)

Definition code (c : ascii) : nat := nat_of_ascii c.

Definition in_range (lo hi : nat) (c : ascii) : bool :=
  (lo <=? code c)%nat && (code c <=? hi)%nat.

(** [str.isspace] and the class [\s] on U+0000..U+00FF. *)
Definition is_space (c : ascii) : bool :=
  in_range 9 13 c || in_range 28 32 c
  || (code c =? 133)%nat || (code c =? 160)%nat.

(** The class [\d] on U+0000..U+00FF. *)
Definition is_digit (c : ascii) : bool := in_range 48 57 c.

(** [str.lower] on one character of U+0000..U+00FF. *)
Definition lower_char (c : ascii) : ascii :=
  if in_range 65 90 c
     || (in_range 192 222 c && negb (code c =? 215)%nat)
  then ascii_of_nat (code c + 32)
  else c.

Fixpoint lower (s : string) : string :=
  match s with
  | EmptyString => EmptyString
  | String c s' => String (lower_char c) (lower s')
  end.

Fixpoint lstrip (s : string) : string :=
  match s with
  | EmptyString => EmptyString
  | String c s' => if is_space c then lstrip s' else s
  end.

(** [rstrip]: drop the trailing run of white space. *)
Fixpoint rstrip (s : string) : string :=
  match s with
  | EmptyString => EmptyString
  | String c s' =>
      match rstrip s' with
      | EmptyString => if is_space c then EmptyString else String c EmptyString
      | r => String c r
      end
  end.

Definition strip (s : string) : string := rstrip (lstrip s).

(** [sub in s] on strings. *)
Fixpoint py_in (sub s : string) : bool :=
  if prefix sub s then true
  else match s with
       | EmptyString => false
       | String _ s' => py_in sub s'
       end.

(** [s.replace(a, b)] for one-character [a] and [b]. *)
Fixpoint replace_char (a b : ascii) (s : string) : string :=
  match s with
  | EmptyString => EmptyString
  | String c s' =>
      String (if Ascii.eqb c a then b else c) (replace_char a b s')
  end.

(** [s[:n]] for [n >= 0]. *)
Definition take (n : nat) (s : string) : string := substring 0 n s.

(** [sep.join(parts)]. *)
Definition join (sep : string) (parts : list string) : string :=
  String.concat sep parts.

(** ** Insertion-ordered dictionaries with string keys *)

Definition dict (V : Type) : Type := list (string * V).

Fixpoint dict_get {V} (d : dict V) (k : string) : option V :=
  match d with
  | [] => None
  | (k', v) :: d' => if String.eqb k' k then Some v else dict_get d' k
  end.

Definition dict_contains {V} (d : dict V) (k : string) : bool :=
  match dict_get d k with Some _ => true | None => false end.

(** [d[k] = v]: an existing key keeps its place, a new key goes last. *)
Fixpoint dict_set {V} (d : dict V) (k : string) (v : V) : dict V :=
  match d with
  | [] => [(k, v)]
  | (k', v') :: d' =>
      if String.eqb k' k then (k, v) :: d' else (k', v') :: dict_set d' k v
  end.

(** [del d[k]] for a key that is present: the entry under [k] goes. *)
Fixpoint dict_del {V} (d : dict V) (k : string) : dict V :=
  match d with
  | [] => []
  | (k', v') :: d' =>
      if String.eqb k' k then dict_del d' k else (k', v') :: dict_del d' k
  end.

Definition dict_keys {V} (d : dict V) : list string := map fst d.
Definition dict_values {V} (d : dict V) : list V := map snd d.

(** ** Floats *)

Definition Qltb (x y : Q) : bool := negb (Qle_bool y x).

(** [min(a, b)] and [max(a, b)] of the built-ins: the first argument is
    kept unless the second is strictly smaller (resp. larger). *)
Definition py_min (a b : Q) : Q := if Qltb b a then b else a.
Definition py_max (a b : Q) : Q := if Qltb a b then b else a.

Definition digit_val (c : ascii) : Z := Z.of_nat (code c - 48).

(** Scanner state of a decimal literal made of digits and dots:
    numerator read so far, power of ten under it, number of digits read,
    whether the dot has been passed. *)
Fixpoint scan_decimal (s : string) (num : Z) (den : positive)
         (ndigits : nat) (dot : bool) : option Q :=
  match s with
  | EmptyString =>
      match ndigits with
      | O => None
      | S _ => Some (Qmake num den)
      end
  | String c s' =>
      if is_digit c then
        scan_decimal s' (10 * num + digit_val c)
                     (if dot then (10 * den)%positive else den)
                     (S ndigits) dot
      else if Ascii.eqb c "."%char then
        if dot then None else scan_decimal s' num den ndigits true
      else None
  end.

(** [float(s)] on the texts that the confidence pattern can capture, that
    is, non-empty runs of digits and dots.  Such a text is a float literal
    exactly when it has at most one dot and at least one digit; any other
    text over that alphabet raises [ValueError]. *)
Definition py_float (s : string) : result Q :=
  match scan_decimal s 0 1 0 false with
  | Some q => Ok q
  | None => Raise ValueError
  end.

(* ===================================================================== *)
(** * Regular expressions: the fragment of [re] the program uses *)
(* ===================================================================== *)

(** Character sets.

    Under [re.IGNORECASE] a literal letter of the patterns, all of which are
    ASCII, matches the characters that fold to it.  On U+0000..U+00FF these
    are its two cases, and [str.lower] sends both to the same character,
    which is what [CLit] compares.  Beyond U+00FF [re] also matches U+017F
    with "s", U+212A with "k", and U+0130 and U+0131 with "i", which
    [str.lower] does not send to these letters.  Such text is outside the
    alphabet of the embedding: a statement that decides a match by looking
    for a key word in [lower response] is made for ASCII replies. *)
Inductive cset : Type :=
| CLit (c : ascii)      (* a literal character, under re.IGNORECASE *)
| CSpace                (* \s *)
| CNonSpace             (* \S *)
| CDigitDot             (* [\d.] *)
| CAny                  (* .  without re.DOTALL *)
| CNewline.             (* \n *)

Definition cset_mem (cs : cset) (c : ascii) : bool :=
  match cs with
  | CLit p => Ascii.eqb (lower_char c) (lower_char p)
  | CSpace => is_space c
  | CNonSpace => negb (is_space c)
  | CDigitDot => is_digit c || Ascii.eqb c "."%char
  | CAny => negb (Ascii.eqb c "010"%char)
  | CNewline => Ascii.eqb c "010"%char
  end.

Inductive quant : Type :=
| One            (* x   *)
| GreedyStar     (* x*  *)
| GreedyPlus     (* x+  *)
| LazyPlus.      (* x+? *)

(** A pattern is a sequence; every constructor carries the rest of the
    sequence.  There is one capturing group, group 1. *)
Inductive regex : Type :=
| Eps
| Chr (cs : cset) (q : quant) (rest : regex)
| Grp (body : regex) (rest : regex)          (* ( body ) rest        *)
| Alt (l r : regex) (rest : regex)           (* (?: l | r ) rest     *)
| Eos (rest : regex).                        (* $ rest               *)

(** The match object: what [group(1)] returns. *)
Record Match : Type := mkMatch { group1 : option string }.

(** Continuations take the text still to read and the group captured so
    far; [None] asks the caller to backtrack. *)
Definition kont : Type := string -> option string -> option Match.

Section Quantifiers.
Variable cs : cset.
Variable k : string -> option Match.

Definition m_one (s : string) : option Match :=
  match s with
  | String c s' => if cset_mem cs c then k s' else None
  | EmptyString => None
  end.

(** Greedy: take one more character first, give it back on failure. *)
Fixpoint m_greedy_star (s : string) : option Match :=
  match s with
  | String c s' =>
      if cset_mem cs c then
        match m_greedy_star s' with
        | Some m => Some m
        | None => k s
        end
      else k s
  | EmptyString => k s
  end.

(** Lazy: try the rest of the pattern first, take a character on failure. *)
Fixpoint m_lazy_star (s : string) : option Match :=
  match k s with
  | Some m => Some m
  | None =>
      match s with
      | String c s' => if cset_mem cs c then m_lazy_star s' else None
      | EmptyString => None
      end
  end.

Definition m_quant (q : quant) (s : string) : option Match :=
  match q with
  | One => m_one s
  | GreedyStar => m_greedy_star s
  | GreedyPlus =>
      match s with
      | String c s' => if cset_mem cs c then m_greedy_star s' else None
      | EmptyString => None
      end
  | LazyPlus =>
      match s with
      | String c s' => if cset_mem cs c then m_lazy_star s' else None
      | EmptyString => None
      end
  end.
End Quantifiers.

(** [$] without re.MULTILINE: at the end of the text, or just before a
    newline that ends the text. *)
Definition at_eos (s : string) : bool :=
  match s with
  | EmptyString => true
  | String c EmptyString => Ascii.eqb c "010"%char
  | _ => false
  end.

(** The text read between [s] and its suffix [s']. *)
Definition consumed (s s' : string) : string :=
  take (String.length s - String.length s') s.

Fixpoint run (r : regex) (s : string) (cap : option string) (k : kont)
  : option Match :=
  match r with
  | Eps => k s cap
  | Chr cs q rest => m_quant cs (fun s' => run rest s' cap k) q s
  | Grp body rest =>
      run body s cap
          (fun s' _ => run rest s' (Some (consumed s s')) k)
  | Alt l r' rest =>
      match run l s cap (fun s' c => run rest s' c k) with
      | Some m => Some m
      | None => run r' s cap (fun s' c => run rest s' c k)
      end
  | Eos rest => if at_eos s then run rest s cap k else None
  end.

Definition match_here (r : regex) (s : string) : option Match :=
  run r s None (fun _ cap => Some (mkMatch cap)).

(** [re.search(r, s)]: the first start position, from the left, where the
    pattern matches. *)
Fixpoint re_search (r : regex) (s : string) : option Match :=
  match match_here r s with
  | Some m => Some m
  | None =>
      match s with
      | String _ s' => re_search r s'
      | EmptyString => None
      end
  end.

(** [m.group(1)]; a group that took no part in the match gives [None], on
    which the string methods called next raise [AttributeError]. *)
Definition group_1 (m : Match) : result string :=
  match group1 m with
  | Some g => Ok g
  | None => Raise AttributeError
  end.

(** A literal word in front of a pattern. *)
Fixpoint lits (w : string) (rest : regex) : regex :=
  match w with
  | EmptyString => rest
  | String c w' => Chr (CLit c) One (lits w' rest)
  end.

(** r'AGENT:\s*(\S+)' *)
Definition AGENT_RE : regex :=
  lits "AGENT:" (Chr CSpace GreedyStar (Grp (Chr CNonSpace GreedyPlus Eps) Eps)).

(** r'CONFIDENCE:\s*([\d.]+)' *)
Definition CONFIDENCE_RE : regex :=
  lits "CONFIDENCE:"
       (Chr CSpace GreedyStar (Grp (Chr CDigitDot GreedyPlus Eps) Eps)).

(** r'REASON:\s*(.+?)(?:\n|$)' *)
Definition REASON_RE : regex :=
  lits "REASON:"
       (Chr CSpace GreedyStar
            (Grp (Chr CAny LazyPlus Eps)
                 (Alt (Chr CNewline One Eps) (Eos Eps) Eps))).


(* ===================================================================== *)
(** * Monads: results, and state with results *)
(* ===================================================================== *)

Definition rbind {A B} (r : result A) (f : A -> result B) : result B :=
  match r with
  | Ok a => f a
  | Raise e => Raise e
  | IllTyped => IllTyped
  end.

Notation "'let*' x ':=' e 'in' k" := (rbind e (fun x => k))
  (at level 10, x name, e at level 100, k at level 200).

(** A computation over a mutable state [St]: the state survives a raise. *)
Definition M (St A : Type) : Type := St -> result A * St.

Definition ret {St A} (a : A) : M St A := fun st => (Ok a, st).

Definition bind {St A B} (m : M St A) (f : A -> M St B) : M St B :=
  fun st =>
    match m st with
    | (Ok a, st') => f a st'
    | (Raise e, st') => (Raise e, st')
    | (IllTyped, st') => (IllTyped, st')
    end.

Definition gets {St A} (f : St -> A) : M St A := fun st => (Ok (f st), st).
Definition modify {St} (f : St -> St) : M St unit := fun st => (Ok tt, f st).
Definition lift {St A} (r : result A) : M St A := fun st => (r, st).

(** [try: body  except <caught>: handler], where [handler e] is [None] for
    an exception the clause does not name. *)
Definition try_except {St A} (body : M St A)
           (handler : PyExc -> option (M St A)) : M St A :=
  fun st =>
    match body st with
    | (Raise e, st') =>
        match handler e with
        | Some h => h st'
        | None => (Raise e, st')
        end
    | other => other
    end.

Notation "x <- m ;; k" := (bind m (fun x => k))
  (at level 61, m at next level, right associativity).
Notation "m ;;; k" := (bind m (fun _ => k))
  (at level 61, right associativity).

(* ===================================================================== *)
(** * session.py *)
(* ===================================================================== *)

(** ** Time stamps

    A [datetime] is identified with the text [isoformat()] gives it, of the
    shape YYYY-MM-DDTHH:MM:SS or YYYY-MM-DDTHH:MM:SS.ffffff.
    [fromisoformat] reads such a text back and raises [ValueError] on a
    text of another shape; calendar ranges and the other ISO-8601 forms that
    Python also reads are not modelled. *)

(** [shape pat s]: [s] follows [pat], where "d" in [pat] stands for a digit
    and any other character for itself. *)
Fixpoint shape (pat s : string) : bool :=
  match pat, s with
  | EmptyString, EmptyString => true
  | String p pat', String c s' =>
      (if Ascii.eqb p "d"%char then is_digit c else Ascii.eqb c p)
      && shape pat' s'
  | _, _ => false
  end.

Definition valid_iso (s : string) : bool :=
  shape "dddd-dd-ddTdd:dd:dd" s || shape "dddd-dd-ddTdd:dd:dd.dddddd" s.

Record datetime : Type := mkDatetime {
  isoformat : string;
  isoformat_valid : valid_iso isoformat = true
}.

Definition parse_iso (s : string) : option datetime :=
  match valid_iso s as b return valid_iso s = b -> option datetime with
  | true => fun H => Some (mkDatetime s H)
  | false => fun _ => None
  end eq_refl.

(** ** Values: what [dict[str, Any]] holds and what [to_dict] builds

    The JSON-shaped values, and [PObject] for whatever else a caller puts
    into a context: an instance, such as [object()], of a class that defines
    none of the special methods read below.  It is truthy, it cannot be
    subscripted or iterated, it has no [get] and no [items], and [json]
    cannot encode it.  [ident] tells two such objects apart. *)
#[warnings="-register-all"]
Inductive pyval : Type :=
| PNone
| PBool (b : bool)
| PInt (z : Z)
| PFloat (q : Q)
| PStr (s : string)
| PList (l : list pyval)
| PDict (d : list (string * pyval))
| PObject (ident : nat).

(** [datetime.fromisoformat(v)]. *)
Definition fromisoformat (v : pyval) : result datetime :=
  match v with
  | PStr s =>
      match parse_iso s with
      | Some d => Ok d
      | None => Raise ValueError
      end
  | _ => Raise TypeError
  end.

(** [bool(v)]. *)
Definition py_truthy (v : pyval) : bool :=
  match v with
  | PNone => false
  | PBool b => b
  | PInt z => negb (z =? 0)%Z
  | PFloat q => negb (Qeq_bool q 0)
  | PStr s => negb (String.eqb s EmptyString)
  | PList l => match l with [] => false | _ => true end
  | PDict d => match d with [] => false | _ => true end
  | PObject _ => true
  end.

(** [v[k]] for a string [k]. *)
Definition py_getitem (v : pyval) (k : string) : result pyval :=
  match v with
  | PDict d =>
      match dict_get d k with
      | Some x => Ok x
      | None => Raise (KeyError k)
      end
  | _ => Raise TypeError
  end.

(** [v.get(k, default)]. *)
Definition py_get (v : pyval) (k : string) (default : pyval) : result pyval :=
  match v with
  | PDict d =>
      match dict_get d k with
      | Some x => Ok x
      | None => Ok default
      end
  | _ => Raise AttributeError
  end.

(** [v.items()]. *)
Definition py_items (v : pyval) : result (list (string * pyval)) :=
  match v with
  | PDict d => Ok d
  | _ => Raise AttributeError
  end.

Fixpoint chars (s : string) : list pyval :=
  match s with
  | EmptyString => []
  | String c s' => PStr (String c EmptyString) :: chars s'
  end.

(** [for x in v]. *)
Definition py_iter (v : pyval) : result (list pyval) :=
  match v with
  | PList l => Ok l
  | PDict d => Ok (map PStr (dict_keys d))
  | PStr s => Ok (chars s)
  | _ => Raise TypeError
  end.

(** Reading a value at its annotated type. *)
Definition as_str (v : pyval) : result string :=
  match v with PStr s => Ok s | _ => IllTyped end.
Definition as_int (v : pyval) : result Z :=
  match v with PInt z => Ok z | _ => IllTyped end.
Definition as_float (v : pyval) : result Q :=
  match v with PFloat q => Ok q | _ => IllTyped end.
Definition as_dict (v : pyval) : result (dict pyval) :=
  match v with PDict d => Ok d | _ => IllTyped end.
Definition as_optional_str (v : pyval) : result (option string) :=
  match v with PNone => Ok None | PStr s => Ok (Some s) | _ => IllTyped end.

(** ** Records *)

Record ChatMessage : Type := mkChatMessage {
  role : string;
  content : string
}.

Record RoutingDecision : Type := mkRoutingDecision {
  agent : string;
  confidence : Q;
  reasoning : string
}.

Record Turn : Type := mkTurn {
  user_message : string;
  assistant_response : string;
  routing : option RoutingDecision;
  tokens_used : Z;
  latency_ms : Q;
  timestamp : datetime
}.

Record Session : Type := mkSession {
  session_id : string;                 (* id *)
  created_at : datetime;
  turns : list Turn;
  context : dict pyval;
  active_surface : option string;
  preferences : dict pyval;
  detected_mood : string
}.

(** [Session(id=..., created_at=...)]: the other fields take their defaults. *)
Definition new_Session (i : string) (now : datetime) : Session :=
  mkSession i now [] [] None [] "neutral".

(** [l.append(x)]. *)
Definition py_append {A} (l : list A) (x : A) : list A := (l ++ [x])%list.

(** [l[start:]] of a list. *)
Definition slice_from {A} (start : Z) (l : list A) : list A :=
  let len := Z.of_nat (List.length l) in
  let i := if (start <? 0)%Z then Z.max 0 (len + start) else Z.min start len in
  skipn (Z.to_nat i) l.

Section Session.
(** The built-in [str()] on context and preference values. *)
Variable py_str : pyval -> string.

(** Mutators; [now] is the clock reading taken for the new turn. *)
Definition add_turn (now : datetime) (user_message assistant_response : string)
           (routing : option RoutingDecision) (tokens_used : Z)
           (latency_ms : Q) (self : Session) : Turn * Session :=
  let turn := mkTurn user_message assistant_response routing tokens_used
                     latency_ms now in
  (turn,
   mkSession (session_id self) (created_at self) (py_append (turns self) turn)
             (context self) (active_surface self) (preferences self)
             (detected_mood self)).

Definition update_context (key : string) (value : pyval) (self : Session)
  : Session :=
  mkSession (session_id self) (created_at self) (turns self)
            (dict_set (context self) key value) (active_surface self)
            (preferences self) (detected_mood self).

Definition set_mood (mood : string) (self : Session) : Session :=
  mkSession (session_id self) (created_at self) (turns self)
            (context self) (active_surface self) (preferences self) mood.

Definition get_chat_history (self : Session) (max_turns : Z)
  : list ChatMessage :=
  let recent_turns :=
    if negb (max_turns =? 0)%Z then slice_from (- max_turns) (turns self)
    else turns self in
  flat_map (fun turn =>
              [mkChatMessage "user" (user_message turn);
               mkChatMessage "assistant" (assistant_response turn)])
           recent_turns.

Definition get_context_summary (self : Session) : string :=
  let parts := [] in
  let parts :=
    match turns self with
    | [] => parts
    | _ =>
        let recent := slice_from (-3) (turns self) in
        let parts := py_append parts "Recent conversation:" in
        fold_left
          (fun parts turn =>
             let parts :=
               py_append parts
                      ("  User: " ++ take 100 (user_message turn) ++ "...") in
             py_append parts
                    ("  Assistant: " ++ take 100 (assistant_response turn)
                                     ++ "..."))
          recent parts
    end in
  let parts :=
    match context self with
    | [] => parts
    | _ =>
        let parts := py_append parts (nl ++ "Context:") in
        fold_left
          (fun parts kv =>
             py_append parts ("  " ++ fst kv ++ ": " ++ py_str (snd kv)))
          (context self) parts
    end in
  let parts :=
    match preferences self with
    | [] => parts
    | _ =>
        let parts := py_append parts (nl ++ "User preferences:") in
        fold_left
          (fun parts kv =>
             py_append parts ("  " ++ fst kv ++ ": " ++ py_str (snd kv)))
          (preferences self) parts
    end in
  let parts :=
    if negb (String.eqb (detected_mood self) "neutral")
    then py_append parts (nl ++ "Detected mood: " ++ detected_mood self)
    else parts in
  join nl parts.
End Session.

Definition total_tokens (self : Session) : Z :=
  fold_left Z.add (map tokens_used (turns self)) 0%Z.

Definition total_turns (self : Session) : nat := List.length (turns self).

(** ** Serialization *)

Definition routing_to_dict (r : option RoutingDecision) : pyval :=
  match r with
  | Some r =>
      PDict [("agent", PStr (agent r));
             ("confidence", PFloat (confidence r));
             ("reasoning", PStr (reasoning r))]
  | None => PNone
  end.

Definition turn_to_dict (t : Turn) : pyval :=
  PDict [("user_message", PStr (user_message t));
         ("assistant_response", PStr (assistant_response t));
         ("routing", routing_to_dict (routing t));
         ("tokens_used", PInt (tokens_used t));
         ("latency_ms", PFloat (latency_ms t));
         ("timestamp", PStr (isoformat (timestamp t)))].

Definition to_dict (self : Session) : pyval :=
  PDict [("id", PStr (session_id self));
         ("created_at", PStr (isoformat (created_at self)));
         ("turns", PList (map turn_to_dict (turns self)));
         ("context", PDict (context self));
         ("preferences", PDict (preferences self));
         ("detected_mood", PStr (detected_mood self));
         ("active_surface",
          match active_surface self with
          | Some x => PStr x
          | None => PNone
          end)].

(** The body of the loop of [from_dict]: one turn. *)
Definition turn_from_dict (turn_data : pyval) : result Turn :=
  let* r := py_get turn_data "routing" PNone in
  let* routing :=
    if py_truthy r then
      let* a := (let* r := py_getitem turn_data "routing" in
                 py_getitem r "agent") in
      let* c := (let* r := py_getitem turn_data "routing" in
                 py_getitem r "confidence") in
      let* e := (let* r := py_getitem turn_data "routing" in
                 py_getitem r "reasoning") in
      let* a := as_str a in
      let* c := as_float c in
      let* e := as_str e in
      Ok (Some (mkRoutingDecision a c e))
    else Ok None in
  let* um := py_getitem turn_data "user_message" in
  let* ar := py_getitem turn_data "assistant_response" in
  let* tu := py_get turn_data "tokens_used" (PInt 0) in
  let* lm := py_get turn_data "latency_ms" (PFloat 0) in
  let* ts := (let* t := py_getitem turn_data "timestamp" in fromisoformat t) in
  let* um := as_str um in
  let* ar := as_str ar in
  let* tu := as_int tu in
  let* lm := as_float lm in
  Ok (mkTurn um ar routing tu lm ts).

Fixpoint turns_from_dict (l : list pyval) : result (list Turn) :=
  match l with
  | [] => Ok []
  | turn_data :: l' =>
      let* t := turn_from_dict turn_data in
      let* ts := turns_from_dict l' in
      Ok (t :: ts)
  end.

Definition from_dict (data : pyval) : result Session :=
  let* i := py_getitem data "id" in
  let* ca := (let* c := py_getitem data "created_at" in fromisoformat c) in
  let* cx := py_get data "context" (PDict []) in
  let* pr := py_get data "preferences" (PDict []) in
  let* dm := py_get data "detected_mood" (PStr "neutral") in
  let* su := py_get data "active_surface" PNone in
  let* i := as_str i in
  let* cx := as_dict cx in
  let* pr := as_dict pr in
  let* dm := as_str dm in
  let* su := as_optional_str su in
  let* td := py_get data "turns" (PList []) in
  let* tl := py_iter td in
  let* ts := turns_from_dict tl in
  Ok (mkSession i ca ts cx su pr dm).

(** ** The session store *)

(** A file is known by what [json.loads] makes of its text: either the text
    is not JSON, or it denotes a value; [json.dumps] writes the text of a
    value that it can encode.  Directories and I/O failures are not
    modelled. *)
Inductive file_text : Type :=
| NotJSON
| JSONText (v : pyval).

(** The values [json.dumps] encodes: those without a [PObject] inside. *)
Fixpoint is_json (v : pyval) : bool :=
  match v with
  | PObject _ => false
  | PList l =>
      (fix all (l : list pyval) : bool :=
         match l with
         | [] => true
         | x :: l' => is_json x && all l'
         end) l
  | PDict d =>
      (fix all (d : list (string * pyval)) : bool :=
         match d with
         | [] => true
         | (_, x) :: d' => is_json x && all d'
         end) d
  | _ => true
  end.

Definition json_loads (t : file_text) : result pyval :=
  match t with
  | NotJSON => Raise JSONDecodeError
  | JSONText v => Ok v
  end.

(** [json.dumps(v, indent=2)]: [TypeError] on a value it cannot encode. *)
Definition json_dumps (v : pyval) : result file_text :=
  if is_json v then Ok (JSONText v) else Raise TypeError.

Record SessionManager : Type := mkSessionManager {
  _sessions : dict Session;
  _persist_path : option string
}.

(** What a method of the store can touch: the store object, the files, and
    the warnings printed so far (one entry per caught exception). *)
Record Env : Type := mkEnv {
  manager : SessionManager;
  files : dict file_text;
  warnings : list PyExc
}.

Definition set_sessions (f : dict Session -> dict Session) (e : Env) : Env :=
  mkEnv (mkSessionManager (f (_sessions (manager e)))
                          (_persist_path (manager e)))
        (files e) (warnings e).

Definition write_text (path : string) (t : file_text) (e : Env) : Env :=
  mkEnv (manager e) (dict_set (files e) path t) (warnings e).

Definition print_warning (x : PyExc) (e : Env) : Env :=
  mkEnv (manager e) (files e) (py_append (warnings e) x).

(** [{key(a): val(a) for a in l}]. *)
Definition dict_comp {A V} (key : A -> string) (val : A -> V) (l : list A)
  : dict V :=
  fold_left (fun d a => dict_set d (key a) (val a)) l [].

Definition _save_sessions : M Env unit :=
  p <- gets (fun e => _persist_path (manager e)) ;;
  match p with
  | None => ret tt
  | Some path =>
      sessions <- gets (fun e => _sessions (manager e)) ;;
      let data := dict_comp fst (fun kv => to_dict (snd kv)) sessions in
      text <- lift (json_dumps (PDict data)) ;;
      modify (write_text path text)
  end.

(** The loop of [_load_sessions]. *)
Fixpoint load_items (items : list (string * pyval)) : M Env unit :=
  match items with
  | [] => ret tt
  | (session_id, session_data) :: rest =>
      s <- lift (from_dict session_data) ;;
      modify (set_sessions (fun d => dict_set d session_id s)) ;;;
      load_items rest
  end.

Definition _load_sessions : M Env unit :=
  p <- gets (fun e => _persist_path (manager e)) ;;
  fs <- gets files ;;
  match p with
  | None => ret tt
  | Some path =>
      match dict_get fs path with
      | None => ret tt
      | Some text =>
          try_except
            (data <- lift (json_loads text) ;;
             items <- lift (py_items data) ;;
             load_items items)
            (fun x =>
               match x with
               | JSONDecodeError | KeyError _ => Some (modify (print_warning x))
               | _ => None
               end)
      end
  end.

(** [SessionManager(persist_path)] run against the files [fs]. *)
Definition new_SessionManager (persist_path : option string)
           (fs : dict file_text) : result unit * Env :=
  let e := mkEnv (mkSessionManager [] persist_path) fs [] in
  match persist_path with
  | Some path =>
      if dict_contains fs path then _load_sessions e else (Ok tt, e)
  | None => (Ok tt, e)
  end.

(** [create_session]: [fresh] is the random token drawn for the id, [now]
    the clock reading. *)
Definition create_session (fresh : string) (now : datetime) : M Env Session :=
  let session := new_Session fresh now in
  modify (set_sessions (fun d => dict_set d (session_id session) session)) ;;;
  ret session.

Definition get_session (session_id : string) : M Env (option Session) :=
  gets (fun e => dict_get (_sessions (manager e)) session_id).

Definition get_or_create_session (fresh : string) (now : datetime)
           (session_id : option string) : M Env Session :=
  sessions <- gets (fun e => _sessions (manager e)) ;;
  match session_id with
  | Some i =>
      if negb (String.eqb i EmptyString) then
        match dict_get sessions i with
        | Some s => ret s
        | None => create_session fresh now
        end
      else create_session fresh now
  | None => create_session fresh now
  end.

Definition delete_session (session_id : string) : M Env bool :=
  sessions <- gets (fun e => _sessions (manager e)) ;;
  if dict_contains sessions session_id then
    modify (set_sessions (fun d => dict_del d session_id)) ;;;
    p <- gets (fun e => _persist_path (manager e)) ;;
    match p with
    | Some _ => _save_sessions
    | None => ret tt
    end ;;;
    ret true
  else ret false.

Definition list_sessions : M Env (list Session) :=
  gets (fun e => dict_values (_sessions (manager e))).

Definition persist : M Env unit :=
  p <- gets (fun e => _persist_path (manager e)) ;;
  match p with
  | Some _ => _save_sessions
  | None => ret tt
  end.

(* ===================================================================== *)
(** * conductor.py *)
(* ===================================================================== *)

(** The fields of [loader.AgentProfile] that the conductor reads. *)
Record AgentProfile : Type := mkAgentProfile {
  name : string;
  category : string;
  agent_role : string                       (* role *)
}.

Record ConductorConfig : Type := mkConductorConfig {
  conductor_model : string;
  default_agent_model_prefix : string;
  max_context_turns : Z;
  routing_temperature : Q;
  response_temperature : Q
}.

Definition default_ConductorConfig : ConductorConfig :=
  mkConductorConfig "ai-way-yollayah" "ai-way-" 10 (3 # 10) (8 # 10).

Record ConductorResponse : Type := mkConductorResponse {
  message : string;
  response_routing : option RoutingDecision;     (* routing *)
  response_tokens_used : Z;                      (* tokens_used *)
  specialist_response : option string
}.

(** ** The inference backend

    One non-streaming request to the backend, as [OllamaClient.generate]
    and [OllamaClient.chat] send it. *)
Inductive BackendCall : Type :=
| Generate (model prompt : string) (temperature : Q)
| Chat (model : string) (messages : list ChatMessage) (temperature : Q).

(** The client is known by its answers: given the requests already sent and
    the request at hand, the [response] text of the reply, or the exception
    of a failed request. *)
Definition OllamaClient : Type :=
  list BackendCall -> BackendCall -> result string.

Record Conductor : Type := mkConductor {
  agents : dict AgentProfile;
  ollama : OllamaClient;
  config : ConductorConfig;
  _agent_catalog : string
}.

(** What [respond] and its sub-steps can touch: the session object they are
    handed, and the backend.  [route_entries] is a ghost counter of the
    entries into [route], the call counter that a test double would keep;
    the source has no such field. *)
Record World : Type := mkWorld {
  session : Session;
  calls : list BackendCall;
  route_entries : nat
}.

Definition log_call (c : BackendCall) (w : World) : World :=
  mkWorld (session w) (py_append (calls w) c) (route_entries w).

Definition enter_route (w : World) : World :=
  mkWorld (session w) (calls w) (S (route_entries w)).

Definition send (self : Conductor) (c : BackendCall) : M World string :=
  sent <- gets calls ;;
  modify (log_call c) ;;;
  lift (ollama self sent c).

Definition _build_agent_catalog (agents : dict AgentProfile) : string :=
  let lines :=
    fold_left
      (fun lines kv =>
         let name := fst kv in
         let agent := snd kv in
         let role :=
           if (150 <? String.length (agent_role agent))%nat
           then take 150 (agent_role agent) ++ "..."
           else agent_role agent in
         py_append lines ("- " ++ name ++ " (" ++ category agent ++ "): " ++ role))
      agents [] in
  join nl lines.

(** [Conductor(agents, ollama, config)]. *)
Definition new_Conductor (agents : list AgentProfile) (ollama : OllamaClient)
           (config : option ConductorConfig) : Conductor :=
  let agents := dict_comp name (fun a => a) agents in
  let config :=
    match config with Some c => c | None => default_ConductorConfig end in
  mkConductor agents ollama config (_build_agent_catalog agents).

(** [try: body  except <caught>: handler] on a pure result. *)
Definition result_try {A} (body : result A) (handler : PyExc -> option (result A))
  : result A :=
  match body with
  | Raise e => match handler e with Some h => h | None => Raise e end
  | other => other
  end.

(** The [for ... else] of the validation: the first catalog name that
    contains [agent] or is contained in it. *)
Fixpoint closest_match (agent : string) (names : list string) : option string :=
  match names with
  | [] => None
  | name :: names' =>
      if py_in agent name || py_in name agent then Some name
      else closest_match agent names'
  end.

Definition _parse_routing_response (self : Conductor) (response : string)
  : result RoutingDecision :=
  let agent := "conductor" in
  let confidence := 1 # 2 in
  let reasoning := "Default routing" in
  (* Parse AGENT line *)
  let agent_match := re_search AGENT_RE response in
  let* agent :=
    match agent_match with
    | Some m => let* g := group_1 m in Ok (lower (strip g))
    | None => Ok agent
    end in
  (* Parse CONFIDENCE line *)
  let conf_match := re_search CONFIDENCE_RE response in
  let* confidence :=
    match conf_match with
    | Some m =>
        result_try
          (let* g := group_1 m in
           let* confidence := py_float g in
           Ok (py_max 0 (py_min 1 confidence)))
          (fun x => match x with ValueError => Some (Ok confidence) | _ => None end)
    | None => Ok confidence
    end in
  (* Parse REASON line *)
  let reason_match := re_search REASON_RE response in
  let* reasoning :=
    match reason_match with
    | Some m => let* g := group_1 m in Ok (strip g)
    | None => Ok reasoning
    end in
  (* Validate agent exists *)
  let '(agent, reasoning) :=
    if negb (String.eqb agent "conductor")
       && negb (dict_contains (agents self) agent)
    then
      match closest_match agent (dict_keys (agents self)) with
      | Some name => (name, reasoning)
      | None =>
          let agent := "conductor" in
          (agent, "Agent '" ++ agent ++ "' not found, handling directly")
      end
    else (agent, reasoning) in
  Ok (mkRoutingDecision agent confidence reasoning).

(** The three prompts, as the f-strings of the source build them. *)
Definition routing_prompt (agent_catalog query context : string) : string :=
  "You are the routing component of Yollayah.

Analyze this query and decide which specialist agent should handle it.
If no specialist is needed (general conversation, simple questions), respond with "
  ++ dq ++ "conductor" ++ dq ++ ".

Available specialists:
" ++ agent_catalog ++ "

Query: " ++ query ++ "

Context from conversation:
" ++ context ++ "

Respond in this exact format:
AGENT: <agent-name>
CONFIDENCE: <0.0-1.0>
REASON: <brief explanation>
".

Definition handoff_prompt (context query agent_name : string) : string :=
  "Context from conversation:
" ++ context ++ "

User query: " ++ query ++ "

Please respond as the " ++ replace_char "-" " " agent_name ++ " specialist.
Focus on your area of expertise. Be helpful and specific.
".

Definition presentation_prompt (agent_name specialist_response query : string)
  : string :=
  "You are Yollayah presenting information from a specialist.

The " ++ replace_char "-" " " agent_name
  ++ " just provided this response to the user's question:

SPECIALIST RESPONSE:
" ++ specialist_response ++ "

USER'S ORIGINAL QUESTION:
" ++ query ++ "

Present this information in your own voice (warm, real, playfully opinionated).
You can:
- Summarize if the response is very technical
- Add encouraging comments
- Ask if they need clarification
- Celebrate if they're making progress

Keep your personality but make sure the specialist's key information comes through.
Don't say " ++ dq ++ "the specialist said" ++ dq
  ++ " - just present it naturally as if you're explaining it.
".

Section Conductor.
Variable py_str : pyval -> string.
Variable self : Conductor.

Definition route (query : string) : M World RoutingDecision :=
  modify enter_route ;;;
  session <- gets session ;;
  let routing_prompt :=
    routing_prompt
      (_agent_catalog self) query
      (match turns session with
       | [] => "No prior context."
       | _ => get_context_summary py_str session
       end) in
  response <- send self (Generate (conductor_model (config self))
                                  routing_prompt
                                  (routing_temperature (config self))) ;;
  lift (_parse_routing_response self response).

Definition handoff (query agent_name : string) : M World string :=
  match dict_get (agents self) agent_name with
  | None => ret ("Agent " ++ agent_name ++ " not found.")
  | Some agent =>
      session <- gets session ;;
      let context := get_context_summary py_str session in
      let handoff_prompt := handoff_prompt context query agent_name in
      let model_name :=
        default_agent_model_prefix (config self) ++ agent_name in
      send self (Generate model_name handoff_prompt
                          (response_temperature (config self)))
  end.

Definition _respond_directly (query : string) : M World string :=
  session <- gets session ;;
  let messages := get_chat_history session (max_context_turns (config self)) in
  let messages := py_append messages (mkChatMessage "user" query) in
  send self (Chat (conductor_model (config self)) messages
                  (response_temperature (config self))).

Definition _present_specialist_response
           (query agent_name specialist_response : string) : M World string :=
  let presentation_prompt :=
    presentation_prompt agent_name specialist_response query in
  send self (Generate (conductor_model (config self)) presentation_prompt
                      (response_temperature (config self))).

(** Truth value of an [Optional[str]]. *)
Definition given (force_agent : option string) : option string :=
  match force_agent with
  | Some f => if String.eqb f EmptyString then None else Some f
  | None => None
  end.

(** Step 1 of [respond]: route, unless forced. *)
Definition respond_step1 (query : string) (force_agent : option string)
  : M World RoutingDecision :=
  match given force_agent with
  | Some f => ret (mkRoutingDecision f 1 "Agent forced by request")
  | None => route query
  end.

(** Step 2 of [respond]: handle based on routing; gives the response text
    and the specialist's raw text. *)
Definition respond_step2 (query : string) (routing : RoutingDecision)
  : M World (string * option string) :=
  if String.eqb (agent routing) "conductor" then
    response_text <- _respond_directly query ;;
    ret (response_text, None)
  else
    specialist_response <- handoff query (agent routing) ;;
    response_text <-
      _present_specialist_response query (agent routing) specialist_response ;;
    ret (response_text, Some specialist_response).

Definition respond (query : string) (force_agent : option string)
  : M World ConductorResponse :=
  routing <- respond_step1 query force_agent ;;
  out <- respond_step2 query routing ;;
  ret (mkConductorResponse (fst out) (Some routing) 0 (snd out)).
End Conductor.

(* ===================================================================== *)
(** * server.py: the chat endpoint *)
(* ===================================================================== *)

Record ChatRequest : Type := mkChatRequest {
  request_message : string;                  (* message *)
  request_session_id : option string;        (* session_id *)
  request_force_agent : option string        (* force_agent *)
}.

(** [latency_ms] is a wall-clock reading and is left out, as it is in
    [ConductorResponse]. *)
Record ChatResponse : Type := mkChatResponse {
  chat_message : string;                     (* message *)
  chat_session_id : string;                  (* session_id *)
  chat_routing : option pyval;               (* routing *)
  chat_tokens_used : Z;                      (* tokens_used *)
  chat_specialist_response : option string   (* specialist_response *)
}.

(** The global [state] of the server with what a request can reach through
    it: the conductor, the session store with its files, and the backend. *)
Record AppState : Type := mkAppState {
  app_conductor : option Conductor;          (* state.conductor *)
  app_dev_mode : bool;                       (* state.dev_mode *)
  app_store : Env;                           (* state.session_manager *)
  app_calls : list BackendCall;
  app_route_entries : nat
}.

(** What an endpoint gives back: its value, or an [HTTPException] with its
    status code; [ReplyIllTyped] carries an [IllTyped] run through. *)
Inductive reply (A : Type) : Type :=
| Reply (a : A)
| HTTPException (status_code : nat)
| ReplyIllTyped.
Arguments Reply {A} a.
Arguments HTTPException {A} status_code.
Arguments ReplyIllTyped {A}.

(** The key under which the store holds the session object that
    [get_or_create_session] returns: the requested id when the store knows
    it, the fresh id otherwise. *)
Definition held_under (fresh : string) (session_id : option string)
           (sessions : dict Session) : string :=
  match session_id with
  | Some i =>
      if negb (String.eqb i EmptyString) && dict_contains sessions i
      then i else fresh
  | None => fresh
  end.

(** [POST /chat].  [fresh] and [created] are the random token and the clock
    reading of a session made on the way, [turn_time] the clock reading of
    the recorded turn, [latency_ms] the duration that [respond] measured.
    The session handed to [respond] is the object the store holds, so the
    turn added to it afterwards is seen in the store. *)
Definition chat (py_str : pyval -> string) (fresh : string)
           (created turn_time : datetime) (latency_ms : Q)
           (request : ChatRequest) (state : AppState)
  : reply ChatResponse * AppState :=
  match app_conductor state with
  | None => (HTTPException 503, state)
  | Some conductor =>
      let key := held_under fresh (request_session_id request)
                            (_sessions (manager (app_store state))) in
      match get_or_create_session fresh created (request_session_id request)
                                  (app_store state) with
      | (Ok held, store) =>
          match respond py_str conductor (request_message request)
                        (request_force_agent request)
                        (mkWorld held (app_calls state)
                                 (app_route_entries state)) with
          | (Ok response, w) =>
              let recorded :=
                snd (add_turn turn_time (request_message request)
                              (message response) (response_routing response)
                              (response_tokens_used response) latency_ms
                              (session w)) in
              let store :=
                set_sessions (fun d => dict_set d key recorded) store in
              let chat_response :=
                mkChatResponse
                  (message response) (session_id recorded)
                  (if app_dev_mode state then
                     match response_routing response with
                     | Some r => Some (routing_to_dict (Some r))
                     | None => None
                     end
                   else None)
                  (response_tokens_used response)
                  (if app_dev_mode state then specialist_response response
                   else None) in
              (Reply chat_response,
               mkAppState (app_conductor state) (app_dev_mode state) store
                          (calls w) (route_entries w))
          | (Raise _, w) =>
              (HTTPException 500,
               mkAppState (app_conductor state) (app_dev_mode state) store
                          (calls w) (route_entries w))
          | (IllTyped, w) =>
              (ReplyIllTyped,
               mkAppState (app_conductor state) (app_dev_mode state) store
                          (calls w) (route_entries w))
          end
      | (Raise _, store) =>
          (HTTPException 500,
           mkAppState (app_conductor state) (app_dev_mode state) store
                      (app_calls state) (app_route_entries state))
      | (IllTyped, store) =>
          (ReplyIllTyped,
           mkAppState (app_conductor state) (app_dev_mode state) store
                      (app_calls state) (app_route_entries state))
      end
  end.

(* ===================================================================== *)
(** * Notions used in the statements *)
(* ===================================================================== *)

(** Every way through the pattern passes the closing bracket of group 1. *)
Fixpoint sets_group (r : regex) : bool :=
  match r with
  | Eps => false
  | Chr _ _ rest => sets_group rest
  | Grp _ _ => true
  | Alt l r' rest => (sets_group l && sets_group r') || sets_group rest
  | Eos rest => sets_group rest
  end.

(** Every character of [s] belongs to the set [cs]. *)
Fixpoint all_in (cs : cset) (s : string) : bool :=
  match s with
  | EmptyString => true
  | String c s' => cset_mem cs c && all_in cs s'
  end.

(** The last [n] elements of a list. *)
Definition last_n {A} (n : nat) (l : list A) : list A :=
  skipn (List.length l - n) l.

(** The two messages a turn contributes to the chat history. *)
Definition turn_messages (t : Turn) : list ChatMessage :=
  [mkChatMessage "user" (user_message t);
   mkChatMessage "assistant" (assistant_response t)].

(** The sections of the context summary, as the specification lists them:
    each is empty when the data behind it is empty. *)
Definition turns_section (s : Session) : list string :=
  match turns s with
  | [] => []
  | _ =>
      "Recent conversation:"
        :: flat_map
             (fun t =>
                ["  User: " ++ take 100 (user_message t) ++ "...";
                 "  Assistant: " ++ take 100 (assistant_response t) ++ "..."])
             (last_n 3 (turns s))
  end.

Definition pairs_section (py_str : pyval -> string) (header : string)
           (d : dict pyval) : list string :=
  match d with
  | [] => []
  | _ => (nl ++ header)
           :: map (fun kv => "  " ++ fst kv ++ ": " ++ py_str (snd kv)) d
  end.

Definition mood_section (s : Session) : list string :=
  if String.eqb (detected_mood s) "neutral" then []
  else [nl ++ "Detected mood: " ++ detected_mood s].

(** A computation leaves the observation [f] of the world as it found it. *)
Definition preserves {A B} (f : World -> B) (m : M World A) : Prop :=
  forall w, f (snd (m w)) = f w.

(** The text the validation writes when no catalog name matches. *)
Definition not_found_reasoning : string :=
  "Agent 'conductor' not found, handling directly".

(** What each of the three patterns extracts from a reply, with the string
    methods the source applies to it; [None] when the line is missing. *)
Definition extract_agent (response : string) : option string :=
  match re_search AGENT_RE response with
  | Some m => option_map (fun g => lower (strip g)) (group1 m)
  | None => None
  end.

Definition extract_confidence (response : string) : option string :=
  match re_search CONFIDENCE_RE response with
  | Some m => group1 m
  | None => None
  end.

Definition extract_reason (response : string) : option string :=
  match re_search REASON_RE response with
  | Some m => option_map strip (group1 m)
  | None => None
  end.

(** The two requests of the specialist path. *)
Definition handoff_request (py_str : pyval -> string) (self : Conductor)
           (query a : string) (w : World) : BackendCall :=
  Generate (default_agent_model_prefix (config self) ++ a)
           (handoff_prompt (get_context_summary py_str (session w)) query a)
           (response_temperature (config self)).

Definition presentation_request (self : Conductor) (query a raw : string)
  : BackendCall :=
  Generate (conductor_model (config self))
           (presentation_prompt a raw query)
           (response_temperature (config self)).

(** The request of [route] and the request of the direct response. *)
Definition routing_request (py_str : pyval -> string) (self : Conductor)
           (query : string) (w : World) : BackendCall :=
  Generate (conductor_model (config self))
           (routing_prompt
              (_agent_catalog self) query
              (match turns (session w) with
               | [] => "No prior context."
               | _ => get_context_summary py_str (session w)
               end))
           (routing_temperature (config self)).

Definition chat_request (self : Conductor) (query : string) (w : World)
  : BackendCall :=
  Chat (conductor_model (config self))
       (py_append (get_chat_history (session w)
                                    (max_context_turns (config self)))
                  (mkChatMessage "user" query))
       (response_temperature (config self)).

(** The role text of an agent as a catalog line shows it. *)
Definition shown_role (a : AgentProfile) : string :=
  if (150 <? String.length (agent_role a))%nat
  then take 150 (agent_role a) ++ "..."
  else agent_role a.

(** A dictionary of [Any] that holds JSON values only. *)
Definition json_values (d : dict pyval) : bool :=
  forallb (fun kv => is_json (snd kv)) d.

(** [json.dumps] can encode what [to_dict] makes of the session: its
    context and its preferences hold JSON values only. *)
Definition serialisable (s : Session) : bool :=
  json_values (context s) && json_values (preferences s).

(** Every session of the store is serialisable. *)
Definition storable (sessions : dict Session) : bool :=
  forallb (fun kv => serialisable (snd kv)) sessions.

(** A reply in the format that the routing prompt asks for. *)
Definition three_line_reply (a c r : string) : string :=
  "AGENT: " ++ a ++ nl ++ "CONFIDENCE: " ++ c ++ nl ++ "REASON: " ++ r.

Fixpoint string_forall (p : ascii -> bool) (s : string) : bool :=
  match s with
  | EmptyString => true
  | String c s' => p c && string_forall p s'
  end.

(** A character of ASCII, U+0000..U+007F. *)
Definition is_ascii (c : ascii) : bool := (code c <? 128)%nat.

(** No character of [s] is a colon. *)
Definition no_colon (s : string) : bool :=
  string_forall (fun ch => negb (Ascii.eqb ch ":"%char)) s.

(** A key word, in lower case: it ends with a colon and holds no newline. *)
Fixpoint keyword_ok (w : string) : bool :=
  match w with
  | EmptyString => false
  | String x EmptyString => Ascii.eqb x ":"%char
  | String x w' => negb (Ascii.eqb x "010"%char) && keyword_ok w'
  end.

(** [a] and [n] match fuzzily: one contains the other. *)
Definition fuzzy (a n : string) : bool := py_in a n || py_in n a.

(** ** Concrete instances *)

Definition ethical_hacker : AgentProfile :=
  mkAgentProfile "ethical-hacker" "security" "Reviews code for security issues".

Definition backend_engineer : AgentProfile :=
  mkAgentProfile "backend-engineer" "engineering" "Designs services and APIs".

(** A backend that answers every request with the same text. *)
Definition constant_backend (text : string) : OllamaClient :=
  fun _ _ => Ok text.

(** A backend that fails every request. *)
Definition failing_backend : OllamaClient := fun _ _ => Raise HTTPError.

(** A conductor without specialists. *)
Definition lone_conductor (backend : OllamaClient) : Conductor :=
  new_Conductor [] backend None.

Definition demo_conductor (backend : OllamaClient) : Conductor :=
  new_Conductor [ethical_hacker; backend_engineer] backend None.

(** A catalog in which two keys contain the word "engineer". *)
Definition two_engineers (backend : OllamaClient) : Conductor :=
  new_Conductor
    [backend_engineer;
     mkAgentProfile "frontend-engineer" "engineering" "Builds user interfaces";
     ethical_hacker]
    backend None.

Definition demo_time : datetime := mkDatetime "2024-01-01T10:00:00" eq_refl.

Definition demo_session : Session := new_Session "abcd1234" demo_time.

Definition demo_world : World := mkWorld demo_session [] 0.

Definition three_turns : Session :=
  snd (add_turn demo_time "third" "3" None 0 0
        (snd (add_turn demo_time "second" "2" None 0 0
          (snd (add_turn demo_time "first" "1" None 0 0 demo_session))))).

Definition snapshot_path : string := "logs/sessions.json".

(** Snapshot texts: a JSON list; a session whose time stamp is no ISO text;
    a good session followed by an entry without an id. *)
Definition snapshot_list : dict file_text :=
  [(snapshot_path, JSONText (PList []))].

Definition snapshot_bad_time : dict file_text :=
  [(snapshot_path,
    JSONText (PDict [("s1", PDict [("id", PStr "s1");
                                   ("created_at", PStr "yesterday")])]))].

Definition snapshot_second_broken : dict file_text :=
  [(snapshot_path,
    JSONText (PDict [("abcd1234", to_dict demo_session);
                     ("b", PDict [])]))].

Definition snapshot_not_json : dict file_text := [(snapshot_path, NotJSON)].

(** A store holding two sessions, with persistence on. *)
Definition two_sessions : Env :=
  mkEnv (mkSessionManager
           [("abcd1234", demo_session);
            ("ffff0000", new_Session "ffff0000" demo_time)]
           (Some snapshot_path))
        [] [].


(** A server outside developer mode, with two sessions in its store. *)
Definition demo_state : AppState :=
  mkAppState (Some (demo_conductor (constant_backend "ok"))) false
             two_sessions [] 0.

(** [str()] on the values the examples use: strings. *)
Definition demo_str (v : pyval) : string :=
  match v with
  | PStr s => s
  | _ => EmptyString
  end.

(* ===================================================================== *)
(** * Regular expressions: groups and keywords *)
(* ===================================================================== *)

Lemma m_greedy_star_reaches cs k s m :
  m_greedy_star cs k s = Some m -> exists s', k s' = Some m.
Proof.
  induction s as [|c s IH]; simpl; intros H.
  - now exists EmptyString.
  - destruct (cset_mem cs c).
    + destruct (m_greedy_star cs k s) eqn:E.
      * inversion H; subst. now apply IH.
      * now exists (String c s).
    + now exists (String c s).
Qed.

Lemma m_lazy_star_reaches cs k s m :
  m_lazy_star cs k s = Some m -> exists s', k s' = Some m.
Proof.
  induction s as [|c s IH]; simpl; intros H.
  - destruct (k EmptyString) eqn:E; [|discriminate].
    inversion H; subst. now exists EmptyString.
  - destruct (k (String c s)) eqn:E.
    + inversion H; subst. now exists (String c s).
    + destruct (cset_mem cs c); [now apply IH | discriminate].
Qed.

Lemma m_quant_reaches cs k q s m :
  m_quant cs k q s = Some m -> exists s', k s' = Some m.
Proof.
  unfold m_quant, m_one. intros H.
  destruct q; try (now apply m_greedy_star_reaches in H);
    destruct s as [|c s]; try discriminate;
    destruct (cset_mem cs c); try discriminate.
  - now exists s.
  - now apply m_greedy_star_reaches in H.
  - now apply m_lazy_star_reaches in H.
Qed.

(** A successful run reaches its continuation, and by then group 1 is set
    if the pattern sets it or if it was set before. *)
Lemma run_reaches r : forall s cap k m,
  run r s cap k = Some m ->
  exists s' cap',
    k s' cap' = Some m
    /\ (sets_group r = true \/ cap <> None -> cap' <> None).
Proof.
  induction r as [|cs q rest IH|body IHb rest IHr|l IHl r' IHr' rest IHr|rest IH];
    intros s cap k m H; simpl in H.
  - exists s, cap. split; [assumption|]. intros [E|E]; [discriminate|assumption].
  - apply m_quant_reaches in H as [s' H]. simpl. now apply IH in H.
  - apply IHb in H as (s1 & cap1 & H & _).
    apply IHr in H as (s2 & cap2 & H & Hc).
    exists s2, cap2. split; [assumption|]. intros _. apply Hc. right. discriminate.
  - assert (G : exists s1 cap1,
                 run rest s1 cap1 k = Some m
                 /\ ((sets_group l = true /\ sets_group r' = true) \/ cap <> None
                     -> cap1 <> None)).
    { destruct (run l s cap (fun s' c => run rest s' c k)) eqn:E.
      - inversion H; subst. apply IHl in E as (s1 & cap1 & E & Hc).
        exists s1, cap1. split; [assumption|]. intros [[A _]|A]; auto.
      - apply IHr' in H as (s1 & cap1 & E' & Hc).
        exists s1, cap1. split; [assumption|]. intros [[_ A]|A]; auto. }
    destruct G as (s1 & cap1 & G & Hc1).
    apply IHr in G as (s2 & cap2 & G & Hc2).
    exists s2, cap2. split; [assumption|]. simpl. intros [E|E].
    + apply orb_true_iff in E as [E|E].
      * apply andb_true_iff in E. apply Hc2. right. apply Hc1. now left.
      * apply Hc2. now left.
    + apply Hc2. right. apply Hc1. now right.
  - destruct (at_eos s); [|discriminate]. simpl. now apply IH in H.
Qed.

Lemma match_here_group r s m :
  sets_group r = true -> match_here r s = Some m ->
  exists g, group1 m = Some g.
Proof.
  intros Hs H. apply run_reaches in H as (s' & cap' & H & Hc).
  inversion H; subst. simpl.
  destruct cap' as [g|]; [now exists g|]. exfalso. apply Hc; auto.
Qed.

Lemma re_search_group r s m :
  sets_group r = true -> re_search r s = Some m ->
  exists g, group1 m = Some g.
Proof.
  intros Hs. induction s as [|c s IH]; simpl; intros H.
  - destruct (match_here r EmptyString) eqn:E; [|discriminate].
    inversion H; subst. eapply match_here_group; eauto.
  - destruct (match_here r (String c s)) eqn:E.
    + inversion H; subst. eapply match_here_group; eauto.
    + now apply IH.
Qed.

(** A pattern that opens with a word only matches where the text has that
    word, whatever the case of the letters. *)
Lemma run_lits_prefix w rest : forall s cap k m,
  run (lits w rest) s cap k = Some m -> prefix (lower w) (lower s) = true.
Proof.
  induction w as [|c w IH]; intros s cap k m H; simpl.
  - now destruct (lower s).
  - simpl in H. unfold m_one in H. destruct s as [|c' s]; [discriminate|].
    simpl in *.
    destruct (Ascii.eqb (lower_char c') (lower_char c)) eqn:E; [|discriminate].
    apply Ascii.eqb_eq in E. rewrite E.
    destruct (ascii_dec (lower_char c) (lower_char c)); [|congruence].
    eapply IH; eauto.
Qed.

Lemma py_in_cons_false sub c s :
  py_in sub (String c s) = false ->
  prefix sub (String c s) = false /\ py_in sub s = false.
Proof.
  intros H.
  change (py_in sub (String c s))
    with (if prefix sub (String c s) then true else py_in sub s) in H.
  destruct (prefix sub (String c s)); [discriminate H|auto].
Qed.

Lemma py_in_nil_false sub :
  py_in sub EmptyString = false -> prefix sub EmptyString = false.
Proof.
  intros H.
  change (py_in sub EmptyString)
    with (if prefix sub EmptyString then true else false) in H.
  destruct (prefix sub EmptyString); [discriminate H|auto].
Qed.

Lemma re_search_keyword w rest s :
  py_in (lower w) (lower s) = false -> re_search (lits w rest) s = None.
Proof.
  induction s as [|c s IH]; intros H.
  - apply py_in_nil_false in H. simpl.
    destruct (match_here (lits w rest) EmptyString) eqn:E; [|reflexivity].
    apply run_lits_prefix in E. simpl (lower EmptyString) in E. congruence.
  - change (lower (String c s)) with (String (lower_char c) (lower s)) in H.
    apply py_in_cons_false in H as [H1 H2]. simpl.
    destruct (match_here (lits w rest) (String c s)) eqn:E.
    + apply run_lits_prefix in E. simpl (lower (String c s)) in E. congruence.
    + now apply IH.
Qed.

(** What a greedy loop reads lies in its character set. *)
Lemma m_greedy_star_splits cs k s m :
  m_greedy_star cs k s = Some m ->
  exists p s', s = p ++ s' /\ all_in cs p = true /\ k s' = Some m.
Proof.
  induction s as [|c s IH]; simpl; intros H.
  - exists EmptyString, EmptyString. auto.
  - destruct (cset_mem cs c) eqn:E.
    + destruct (m_greedy_star cs k s) eqn:E2.
      * inversion H; subst. destruct (IH eq_refl) as (p & s' & -> & Hp & Hk).
        exists (String c p), s'. simpl. rewrite E, Hp. auto.
      * exists EmptyString, (String c s). auto.
    + exists EmptyString, (String c s). auto.
Qed.

Lemma length_append (p s : string) :
  String.length (p ++ s) = (String.length p + String.length s)%nat.
Proof. induction p as [|c p IH]; simpl; [reflexivity|now rewrite IH]. Qed.

Lemma take_length_append (p s : string) : take (String.length p) (p ++ s) = p.
Proof.
  unfold take. induction p as [|c p IH]; simpl.
  - now destruct s.
  - now rewrite IH.
Qed.

Lemma consumed_append (p s : string) : consumed (p ++ s) s = p.
Proof.
  unfold consumed. rewrite length_append.
  replace (String.length p + String.length s - String.length s)%nat
    with (String.length p) by lia.
  apply take_length_append.
Qed.

Lemma run_lits_reaches w rest : forall s cap k m,
  run (lits w rest) s cap k = Some m ->
  exists s', run rest s' cap k = Some m.
Proof.
  induction w as [|c w IH]; intros s cap k m H; cbn [lits run] in H.
  - now exists s.
  - apply m_quant_reaches in H as [s1 H]. now apply IH in H.
Qed.

Lemma re_search_suffix r s m :
  re_search r s = Some m -> exists s', match_here r s' = Some m.
Proof.
  induction s as [|c s IH]; simpl; intros H.
  - destruct (match_here r EmptyString) eqn:E; [|discriminate].
    inversion H; subst. now exists EmptyString.
  - destruct (match_here r (String c s)) eqn:E.
    + inversion H; subst. now exists (String c s).
    + now apply IH.
Qed.

(** The text that the confidence pattern captures is a non-empty run of
    digits and dots: [py_float] is applied to no other text. *)
Lemma confidence_group_shape response g :
  extract_confidence response = Some g ->
  g <> EmptyString /\ all_in CDigitDot g = true.
Proof.
  unfold extract_confidence.
  destruct (re_search CONFIDENCE_RE response) as [m|] eqn:E; [|discriminate].
  intros Hg. apply re_search_suffix in E as [s0 E].
  unfold match_here, CONFIDENCE_RE in E.
  apply run_lits_reaches in E as [s1 E]. cbn [run] in E.
  apply m_quant_reaches in E as [s2 E]. unfold m_quant in E.
  destruct s2 as [|c s2]; [discriminate E|].
  destruct (cset_mem CDigitDot c) eqn:Ec; [|discriminate E].
  apply m_greedy_star_splits in E as (p & s3 & -> & Hp & E).
  inversion E as [Hm]. rewrite <- Hm in Hg. cbn [group1] in Hg.
  change (String c (p ++ s3)) with (String c p ++ s3) in Hg.
  rewrite consumed_append in Hg. inversion Hg; subst.
  split; [discriminate|]. cbn [all_in]. now rewrite Ec, Hp.
Qed.

(* ===================================================================== *)
(** * Parsing the routing reply *)
(* ===================================================================== *)

Lemma py_float_cases g :
  (exists c, py_float g = Ok c) \/ py_float g = Raise ValueError.
Proof.
  unfold py_float. destruct (scan_decimal g 0 1 0 false); eauto.
Qed.

Lemma clamp_bounds c :
  (0 <= py_max 0 (py_min 1 c) /\ py_max 0 (py_min 1 c) <= 1)%Q.
Proof.
  unfold py_max, py_min, Qltb.
  destruct (Qle_bool 1 c) eqn:E1; simpl.
  - split; [discriminate | apply Qle_refl].
  - assert (H1 : (c < 1)%Q).
    { apply Qnot_le_lt. intros H. apply Qle_bool_iff in H. congruence. }
    destruct (Qle_bool c 0) eqn:E0; simpl.
    + split; [apply Qle_refl | discriminate].
    + split; [|now apply Qlt_le_weak].
      apply Qlt_le_weak, Qnot_le_lt. intros H. apply Qle_bool_iff in H.
      congruence.
Qed.

(** A value already in the interval is kept as it is. *)
Lemma clamp_inside c :
  (0 < c)%Q -> (c < 1)%Q -> py_max 0 (py_min 1 c) = c.
Proof.
  intros H0 H1. unfold py_max, py_min, Qltb.
  assert (E1 : Qle_bool 1 c = false).
  { destruct (Qle_bool 1 c) eqn:E; [|reflexivity].
    apply Qle_bool_iff in E. exfalso. exact (Qlt_not_le _ _ H1 E). }
  rewrite E1. simpl.
  assert (E0 : Qle_bool c 0 = false).
  { destruct (Qle_bool c 0) eqn:E; [|reflexivity].
    apply Qle_bool_iff in E. exfalso. exact (Qlt_not_le _ _ H0 E). }
  now rewrite E0.
Qed.

Lemma extract_agent_none response :
  extract_agent response = None <-> re_search AGENT_RE response = None.
Proof.
  unfold extract_agent. split; intros H.
  - destruct (re_search AGENT_RE response) as [m|] eqn:E; [|reflexivity].
    destruct (re_search_group AGENT_RE _ _ eq_refl E) as [g Hg].
    rewrite Hg in H. discriminate H.
  - now rewrite H.
Qed.

Lemma extract_confidence_none response :
  extract_confidence response = None <-> re_search CONFIDENCE_RE response = None.
Proof.
  unfold extract_confidence. split; intros H.
  - destruct (re_search CONFIDENCE_RE response) as [m|] eqn:E; [|reflexivity].
    destruct (re_search_group CONFIDENCE_RE _ _ eq_refl E) as [g Hg]. congruence.
  - now rewrite H.
Qed.

Lemma extract_reason_none response :
  extract_reason response = None <-> re_search REASON_RE response = None.
Proof.
  unfold extract_reason. split; intros H.
  - destruct (re_search REASON_RE response) as [m|] eqn:E; [|reflexivity].
    destruct (re_search_group REASON_RE _ _ eq_refl E) as [g Hg].
    rewrite Hg in H. discriminate H.
  - now rewrite H.
Qed.

(** A reply without the key word of a line, in any case of letters, has
    that line missing (for text of the alphabet of the embedding). *)
Lemma missing_keyword response :
  (py_in "agent:" (lower response) = false -> extract_agent response = None)
  /\ (py_in "confidence:" (lower response) = false ->
      extract_confidence response = None)
  /\ (py_in "reason:" (lower response) = false ->
      extract_reason response = None).
Proof.
  repeat split; intros H.
  - apply extract_agent_none.
    exact (re_search_keyword "AGENT:" _ response H).
  - apply extract_confidence_none.
    exact (re_search_keyword "CONFIDENCE:" _ response H).
  - apply extract_reason_none.
    exact (re_search_keyword "REASON:" _ response H).
Qed.

(** The parse, read as a function of the three extractions. *)
Lemma parse_unfold self response :
  _parse_routing_response self response =
  Ok (let a :=
        match extract_agent response with Some a => a | None => "conductor" end in
      let c :=
        match extract_confidence response with
        | Some g =>
            match py_float g with
            | Ok c => py_max 0 (py_min 1 c)
            | _ => 1 # 2
            end
        | None => 1 # 2
        end in
      let r :=
        match extract_reason response with
        | Some r => r
        | None => "Default routing"
        end in
      if negb (String.eqb a "conductor") && negb (dict_contains (agents self) a)
      then match closest_match a (dict_keys (agents self)) with
           | Some n => mkRoutingDecision n c r
           | None => mkRoutingDecision "conductor" c not_found_reasoning
           end
      else mkRoutingDecision a c r).
Proof.
  unfold _parse_routing_response, extract_agent, extract_confidence,
    extract_reason, group_1.
  destruct (re_search AGENT_RE response) as [ma|] eqn:EA.
  2: destruct (re_search CONFIDENCE_RE response) as [mc|] eqn:EC.
  1: destruct (re_search_group AGENT_RE _ _ eq_refl EA) as [ga Hga]; rewrite Hga;
     destruct (re_search CONFIDENCE_RE response) as [mc|] eqn:EC.
  all: try (destruct (re_search_group CONFIDENCE_RE _ _ eq_refl EC) as [gc Hgc];
            rewrite Hgc; cbn [rbind];
            destruct (py_float_cases gc) as [[c Hc]|Hc]; rewrite Hc).
  all: destruct (re_search REASON_RE response) as [mr|] eqn:ER.
  all: try (destruct (re_search_group REASON_RE _ _ eq_refl ER) as [gr Hgr];
            rewrite Hgr).
  all: cbn [rbind result_try option_map].
  all: match goal with
       | |- context [negb (String.eqb ?a "conductor") && negb (dict_contains ?d ?a)] =>
           destruct (negb (String.eqb a "conductor") && negb (dict_contains d a));
           [destruct (closest_match a (dict_keys d))|]
       end.
  all: reflexivity.
Qed.

Ltac split_all := repeat match goal with |- _ /\ _ => split end.

(** C1 (amended).  For every reply, of any content, the parse raises
    nothing and returns a decision whose confidence lies in [0, 1].  A
    missing AGENT line gives the handler "conductor"; a missing CONFIDENCE
    line, or one whose number is not a float literal, gives 0.5; a float
    literal is clamped.  A missing REASON line gives "Default routing",
    except that a handler found nowhere in the catalog replaces the
    reasoning by the not-found text. *)
Theorem parse_routing_response_defaults :
  forall (self : Conductor) (response : string),
  exists d,
    _parse_routing_response self response = Ok d
    /\ (0 <= confidence d /\ confidence d <= 1)%Q
    /\ (extract_agent response = None -> agent d = "conductor")
    /\ (extract_confidence response = None -> confidence d = 1 # 2)
    /\ (forall g, extract_confidence response = Some g ->
                  py_float g = Raise ValueError -> confidence d = 1 # 2)
    /\ (forall g c, extract_confidence response = Some g ->
                    py_float g = Ok c ->
                    confidence d = py_max 0 (py_min 1 c))
    /\ (extract_reason response = None ->
        reasoning d = "Default routing"
        \/ (agent d = "conductor" /\ reasoning d = not_found_reasoning))
    /\ (extract_agent response = None -> extract_reason response = None ->
        reasoning d = "Default routing").
Proof.
  intros self response. rewrite parse_unfold.
  eexists. split; [reflexivity|].
  assert (Hhalf : (0 <= 1 # 2 /\ 1 # 2 <= 1)%Q) by (split; discriminate).
  destruct (extract_agent response) as [a|];
    destruct (extract_confidence response) as [g|];
    try (destruct (py_float_cases g) as [[c Hc]|Hc]; rewrite Hc;
         try pose proof (clamp_bounds c));
    destruct (extract_reason response) as [r|];
    cbv zeta; rewrite ?String.eqb_refl; cbn [negb andb];
    try match goal with
    | |- context [negb (String.eqb ?x "conductor") && negb (dict_contains ?d ?x)] =>
        destruct (negb (String.eqb x "conductor") && negb (dict_contains d x));
        [destruct (closest_match x (dict_keys d))|]
    end;
    cbn [agent confidence reasoning];
    split_all; intros; try assumption; try discriminate; try tauto;
    try congruence; auto.
Qed.

(** C1, as stated, fails: on the empty reply the reasoning is "Default
    routing", not "default routing"; and on a reply with an unknown handler
    and no REASON line the reasoning is the not-found text. *)
Lemma parse_reasoning_counterexample :
  (exists d,
      _parse_routing_response (demo_conductor (constant_backend "ok"))
                              EmptyString = Ok d
      /\ reasoning d = "Default routing"
      /\ reasoning d <> "default routing")
  /\ (extract_reason "AGENT: zzz" = None
      /\ exists d,
          _parse_routing_response (demo_conductor (constant_backend "ok"))
                                  "AGENT: zzz" = Ok d
          /\ reasoning d = not_found_reasoning
          /\ reasoning d <> "default routing").
Proof.
  split; [|split; [reflexivity|]].
  - eexists. split; [vm_compute; reflexivity|]. split; [reflexivity|discriminate].
  - eexists. split; [vm_compute; reflexivity|]. split; [reflexivity|discriminate].
Qed.

(** Malformed replies, evaluated. *)
Example parse_non_numeric_confidence :
  _parse_routing_response
    (demo_conductor (constant_backend "ok"))
    ("agent: Ethical-Hacker" ++ nl ++ "confidence: 1.2.3" ++ nl
       ++ "reason: two dots")
  = Ok (mkRoutingDecision "ethical-hacker" (1 # 2) "two dots").
Proof. vm_compute. reflexivity. Qed.

Example parse_confidence_clamped :
  _parse_routing_response
    (demo_conductor (constant_backend "ok"))
    ("AGENT: backend-engineer" ++ nl ++ "CONFIDENCE: 7.5" ++ nl ++ "REASON: x")
  = Ok (mkRoutingDecision "backend-engineer" 1 "x").
Proof. vm_compute. reflexivity. Qed.

Example parse_well_formed :
  exists d,
    _parse_routing_response
      (demo_conductor (constant_backend "ok"))
      ("AGENT: ethical-hacker" ++ nl ++ "CONFIDENCE: 0.92" ++ nl
         ++ "REASON: Query about security review") = Ok d
    /\ agent d = "ethical-hacker"
    /\ (confidence d == 92 # 100)%Q
    /\ reasoning d = "Query about security review".
Proof.
  eexists. split; [vm_compute; reflexivity|]. repeat split.
Qed.

(* ===================================================================== *)
(** * Validation against the catalog *)
(* ===================================================================== *)

Lemma closest_match_first a : forall names before n after,
  names = (before ++ n :: after)%list ->
  (forall x, In x before -> fuzzy a x = false) ->
  fuzzy a n = true ->
  closest_match a names = Some n.
Proof.
  intros names before. revert names.
  induction before as [|b before IH]; intros names n after -> Hb Hn; simpl.
  - unfold fuzzy in Hn. now rewrite Hn.
  - assert (Hx : fuzzy a b = false) by (apply Hb; now left).
    unfold fuzzy in Hx. rewrite Hx.
    eapply IH; [reflexivity| |assumption].
    intros x Hin. apply Hb. now right.
Qed.

Lemma closest_match_none a names :
  (forall x, In x names -> fuzzy a x = false) ->
  closest_match a names = None.
Proof.
  induction names as [|b names IH]; intros H; simpl; [reflexivity|].
  assert (Hx : fuzzy a b = false) by (apply H; now left).
  unfold fuzzy in Hx. rewrite Hx. apply IH. intros x Hin. apply H. now right.
Qed.

Lemma closest_match_in a names n :
  closest_match a names = Some n -> In n names /\ fuzzy a n = true.
Proof.
  induction names as [|b names IH]; simpl; [discriminate|].
  destruct (py_in a b || py_in b a) eqn:E.
  - intros H. inversion H; subst. split; [now left|exact E].
  - intros H. destruct (IH H). split; [now right|assumption].
Qed.

Lemma dict_get_in_keys {V} (d : dict V) k :
  In k (dict_keys d) -> dict_contains d k = true.
Proof.
  unfold dict_contains.
  induction d as [|[k' v] d IH]; simpl; [tauto|].
  intros [H|H].
  - subst. now rewrite String.eqb_refl.
  - destruct (String.eqb k' k); [reflexivity|now apply IH].
Qed.

(** C2.  When the extracted handler is neither the sentinel nor a catalog
    key, the catalog keys are scanned in their order and the first one that
    contains the handler or is contained in it becomes the handler; when no
    key matches, the handler is "conductor" and the reasoning is the
    not-found text. *)
Theorem fuzzy_match_first_wins :
  forall (self : Conductor) (response a : string),
    extract_agent response = Some a ->
    a <> "conductor" ->
    dict_contains (agents self) a = false ->
    exists d,
      _parse_routing_response self response = Ok d
      /\ (forall before n after,
            dict_keys (agents self) = (before ++ n :: after)%list ->
            (forall x, In x before -> fuzzy a x = false) ->
            fuzzy a n = true ->
            agent d = n)
      /\ ((forall x, In x (dict_keys (agents self)) -> fuzzy a x = false) ->
          agent d = "conductor" /\ reasoning d = not_found_reasoning).
Proof.
  intros self response a Ha Hne Hnot. rewrite parse_unfold, Ha. cbv zeta.
  apply String.eqb_neq in Hne. rewrite Hne, Hnot. cbn [negb andb].
  eexists. split; [reflexivity|]. split.
  - intros before n after Hk Hb Hn.
    now rewrite (closest_match_first a _ before n after Hk Hb Hn).
  - intros Hall. now rewrite (closest_match_none a _ Hall).
Qed.

(** The instance named in C2: catalog ethical-hacker, backend-engineer and
    extracted handler "hacker". *)
Lemma fuzzy_match_hacker :
  exists d,
    _parse_routing_response (demo_conductor (constant_backend "ok"))
                            "AGENT: hacker" = Ok d
    /\ agent d = "ethical-hacker".
Proof.
  destruct (fuzzy_match_first_wins
              (demo_conductor (constant_backend "ok")) "AGENT: hacker" "hacker"
              eq_refl ltac:(discriminate) eq_refl)
    as (d & Hd & Hfirst & _).
  exists d. split; [exact Hd|].
  apply (Hfirst [] "ethical-hacker" ["backend-engineer"]).
  - reflexivity.
  - intros x [].
  - reflexivity.
Defined.

(** With two keys that match, the one met first in the catalog wins. *)
Example fuzzy_match_order :
  _parse_routing_response (two_engineers (constant_backend "ok"))
                          ("AGENT: Engineer" ++ nl ++ "REASON: build it")
  = Ok (mkRoutingDecision "backend-engineer" (1 # 2) "build it").
Proof. vm_compute. reflexivity. Qed.

(* ===================================================================== *)
(** * Effects of the orchestrator *)
(* ===================================================================== *)

Lemma send_run self c w :
  send self c w = (ollama self (calls w) c, log_call c w).
Proof. reflexivity. Qed.

Lemma bind_ret_run {St A B} (a : A) (k : A -> M St B) st :
  bind (ret a) k st = k a st.
Proof. reflexivity. Qed.

Section Frame.
Context {B : Type} (f : World -> B).
Hypothesis f_log : forall c w, f (log_call c w) = f w.

Lemma preserves_ret {A} (a : A) : preserves f (ret a).
Proof. intros w. reflexivity. Qed.

Lemma preserves_gets {A} (g : World -> A) : preserves f (gets g).
Proof. intros w. reflexivity. Qed.

Lemma preserves_lift {A} (r : result A) : preserves f (lift r).
Proof. intros w. reflexivity. Qed.

Lemma preserves_bind {A C} (m : M World A) (k : A -> M World C) :
  preserves f m -> (forall a, preserves f (k a)) -> preserves f (bind m k).
Proof.
  intros Hm Hk w. unfold bind. specialize (Hm w).
  destruct (m w) as [[a|e|] w']; simpl in *; [|assumption|assumption].
  now rewrite Hk.
Qed.

Lemma preserves_send self c : preserves f (send self c).
Proof. intros w. rewrite send_run. simpl. apply f_log. Qed.

Variable py_str : pyval -> string.
Variable self : Conductor.

Lemma preserves_handoff query agent_name :
  preserves f (handoff py_str self query agent_name).
Proof.
  unfold handoff. destruct (dict_get (agents self) agent_name).
  - apply preserves_bind; [apply preserves_gets|].
    intros s. apply preserves_send.
  - apply preserves_ret.
Qed.

Lemma preserves_respond_directly query :
  preserves f (_respond_directly self query).
Proof.
  unfold _respond_directly. apply preserves_bind; [apply preserves_gets|].
  intros s. apply preserves_send.
Qed.

Lemma preserves_present query agent_name raw :
  preserves f (_present_specialist_response self query agent_name raw).
Proof. apply preserves_send. Qed.

Lemma preserves_step2 query routing :
  preserves f (respond_step2 py_str self query routing).
Proof.
  unfold respond_step2. destruct (String.eqb (agent routing) "conductor").
  - apply preserves_bind; [apply preserves_respond_directly|].
    intros t. apply preserves_ret.
  - apply preserves_bind; [apply preserves_handoff|].
    intros raw. apply preserves_bind; [apply preserves_present|].
    intros t. apply preserves_ret.
Qed.

(** [route] also counts its entry, which [f] must not see. *)
Hypothesis f_enter : forall w, f (enter_route w) = f w.

Lemma preserves_route query : preserves f (route py_str self query).
Proof.
  unfold route. apply preserves_bind.
  - intros w. simpl. apply f_enter.
  - intros _. apply preserves_bind; [apply preserves_gets|].
    intros s. apply preserves_bind; [apply preserves_send|].
    intros t. apply preserves_lift.
Qed.

Lemma preserves_step1 query force_agent :
  preserves f (respond_step1 py_str self query force_agent).
Proof.
  unfold respond_step1. destruct (given force_agent).
  - apply preserves_ret.
  - apply preserves_route.
Qed.

Lemma preserves_respond query force_agent :
  preserves f (respond py_str self query force_agent).
Proof.
  unfold respond. apply preserves_bind; [apply preserves_step1|].
  intros routing. apply preserves_bind; [apply preserves_step2|].
  intros out. apply preserves_ret.
Qed.
End Frame.

(** C5.  [respond], and each of its sub-steps, leaves the session object
    as it found it, whatever the backend answers and whether or not the
    call raises: turns, context, preferences, mood and surface are those of
    before the call. *)
Theorem respond_leaves_session :
  forall (py_str : pyval -> string) (self : Conductor) (query : string)
         (force_agent : option string) (w : World),
    session (snd (respond py_str self query force_agent w)) = session w
    /\ session (snd (route py_str self query w)) = session w
    /\ (forall a, session (snd (handoff py_str self query a w)) = session w)
    /\ session (snd (_respond_directly self query w)) = session w
    /\ (forall a raw,
          session (snd (_present_specialist_response self query a raw w))
          = session w).
Proof.
  intros py_str self query force_agent w.
  assert (Hlog : forall c w, session (log_call c w) = session w)
    by reflexivity.
  assert (Hent : forall w, session (enter_route w) = session w)
    by reflexivity.
  split_all; intros.
  - now apply preserves_respond.
  - now apply preserves_route.
  - now apply preserves_handoff.
  - now apply preserves_respond_directly.
  - now apply preserves_present.
Qed.

Lemma given_some f : f <> EmptyString -> given (Some f) = Some f.
Proof.
  intros H. unfold given. apply String.eqb_neq in H. now rewrite H.
Qed.

(** With a backend that answers every request, step 2 returns. *)
Lemma step2_returns py_str self query routing w :
  (forall sent c, exists t, ollama self sent c = Ok t) ->
  exists out w', respond_step2 py_str self query routing w = (Ok out, w').
Proof.
  intros Hb. unfold respond_step2.
  destruct (String.eqb (agent routing) "conductor").
  - unfold _respond_directly, bind, gets. rewrite send_run.
    match goal with |- context [ollama self ?h ?c] =>
      destruct (Hb h c) as [t ->] end.
    do 2 eexists; reflexivity.
  - unfold handoff. destruct (dict_get (agents self) (agent routing)).
    + unfold bind at 1. unfold bind at 1. unfold gets. rewrite send_run.
      match goal with |- context [ollama self ?h ?c] =>
        destruct (Hb h c) as [t ->] end.
      unfold _present_specialist_response, bind. rewrite send_run.
      match goal with |- context [ollama self ?h ?c] =>
        destruct (Hb h c) as [t' ->] end.
      do 2 eexists; reflexivity.
    + rewrite bind_ret_run.
      unfold _present_specialist_response, bind. rewrite send_run.
      match goal with |- context [ollama self ?h ?c] =>
        destruct (Hb h c) as [t' ->] end.
      do 2 eexists; reflexivity.
Qed.

(** Step 2 sends at most two requests. *)
Lemma step2_calls py_str self query routing w :
  (List.length (calls (snd (respond_step2 py_str self query routing w)))
   <= List.length (calls w) + 2)%nat.
Proof.
  unfold respond_step2.
  destruct (String.eqb (agent routing) "conductor").
  - unfold _respond_directly, bind, gets. rewrite send_run.
    destruct (ollama self _ _); simpl; unfold py_append;
      rewrite length_app; simpl; lia.
  - unfold handoff. destruct (dict_get (agents self) (agent routing)).
    + unfold bind at 1. unfold bind at 1. unfold gets. rewrite send_run.
      destruct (ollama self _ _); simpl;
        try (unfold py_append; rewrite length_app; simpl; lia).
      unfold _present_specialist_response, bind. rewrite send_run.
      destruct (ollama self _ _); simpl; unfold py_append;
        rewrite !length_app; simpl; lia.
    + rewrite bind_ret_run.
      unfold _present_specialist_response, bind. rewrite send_run.
      destruct (ollama self _ _); simpl; unfold py_append;
        rewrite length_app; simpl; lia.
Qed.

Lemma bind_send_run {A} self c (k : string -> M World A) w :
  bind (send self c) k w
  = match ollama self (calls w) c with
    | Ok t => k t (log_call c w)
    | Raise e => (Raise e, log_call c w)
    | IllTyped => (IllTyped, log_call c w)
    end.
Proof. unfold bind. rewrite send_run. reflexivity. Qed.

Lemma route_run py_str self query w :
  route py_str self query w
  = (match ollama self (calls w) (routing_request py_str self query w) with
     | Ok t => _parse_routing_response self t
     | Raise e => Raise e
     | IllTyped => IllTyped
     end,
     mkWorld (session w)
             (calls w ++ [routing_request py_str self query w])%list
             (S (route_entries w))).
Proof.
  unfold route. unfold bind at 1. cbn [modify]. unfold bind at 1. cbn [gets].
  rewrite bind_send_run. cbn [calls enter_route session].
  fold (routing_request py_str self query w).
  destruct (ollama self (calls w) (routing_request py_str self query w));
    reflexivity.
Qed.

(** The requests of step 2 come after those already sent. *)
Lemma step2_extends py_str self query routing w :
  exists rest,
    calls (snd (respond_step2 py_str self query routing w))
    = (calls w ++ rest)%list.
Proof.
  unfold respond_step2.
  destruct (String.eqb (agent routing) "conductor").
  - unfold _respond_directly, bind, gets. rewrite send_run.
    destruct (ollama self _ _); simpl; unfold py_append;
      eexists; reflexivity.
  - unfold handoff. destruct (dict_get (agents self) (agent routing)).
    + unfold bind at 1. unfold bind at 1. unfold gets. rewrite send_run.
      destruct (ollama self _ _); simpl;
        try (unfold py_append; eexists; reflexivity).
      unfold _present_specialist_response, bind. rewrite send_run.
      destruct (ollama self _ _); simpl; unfold py_append;
        rewrite <- app_assoc; eexists; reflexivity.
    + rewrite bind_ret_run.
      unfold _present_specialist_response, bind. rewrite send_run.
      destruct (ollama self _ _); simpl; unfold py_append;
        eexists; reflexivity.
Qed.

(** C3 (amended).  With a forced handler that is not the empty string,
    [respond] does not enter [route] and sends at most two requests; the
    decision of any response it returns is the forced handler with
    confidence 1 and reasoning "Agent forced by request"; and it does
    return when the backend answers.  The empty string as forced handler
    counts as none: [respond] then runs as it does without a forced
    handler, enters [route] once, and the first request it sends is the
    routing request. *)
Theorem respond_forced_skips_route :
  forall (py_str : pyval -> string) (self : Conductor) (query : string)
         (w : World),
    (forall f : string,
        f <> EmptyString ->
        route_entries (snd (respond py_str self query (Some f) w))
        = route_entries w
        /\ (List.length (calls (snd (respond py_str self query (Some f) w)))
            <= List.length (calls w) + 2)%nat
        /\ (forall r,
              fst (respond py_str self query (Some f) w) = Ok r ->
              response_routing r
              = Some (mkRoutingDecision f 1 "Agent forced by request"))
        /\ ((forall sent c, exists t, ollama self sent c = Ok t) ->
            exists r, fst (respond py_str self query (Some f) w) = Ok r))
    /\ respond py_str self query (Some EmptyString) w
       = respond py_str self query None w
    /\ route_entries (snd (respond py_str self query (Some EmptyString) w))
       = S (route_entries w)
    /\ (exists rest,
           calls (snd (respond py_str self query (Some EmptyString) w))
           = (calls w ++ routing_request py_str self query w :: rest)%list).
Proof.
  intros py_str self query w. split.
  { intros f Hf.
    assert (E : respond py_str self query (Some f) w
                = bind (respond_step2 py_str self query
                          (mkRoutingDecision f 1 "Agent forced by request"))
                       (fun out =>
                          ret (mkConductorResponse
                                 (fst out)
                                 (Some (mkRoutingDecision f 1 "Agent forced by request"))
                                 0 (snd out))) w).
    { unfold respond, respond_step1. rewrite (given_some f Hf).
      now rewrite bind_ret_run. }
    rewrite E. split_all.
    - apply (preserves_bind route_entries).
      + apply preserves_step2. reflexivity.
      + intros out. apply preserves_ret.
    - unfold bind.
      pose proof (step2_calls py_str self query
                    (mkRoutingDecision f 1 "Agent forced by request") w) as Hc.
      destruct (respond_step2 py_str self query _ w) as [[out|e|] w'];
        exact Hc.
    - intros r. unfold bind.
      destruct (respond_step2 py_str self query _ w) as [[out|e|] w'];
        simpl; intros H; inversion H. reflexivity.
    - intros Hb. unfold bind.
      destruct (step2_returns py_str self query
                  (mkRoutingDecision f 1 "Agent forced by request") w Hb)
        as (out & w' & ->).
      eexists; reflexivity. }
  split; [reflexivity|].
  change (respond py_str self query (Some EmptyString) w)
    with (respond py_str self query None w).
  unfold respond, respond_step1. cbn [given]. unfold bind at 1 3.
  rewrite route_run.
  set (w1 := mkWorld (session w)
                     (calls w ++ [routing_request py_str self query w])%list
                     (S (route_entries w))).
  destruct (match ollama self (calls w) (routing_request py_str self query w)
            with
            | Ok t => _parse_routing_response self t
            | Raise e => Raise e
            | IllTyped => IllTyped
            end) as [d|x|].
  - split.
    + change (S (route_entries w)) with (route_entries w1).
      apply (preserves_bind route_entries).
      * apply preserves_step2. reflexivity.
      * intros out. apply preserves_ret.
    + destruct (step2_extends py_str self query d w1) as [rest Hrest].
      exists rest. unfold bind.
      destruct (respond_step2 py_str self query d w1) as [[out|e|] w'];
        cbn [snd ret] in *; rewrite Hrest; unfold w1; cbn [calls];
        now rewrite <- app_assoc.
  - split; [reflexivity|]. exists []. reflexivity.
  - split; [reflexivity|]. exists []. reflexivity.
Qed.

Lemma respond_forced_ethical_hacker :
  "ethical-hacker" <> EmptyString
  /\ route_entries
       (snd (respond demo_str (demo_conductor (constant_backend "ok")) "hello"
                     (Some "ethical-hacker") demo_world))
     = route_entries demo_world.
Proof.
  split; [discriminate|].
  destruct (proj1 (respond_forced_skips_route
                     demo_str (demo_conductor (constant_backend "ok")) "hello"
                     demo_world)
                  "ethical-hacker") as [H _]; [discriminate|exact H].
Defined.

(** C3, as stated, fails twice: the reasoning of a forced decision is not
    "forced"; and with the empty string as forced handler [route] is
    entered and the routing request is sent. *)
Lemma forced_reasoning_counterexample :
  (exists r w' d,
      respond demo_str (demo_conductor (constant_backend "ok")) "hello"
              (Some "ethical-hacker") demo_world = (Ok r, w')
      /\ response_routing r = Some d
      /\ confidence d = 1
      /\ reasoning d = "Agent forced by request"
      /\ reasoning d <> "forced")
  /\ (exists r w' d,
         respond demo_str (demo_conductor (constant_backend "ok")) "hello"
                 (Some EmptyString) demo_world = (Ok r, w')
         /\ route_entries demo_world = 0%nat
         /\ route_entries w' = 1%nat
         /\ calls w'
            = [routing_request demo_str
                               (demo_conductor (constant_backend "ok"))
                               "hello" demo_world;
               chat_request (demo_conductor (constant_backend "ok"))
                            "hello" demo_world]
         /\ response_routing r = Some d
         /\ (confidence d == 1 # 2)%Q
         /\ reasoning d = "Default routing").
Proof.
  split.
  - do 3 eexists. split; [vm_compute; reflexivity|].
    split; [reflexivity|]. split; [reflexivity|].
    split; [reflexivity|discriminate].
  - do 3 eexists. split; [vm_compute; reflexivity|].
    split; [reflexivity|]. split; [reflexivity|].
    split; [vm_compute; reflexivity|].
    split; [reflexivity|]. split; reflexivity.
Qed.

(** A handler that comes out of the parse is the sentinel or a catalog
    key. *)
Lemma parse_agent_in_catalog self response d :
  _parse_routing_response self response = Ok d ->
  agent d = "conductor" \/ dict_contains (agents self) (agent d) = true.
Proof.
  rewrite parse_unfold. cbv zeta. intros H. inversion H as [Hd]. clear H Hd.
  match goal with
  | |- context [negb (String.eqb ?x "conductor") && negb (dict_contains ?t ?x)] =>
      destruct (String.eqb x "conductor") eqn:E1;
      destruct (dict_contains t x) eqn:E2; cbn [negb andb];
      try destruct (closest_match x (dict_keys t)) as [n|] eqn:E3
  end; cbn [agent]; auto.
  - left. now apply String.eqb_eq.
  - left. now apply String.eqb_eq.
  - right. apply dict_get_in_keys. now apply closest_match_in in E3.
Qed.

Lemma routed_handler_in_catalog py_str self query w d w1 :
  route py_str self query w = (Ok d, w1) ->
  agent d = "conductor" \/ dict_contains (agents self) (agent d) = true.
Proof.
  unfold route. unfold bind at 1. simpl. unfold bind at 1. simpl.
  unfold bind. rewrite send_run.
  destruct (ollama self _ _) as [t|e|]; try discriminate.
  unfold lift. intros H. inversion H as [[Hp Hw]].
  eapply parse_agent_in_catalog; eauto.
Qed.

(** C4 (amended).  Once the handler is resolved to a catalog key other than
    the sentinel, and the backend answers, [respond] sends exactly two
    requests, the hand-off to the specialist's model and then the
    presentation under the conductor's model; the message returned is the
    answer to the second request, and the answer to the first is kept as
    the specialist's raw text. *)
Theorem specialist_path_two_calls :
  forall (py_str : pyval -> string) (self : Conductor) (query : string)
         (force_agent : option string) (w w1 : World)
         (routing : RoutingDecision) (profile : AgentProfile)
         (raw final : string),
    respond_step1 py_str self query force_agent w = (Ok routing, w1) ->
    agent routing <> "conductor" ->
    dict_get (agents self) (agent routing) = Some profile ->
    ollama self (calls w1)
           (handoff_request py_str self query (agent routing) w1) = Ok raw ->
    ollama self
           (calls w1 ++ [handoff_request py_str self query (agent routing) w1])%list
           (presentation_request self query (agent routing) raw) = Ok final ->
    respond py_str self query force_agent w
    = (Ok (mkConductorResponse final (Some routing) 0 (Some raw)),
       mkWorld (session w1)
               (calls w1
                  ++ [handoff_request py_str self query (agent routing) w1;
                      presentation_request self query (agent routing) raw])%list
               (route_entries w1)).
Proof.
  intros py_str self query force_agent w w1 routing profile raw final
         H1 Hne Hget Hraw Hfinal.
  unfold respond. unfold bind at 1. rewrite H1.
  unfold respond_step2. apply String.eqb_neq in Hne. rewrite Hne.
  unfold handoff. rewrite Hget.
  unfold bind at 1. unfold bind at 1. unfold bind at 1. unfold gets.
  rewrite send_run.
  fold (handoff_request py_str self query (agent routing) w1). rewrite Hraw.
  unfold _present_specialist_response. unfold bind at 1. rewrite send_run.
  fold (presentation_request self query (agent routing) raw).
  cbn [calls log_call]. unfold py_append. rewrite Hfinal.
  cbn [ret fst snd session route_entries calls log_call].
  unfold log_call, py_append. cbn [session calls route_entries].
  now rewrite <- app_assoc.
Qed.

Lemma specialist_path_forced_hacker :
  respond demo_str (demo_conductor (constant_backend "ok")) "hello"
          (Some "ethical-hacker") demo_world
  = (Ok (mkConductorResponse
           "ok"
           (Some (mkRoutingDecision "ethical-hacker" 1 "Agent forced by request"))
           0 (Some "ok")),
     mkWorld demo_session
             [handoff_request demo_str (demo_conductor (constant_backend "ok"))
                              "hello" "ethical-hacker" demo_world;
              presentation_request (demo_conductor (constant_backend "ok"))
                                   "hello" "ethical-hacker" "ok"]
             0).
Proof.
  apply (specialist_path_two_calls
           demo_str (demo_conductor (constant_backend "ok")) "hello"
           (Some "ethical-hacker") demo_world demo_world
           (mkRoutingDecision "ethical-hacker" 1 "Agent forced by request")
           ethical_hacker "ok" "ok").
  - reflexivity.
  - discriminate.
  - reflexivity.
  - reflexivity.
  - reflexivity.
Defined.

(** C4, as stated, fails.  A forced handler that the catalog does not hold
    bypasses the direct response with one request only, the presentation of
    the not-found text; and a routed specialist answer takes three requests,
    the routing request first. *)
Lemma specialist_path_counterexample :
  (exists r w' d,
      respond demo_str (demo_conductor (constant_backend "ok")) "hello"
              (Some "ghost") demo_world = (Ok r, w')
      /\ response_routing r = Some d
      /\ agent d <> "conductor"
      /\ specialist_response r = Some "Agent ghost not found."
      /\ calls w'
         = [presentation_request (demo_conductor (constant_backend "ok"))
                                 "hello" "ghost" "Agent ghost not found."])
  /\ (exists r w' d,
         respond demo_str
                 (demo_conductor (constant_backend "AGENT: ethical-hacker"))
                 "hello" None demo_world = (Ok r, w')
         /\ response_routing r = Some d
         /\ agent d = "ethical-hacker"
         /\ List.length (calls w') = 3%nat).
Proof.
  split.
  - do 3 eexists. split; [vm_compute; reflexivity|].
    split; [reflexivity|]. split; [discriminate|].
    split; [reflexivity|]. vm_compute. reflexivity.
  - do 3 eexists. split; [vm_compute; reflexivity|].
    split; [reflexivity|]. split; reflexivity.
Qed.

(* ===================================================================== *)
(** * Windows and summaries of a session *)
(* ===================================================================== *)

Lemma slice_from_neg_last_n {A} (n : Z) (l : list A) :
  (0 < n)%Z ->
  slice_from (- n) l = last_n (Nat.min (Z.to_nat n) (List.length l)) l.
Proof.
  intros Hn. unfold slice_from, last_n.
  assert (E : (- n <? 0)%Z = true) by (apply Z.ltb_lt; lia).
  rewrite E. f_equal. lia.
Qed.

Lemma last_n_min {A} (n : nat) (l : list A) :
  last_n (Nat.min n (List.length l)) l = last_n n l.
Proof. unfold last_n. f_equal. lia. Qed.

Lemma length_flat_map_turn_messages (l : list Turn) :
  List.length (flat_map turn_messages l) = (2 * List.length l)%nat.
Proof. induction l as [|t l IH]; simpl; [reflexivity|]. rewrite IH. lia. Qed.

Lemma length_last_n {A} (n : nat) (l : list A) :
  List.length (last_n n l) = Nat.min n (List.length l).
Proof. unfold last_n. rewrite length_skipn. lia. Qed.

(** C10.  For a window [max_turns >= 0], the chat history is made of the
    messages of the last [min max_turns (number of turns)] turns, oldest
    first, a user message then an assistant message per turn; but a window
    of 0 gives the messages of all the turns. *)
Theorem get_chat_history_window :
  forall (s : Session) (max_turns : Z),
    (0 <= max_turns)%Z ->
    get_chat_history s max_turns
    = flat_map turn_messages
               (if (max_turns =? 0)%Z then turns s
                else last_n (Nat.min (Z.to_nat max_turns) (total_turns s))
                            (turns s))
    /\ List.length (get_chat_history s max_turns)
       = (if (max_turns =? 0)%Z then 2 * total_turns s
          else 2 * Nat.min (Z.to_nat max_turns) (total_turns s))%nat.
Proof.
  intros s n Hn.
  assert (E : get_chat_history s n
              = flat_map turn_messages
                         (if (n =? 0)%Z then turns s
                          else last_n (Nat.min (Z.to_nat n) (total_turns s))
                                      (turns s))).
  { unfold get_chat_history, total_turns.
    destruct (n =? 0)%Z eqn:E0; cbn [negb]; [reflexivity|].
    apply Z.eqb_neq in E0. rewrite slice_from_neg_last_n by lia. reflexivity. }
  split; [exact E|].
  rewrite E, length_flat_map_turn_messages.
  destruct (n =? 0)%Z; [reflexivity|].
  rewrite length_last_n. unfold total_turns. lia.
Qed.

Lemma get_chat_history_last_two :
  (0 <= 2)%Z
  /\ get_chat_history three_turns 2
     = [mkChatMessage "user" "second"; mkChatMessage "assistant" "2";
        mkChatMessage "user" "third"; mkChatMessage "assistant" "3"].
Proof.
  split; [lia|].
  exact (proj1 (get_chat_history_window three_turns 2 ltac:(lia))).
Defined.

Example get_chat_history_zero_is_all :
  List.length (get_chat_history three_turns 0) = 6%nat.
Proof. reflexivity. Qed.

Lemma fold_append_map {A} (g : A -> string) (l : list A) : forall acc,
  fold_left (fun parts x => py_append parts (g x)) l acc = (acc ++ map g l)%list.
Proof.
  induction l as [|x l IH]; intros acc; simpl.
  - now rewrite app_nil_r.
  - rewrite IH. unfold py_append. now rewrite <- app_assoc.
Qed.

Lemma fold_append_two {A} (g h : A -> string) (l : list A) : forall acc,
  fold_left (fun parts x => py_append (py_append parts (g x)) (h x)) l acc
  = (acc ++ flat_map (fun x => [g x; h x]) l)%list.
Proof.
  induction l as [|x l IH]; intros acc; simpl.
  - now rewrite app_nil_r.
  - rewrite IH. unfold py_append. now rewrite <- !app_assoc.
Qed.

Lemma slice_from_last_three {A} (l : list A) :
  slice_from (-3) l = last_n 3 l.
Proof.
  change (-3)%Z with (- (3))%Z. rewrite slice_from_neg_last_n by lia.
  apply last_n_min.
Qed.

(** A section is left out exactly when the data behind it is empty. *)
Lemma sections_omitted py_str s :
  (turns_section s = [] <-> turns s = [])
  /\ (forall header d, pairs_section py_str header d = [] <-> d = [])
  /\ (mood_section s = [] <-> detected_mood s = "neutral").
Proof.
  unfold turns_section, pairs_section, mood_section. split_all.
  - destruct (turns s); split; intros H; try reflexivity; discriminate H.
  - intros header d. destruct d; split; intros H; try reflexivity; discriminate H.
  - destruct (String.eqb (detected_mood s) "neutral") eqn:E; split; intros H.
    + now apply String.eqb_eq.
    + reflexivity.
    + discriminate H.
    + apply String.eqb_neq in E. contradiction.
Qed.

(** C6.  The context summary is the four sections in their fixed order,
    joined by newlines: the last three turns with both texts cut to 100
    characters and followed by "...", the context pairs in insertion order,
    the preference pairs in insertion order, the mood when it is not
    "neutral"; a section whose data is empty is left out, and the summary
    of a fresh session is the empty string. *)
Theorem get_context_summary_sections :
  forall (py_str : pyval -> string) (s : Session),
    get_context_summary py_str s
    = join nl (turns_section s
                 ++ pairs_section py_str "Context:" (context s)
                 ++ pairs_section py_str "User preferences:" (preferences s)
                 ++ mood_section s)%list
    /\ (turns s = [] -> context s = [] -> preferences s = [] ->
        detected_mood s = "neutral" ->
        get_context_summary py_str s = EmptyString)
    /\ (forall i now, get_context_summary py_str (new_Session i now)
                      = EmptyString).
Proof.
  intros py_str s.
  assert (E : get_context_summary py_str s
              = join nl (turns_section s
                           ++ pairs_section py_str "Context:" (context s)
                           ++ pairs_section py_str "User preferences:"
                                            (preferences s)
                           ++ mood_section s)%list).
  { unfold get_context_summary, turns_section, pairs_section, mood_section.
    rewrite slice_from_last_three.
    destruct s as [i ca ts cx su pr dm]. cbn [turns context preferences detected_mood].
    f_equal.
    destruct ts as [|t ts]; destruct cx as [|c cx]; destruct pr as [|p pr];
      destruct (String.eqb dm "neutral");
      cbn [negb]; rewrite ?fold_append_map, ?fold_append_two;
      unfold py_append; cbn [app]; rewrite <- ?app_assoc; cbn [app];
      rewrite ?app_nil_r; reflexivity. }
  split; [exact E|]. split.
  - intros Ht Hc Hp Hm. rewrite E.
    unfold turns_section, pairs_section, mood_section.
    now rewrite Ht, Hc, Hp, Hm.
  - intros i now. reflexivity.
Qed.

Example get_context_summary_demo :
  get_context_summary
    demo_str
    (update_context "focus_area" (PStr "security")
       (update_context "code_language" (PStr "Python")
          (snd (add_turn demo_time "Help me review this code"
                         "I'll get my security expert on this..." None 150 0
                         demo_session))))
  = "Recent conversation:
  User: Help me review this code...
  Assistant: I'll get my security expert on this......

Context:
  code_language: Python
  focus_area: security".
Proof. vm_compute. reflexivity. Qed.

(* ===================================================================== *)
(** * Serialization round trip *)
(* ===================================================================== *)

Lemma parse_iso_isoformat d : parse_iso (isoformat d) = Some d.
Proof.
  destruct d as [s H]. unfold parse_iso. cbn [isoformat].
  assert (G : forall b (E : valid_iso s = b),
             b = true ->
             match b as b' return valid_iso s = b' -> option datetime with
             | true => fun H0 => Some (mkDatetime s H0)
             | false => fun _ => None
             end E = Some (mkDatetime s H)).
  { intros b E Hb. destruct b; [|discriminate Hb]. f_equal. f_equal.
    apply Eqdep_dec.UIP_dec. apply Bool.bool_dec. }
  now apply G.
Qed.

Lemma fromisoformat_isoformat d : fromisoformat (PStr (isoformat d)) = Ok d.
Proof. unfold fromisoformat. now rewrite parse_iso_isoformat. Qed.

Lemma turn_from_dict_to_dict t : turn_from_dict (turn_to_dict t) = Ok t.
Proof.
  destruct t as [um ar [r|] tu lm ts]; unfold turn_from_dict, turn_to_dict;
    cbn -[fromisoformat]; rewrite fromisoformat_isoformat; cbn.
  - now destruct r.
  - reflexivity.
Qed.

Lemma turns_from_dict_to_dict l :
  turns_from_dict (map turn_to_dict l) = Ok l.
Proof.
  induction l as [|t l IH]; simpl; [reflexivity|].
  rewrite turn_from_dict_to_dict. cbn [rbind]. rewrite IH. reflexivity.
Qed.

Lemma from_dict_to_dict s : from_dict (to_dict s) = Ok s.
Proof.
  destruct s as [i ca ts cx su pr dm]. unfold from_dict, to_dict.
  cbn -[fromisoformat turns_from_dict]. rewrite fromisoformat_isoformat.
  destruct su as [x|]; cbn -[turns_from_dict];
    rewrite turns_from_dict_to_dict; reflexivity.
Qed.

(** C7.  Deserializing the serialization of any session succeeds, and the
    session obtained has the same number of turns, the same total of
    tokens, and the same context and preference maps. *)
Theorem session_round_trip :
  forall (s : Session),
  exists s',
    from_dict (to_dict s) = Ok s'
    /\ total_turns s' = total_turns s
    /\ total_tokens s' = total_tokens s
    /\ context s' = context s
    /\ preferences s' = preferences s.
Proof.
  intros s. exists s. rewrite from_dict_to_dict. repeat split.
Qed.

Example session_round_trip_three_turns :
  from_dict (to_dict three_turns) = Ok three_turns
  /\ total_turns three_turns = 3%nat.
Proof. split; [apply from_dict_to_dict|reflexivity]. Qed.

(* ===================================================================== *)
(** * The session store *)
(* ===================================================================== *)

(** C8.  The load tolerates a missing snapshot and a snapshot that is not
    JSON: the store starts empty, the latter with a warning.  But a
    snapshot that is JSON and malformed gets past the [except] clause, which
    names [JSONDecodeError] and [KeyError] only: a JSON list raises
    [AttributeError] and a time stamp that is no ISO text raises
    [ValueError], both out of the constructor; and when a later entry fails
    with [KeyError], the sessions loaded before it stay in the store. *)
Theorem load_sessions_malformed_snapshot :
  new_SessionManager (Some snapshot_path) []
  = (Ok tt, mkEnv (mkSessionManager [] (Some snapshot_path)) [] [])
  /\ new_SessionManager (Some snapshot_path) snapshot_not_json
     = (Ok tt, mkEnv (mkSessionManager [] (Some snapshot_path))
                     snapshot_not_json [JSONDecodeError])
  /\ fst (new_SessionManager (Some snapshot_path) snapshot_list)
     = Raise AttributeError
  /\ fst (new_SessionManager (Some snapshot_path) snapshot_bad_time)
     = Raise ValueError
  /\ new_SessionManager (Some snapshot_path) snapshot_second_broken
     = (Ok tt, mkEnv (mkSessionManager [("abcd1234", demo_session)]
                                       (Some snapshot_path))
                     snapshot_second_broken [KeyError "id"]).
Proof.
  split_all; vm_compute; reflexivity.
Qed.

(** ** Dictionaries *)

Lemma dict_get_none_keys {V} (d : dict V) k :
  dict_get d k = None <-> ~ In k (dict_keys d).
Proof.
  induction d as [|[k' v] d IH]; simpl.
  - tauto.
  - destruct (String.eqb k' k) eqn:E.
    + apply String.eqb_eq in E. subst. split; [discriminate|]. tauto.
    + apply String.eqb_neq in E. rewrite IH. tauto.
Qed.

Lemma dict_contains_false {V} (d : dict V) k :
  dict_contains d k = false <-> dict_get d k = None.
Proof.
  unfold dict_contains. destruct (dict_get d k); split; congruence.
Qed.

Lemma dict_set_keys {V} (d : dict V) k v k' :
  In k' (dict_keys (dict_set d k v)) <-> k' = k \/ In k' (dict_keys d).
Proof.
  induction d as [|[k0 v0] d IH]; simpl.
  - intuition.
  - destruct (String.eqb k0 k) eqn:E; simpl.
    + apply String.eqb_eq in E. subst. intuition.
    + rewrite IH. intuition.
Qed.

Lemma dict_get_set_other {V} (d : dict V) k v k' :
  k' <> k -> dict_get (dict_set d k v) k' = dict_get d k'.
Proof.
  intros Hne. induction d as [|[k0 v0] d IH]; simpl.
  - apply String.eqb_neq in Hne. rewrite String.eqb_sym. now rewrite Hne.
  - destruct (String.eqb k0 k) eqn:E; simpl.
    + apply String.eqb_eq in E. subst.
      assert (E' : String.eqb k k' = false)
        by (apply String.eqb_neq; congruence).
      now rewrite E'.
    + now rewrite IH.
Qed.

Lemma dict_get_set_same {V} (d : dict V) k v :
  dict_get (dict_set d k v) k = Some v.
Proof.
  induction d as [|[k0 v0] d IH]; simpl.
  - now rewrite String.eqb_refl.
  - destruct (String.eqb k0 k) eqn:E; simpl.
    + now rewrite String.eqb_refl.
    + now rewrite E.
Qed.

Lemma dict_del_in {V} (d : dict V) k k' (v : V) :
  In (k', v) (dict_del d k) <-> k' <> k /\ In (k', v) d.
Proof.
  induction d as [|[k0 v0] d IH]; simpl.
  - tauto.
  - destruct (String.eqb k0 k) eqn:E.
    + apply String.eqb_eq in E. subst. rewrite IH. split.
      * intuition.
      * intros [Hne [H|H]]; [inversion H; congruence|auto].
    + apply String.eqb_neq in E. simpl. rewrite IH. split.
      * intros [H|H]; [inversion H; subst; auto|]. intuition.
      * intuition.
Qed.

Lemma dict_del_keys {V} (d : dict V) k k' :
  In k' (dict_keys (dict_del d k)) <-> k' <> k /\ In k' (dict_keys d).
Proof.
  unfold dict_keys. rewrite !in_map_iff. split.
  - intros [[k0 v] [E H]]. simpl in E. subst.
    apply dict_del_in in H as [Hne H]. split; [assumption|].
    now exists (k', v).
  - intros [Hne [[k0 v] [E H]]]. simpl in E. subst.
    exists (k', v). split; [reflexivity|]. now apply dict_del_in.
Qed.


Lemma dict_get_del_other {V} (d : dict V) k k' :
  k' <> k -> dict_get (dict_del d k) k' = dict_get d k'.
Proof.
  intros Hne. induction d as [|[k0 v0] d IH]; simpl; [reflexivity|].
  destruct (String.eqb k0 k) eqn:E.
  - apply String.eqb_eq in E. subst.
    assert (E' : String.eqb k k' = false) by (apply String.eqb_neq; congruence).
    now rewrite E'.
  - simpl. now rewrite IH.
Qed.

Lemma fold_dict_set_keys {A V} (key : A -> string) (val : A -> V) (l : list A) :
  forall (acc : dict V) k,
    In k (dict_keys (fold_left (fun d a => dict_set d (key a) (val a)) l acc))
    <-> In k (dict_keys acc) \/ In k (map key l).
Proof.
  induction l as [|a l IH]; intros acc k; simpl.
  - tauto.
  - rewrite IH, dict_set_keys. intuition.
Qed.

Lemma dict_comp_keys {A V} (key : A -> string) (val : A -> V) (l : list A) k :
  In k (dict_keys (dict_comp key val l)) <-> In k (map key l).
Proof.
  unfold dict_comp. rewrite fold_dict_set_keys. simpl. tauto.
Qed.

Lemma dict_set_Forall {V} (P : V -> Prop) (d : dict V) k v :
  Forall (fun kv => P (snd kv)) d -> P v ->
  Forall (fun kv => P (snd kv)) (dict_set d k v).
Proof.
  intros Hd Hv. induction d as [|[k0 v0] d IH]; simpl.
  - constructor; [assumption|constructor].
  - inversion Hd; subst. destruct (String.eqb k0 k); constructor; auto.
Qed.


(** ** Saving, loading, deleting *)

Lemma dict_comp_Forall_in {A V} (P : V -> Prop) (key : A -> string)
      (val : A -> V) (l : list A) :
  (forall a, In a l -> P (val a)) ->
  Forall (fun kv => P (snd kv)) (dict_comp key val l).
Proof.
  intros Hv. unfold dict_comp.
  assert (G : forall l0 acc,
             (forall a, In a l0 -> In a l) ->
             Forall (fun kv => P (snd kv)) acc ->
             Forall (fun kv => P (snd kv))
                    (fold_left (fun d a => dict_set d (key a) (val a)) l0 acc)).
  { induction l0 as [|a l0 IH]; intros acc Hsub Hacc; simpl; [assumption|].
    apply IH; [intros b Hb; apply Hsub; now right|].
    apply dict_set_Forall; [assumption|]. apply Hv, Hsub. now left. }
  apply G; [auto|constructor].
Qed.

(** What [json.dumps] encodes. *)
Lemma is_json_list l : is_json (PList l) = forallb is_json l.
Proof.
  cbn [is_json]. induction l as [|x l IH]; [reflexivity|].
  cbn [forallb]. now rewrite IH.
Qed.

Lemma is_json_dict d : is_json (PDict d) = json_values d.
Proof.
  unfold json_values. cbn [is_json].
  induction d as [|[k x] d IH]; [reflexivity|].
  cbn [forallb snd]. now rewrite IH.
Qed.

Lemma is_json_to_dict s : is_json (to_dict s) = serialisable s.
Proof.
  unfold to_dict, serialisable.
  rewrite is_json_dict. unfold json_values at 1. cbn [forallb snd].
  rewrite !is_json_dict, is_json_list.
  assert (T : forallb is_json (map turn_to_dict (turns s)) = true).
  { induction (turns s) as [|t l IH]; [reflexivity|].
    cbn [map forallb]. rewrite IH, andb_true_r.
    unfold turn_to_dict, routing_to_dict. now destruct (routing t). }
  rewrite T. cbn [is_json andb].
  destruct (active_surface s); cbn [is_json]; now rewrite !andb_true_r.
Qed.

(** [json.dumps] encodes the snapshot of a store whose sessions are all
    serialisable. *)
Lemma json_dumps_storable (sessions : dict Session) :
  storable sessions = true ->
  json_dumps (PDict (dict_comp fst (fun kv => to_dict (snd kv)) sessions))
  = Ok (JSONText (PDict (dict_comp fst (fun kv => to_dict (snd kv)) sessions))).
Proof.
  intros Hs. unfold json_dumps.
  assert (E : is_json (PDict (dict_comp fst (fun kv => to_dict (snd kv))
                                        sessions)) = true).
  { rewrite is_json_dict. unfold json_values. apply forallb_forall.
    apply Forall_forall.
    apply (dict_comp_Forall_in (fun v => is_json v = true)).
    intros a Ha. rewrite is_json_to_dict.
    unfold storable in Hs. rewrite forallb_forall in Hs. now apply Hs. }
  now rewrite E.
Qed.


(** A run of [_save_sessions] with persistence on: the snapshot is written,
    or [json.dumps] raises and nothing is written. *)
Lemma save_sessions_run e path :
  _persist_path (manager e) = Some path ->
  _save_sessions e
  = match json_dumps (PDict (dict_comp fst (fun kv => to_dict (snd kv))
                                       (_sessions (manager e)))) with
    | Ok text => (Ok tt, write_text path text e)
    | Raise x => (Raise x, e)
    | IllTyped => (IllTyped, e)
    end.
Proof.
  intros Hp. unfold _save_sessions. unfold bind at 1. unfold gets at 1.
  rewrite Hp. unfold bind at 1. unfold gets at 1. unfold bind, lift.
  now destruct (json_dumps _).
Qed.

(** The snapshot value that [_save_sessions] writes for a store. *)
Lemma save_sessions_ok e path :
  _persist_path (manager e) = Some path ->
  storable (_sessions (manager e)) = true ->
  _save_sessions e
  = (Ok tt,
     write_text path
       (JSONText (PDict (dict_comp fst (fun kv => to_dict (snd kv))
                                   (_sessions (manager e)))))
       e).
Proof.
  intros Hp Hs. rewrite (save_sessions_run e path Hp).
  now rewrite (json_dumps_storable _ Hs).
Qed.







Example delete_session_two_sessions :
  exists e1 e2,
    delete_session "abcd1234" two_sessions = (Ok true, e1)
    /\ fst (list_sessions e1) = Ok [new_Session "ffff0000" demo_time]
    /\ persist e1 = (Ok tt, e2)
    /\ dict_get (files e2) snapshot_path
       = Some (JSONText
                 (PDict [("ffff0000", to_dict (new_Session "ffff0000" demo_time))]))
    /\ delete_session "nobody" two_sessions = (Ok false, two_sessions).
Proof.
  do 2 eexists. split; [vm_compute; reflexivity|].
  split; [reflexivity|]. split; [vm_compute; reflexivity|].
  split; reflexivity.
Qed.

(* ===================================================================== *)
(** * Further properties: the session entity *)
(* ===================================================================== *)

Lemma sum_tokens_snoc (l : list Z) (x a : Z) :
  fold_left Z.add (l ++ [x])%list a = (fold_left Z.add l a + x)%Z.
Proof. now rewrite fold_left_app. Qed.

(** X1.  [add_turn] puts the new turn last and touches nothing else: the
    number of turns grows by one, the token total by the tokens of the new
    turn, and the turns recorded before, the context, the preferences, the
    mood and the surface stay as they were. *)
Theorem add_turn_totals :
  forall (now : datetime) (um ar : string) (r : option RoutingDecision)
         (tu : Z) (lm : Q) (s : Session),
    fst (add_turn now um ar r tu lm s) = mkTurn um ar r tu lm now
    /\ turns (snd (add_turn now um ar r tu lm s))
       = (turns s ++ [mkTurn um ar r tu lm now])%list
    /\ total_turns (snd (add_turn now um ar r tu lm s)) = S (total_turns s)
    /\ total_tokens (snd (add_turn now um ar r tu lm s))
       = (total_tokens s + tu)%Z
    /\ context (snd (add_turn now um ar r tu lm s)) = context s
    /\ preferences (snd (add_turn now um ar r tu lm s)) = preferences s
    /\ detected_mood (snd (add_turn now um ar r tu lm s)) = detected_mood s
    /\ active_surface (snd (add_turn now um ar r tu lm s)) = active_surface s
    /\ session_id (snd (add_turn now um ar r tu lm s)) = session_id s.
Proof.
  intros now um ar r tu lm s. unfold add_turn, total_turns, total_tokens.
  cbn [fst snd turns context preferences detected_mood active_surface
       session_id]. unfold py_append.
  split_all; try reflexivity.
  - rewrite length_app. simpl. lia.
  - rewrite map_app. cbn [map tokens_used]. apply sum_tokens_snoc.
Qed.

Lemma last_n_snoc {A} (k : nat) (l : list A) (x : A) :
  (1 <= k)%nat -> last_n k (l ++ [x]) = (last_n (k - 1) l ++ [x])%list.
Proof.
  intros Hk. unfold last_n. rewrite length_app. cbn [List.length].
  rewrite skipn_app.
  replace (List.length l + 1 - k - List.length l)%nat with 0%nat by lia.
  replace (List.length l + 1 - k)%nat with (List.length l - (k - 1))%nat by lia.
  reflexivity.
Qed.

Lemma get_chat_history_positive s n :
  (0 < n)%Z ->
  get_chat_history s n = flat_map turn_messages (last_n (Z.to_nat n) (turns s)).
Proof.
  intros Hn. unfold get_chat_history.
  assert (E : (n =? 0)%Z = false) by (apply Z.eqb_neq; lia).
  rewrite E. cbn [negb]. rewrite slice_from_neg_last_n by assumption.
  now rewrite last_n_min.
Qed.

(** X2.  Recording a turn slides the chat window by one: for a window
    above 1 the history is the history of the window one shorter before
    the turn, followed by the two messages of the new turn; for window 1 it
    is just these two messages; for window 0, which selects every turn, it
    is all the earlier messages followed by these two. *)
Theorem add_turn_slides_window :
  forall (now : datetime) (um ar : string) (r : option RoutingDecision)
         (tu : Z) (lm : Q) (s : Session) (n : Z),
    ((1 < n)%Z ->
     get_chat_history (snd (add_turn now um ar r tu lm s)) n
     = (get_chat_history s (n - 1)
          ++ [mkChatMessage "user" um; mkChatMessage "assistant" ar])%list)
    /\ get_chat_history (snd (add_turn now um ar r tu lm s)) 1
       = [mkChatMessage "user" um; mkChatMessage "assistant" ar]
    /\ get_chat_history (snd (add_turn now um ar r tu lm s)) 0
       = (get_chat_history s 0
            ++ [mkChatMessage "user" um; mkChatMessage "assistant" ar])%list.
Proof.
  intros now um ar r tu lm s n.
  assert (Ht : turns (snd (add_turn now um ar r tu lm s))
               = (turns s ++ [mkTurn um ar r tu lm now])%list) by reflexivity.
  split_all.
  - intros Hn. rewrite !get_chat_history_positive by lia. rewrite Ht.
    rewrite last_n_snoc by lia. rewrite flat_map_app.
    replace (Z.to_nat n - 1)%nat with (Z.to_nat (n - 1)) by lia. reflexivity.
  - rewrite get_chat_history_positive by lia. rewrite Ht.
    rewrite last_n_snoc by (simpl; lia). rewrite flat_map_app.
    replace (Z.to_nat 1 - 1)%nat with 0%nat by reflexivity.
    unfold last_n. rewrite Nat.sub_0_r, skipn_all. reflexivity.
  - unfold get_chat_history. cbn [Z.eqb negb]. rewrite Ht.
    now rewrite flat_map_app.
Qed.

Lemma dict_set_keys_order {V} (d : dict V) k v :
  dict_keys (dict_set d k v)
  = if dict_contains d k then dict_keys d else (dict_keys d ++ [k])%list.
Proof.
  unfold dict_contains.
  induction d as [|[k0 v0] d IH]; simpl; [reflexivity|].
  destruct (String.eqb k0 k) eqn:E; simpl.
  - apply String.eqb_eq in E. now subst.
  - rewrite IH. now destruct (dict_get d k).
Qed.

(** X3.  [update_context] is last-write-wins per key and keeps the order of
    insertion: the key then reads the new value, every other key reads what
    it read before, a key already present keeps its place and a new key
    goes last; turns, preferences and mood are untouched. *)
Theorem update_context_lookup :
  forall (key : string) (value : pyval) (s : Session),
    dict_get (context (update_context key value s)) key = Some value
    /\ (forall k, k <> key ->
                  dict_get (context (update_context key value s)) k
                  = dict_get (context s) k)
    /\ dict_keys (context (update_context key value s))
       = (if dict_contains (context s) key then dict_keys (context s)
          else (dict_keys (context s) ++ [key])%list)
    /\ turns (update_context key value s) = turns s
    /\ preferences (update_context key value s) = preferences s
    /\ detected_mood (update_context key value s) = detected_mood s.
Proof.
  intros key value s. unfold update_context.
  cbn [context turns preferences detected_mood]. split_all; try reflexivity.
  - apply dict_get_set_same.
  - intros k Hk. now apply dict_get_set_other.
  - apply dict_set_keys_order.
Qed.

(* ===================================================================== *)
(** * Further properties: serialization *)
(* ===================================================================== *)

(** X4.  [to_dict] writes every field of the session, every field of its
    turns, and the agent, confidence and reasoning of their routing
    decisions: two sessions have the same serialization only when they
    agree on all of these.  (The time stamp of a routing decision, which
    [to_dict] does not write, is not part of [RoutingDecision] here.) *)
Theorem to_dict_injective :
  forall (s1 s2 : Session), to_dict s1 = to_dict s2 <-> s1 = s2.
Proof.
  intros s1 s2. split; [|now intros ->].
  intros H. pose proof (from_dict_to_dict s1) as H1.
  rewrite H, from_dict_to_dict in H1. now inversion H1.
Qed.

(** X5.  [from_dict] asks for two keys: a dictionary without "id" raises
    [KeyError] on "id"; one with "id", of whatever value, and without
    "created_at" raises [KeyError] on "created_at"; and a value that is no
    dictionary raises [TypeError]. *)
Theorem from_dict_required_keys :
  (forall d, dict_get d "id" = None ->
             from_dict (PDict d) = Raise (KeyError "id"))
  /\ (forall d i, dict_get d "id" = Some i ->
                  dict_get d "created_at" = None ->
                  from_dict (PDict d) = Raise (KeyError "created_at"))
  /\ from_dict PNone = Raise TypeError
  /\ (forall b, from_dict (PBool b) = Raise TypeError)
  /\ (forall z, from_dict (PInt z) = Raise TypeError)
  /\ (forall q, from_dict (PFloat q) = Raise TypeError)
  /\ (forall t, from_dict (PStr t) = Raise TypeError)
  /\ (forall l, from_dict (PList l) = Raise TypeError).
Proof.
  split_all; try reflexivity.
  - intros d H. unfold from_dict, py_getitem. now rewrite H.
  - intros d i Hi Hc. unfold from_dict, py_getitem. rewrite Hi, Hc. reflexivity.
Qed.

(** X6.  Every key of a serialized session other than "id" and
    "created_at" is optional: a dictionary that holds only a string id and
    a time stamp written by [isoformat] gives the session that
    [Session(id, created_at)] builds, with no turns, empty context and
    preferences, mood "neutral" and no surface. *)
Theorem from_dict_defaults :
  forall (d : dict pyval) (i : string) (c : datetime),
    dict_get d "id" = Some (PStr i) ->
    dict_get d "created_at" = Some (PStr (isoformat c)) ->
    dict_get d "context" = None ->
    dict_get d "preferences" = None ->
    dict_get d "detected_mood" = None ->
    dict_get d "active_surface" = None ->
    dict_get d "turns" = None ->
    from_dict (PDict d) = Ok (new_Session i c).
Proof.
  intros d i c Hi Hc Hx Hp Hm Hs Ht.
  unfold from_dict, py_getitem, py_get.
  rewrite Hi, Hc, Hx, Hp, Hm, Hs, Ht. cbn [rbind].
  rewrite fromisoformat_isoformat. reflexivity.
Qed.

Lemma from_dict_defaults_demo :
  from_dict (PDict [("created_at", PStr "2024-01-01T10:00:00");
                    ("id", PStr "abcd1234")])
  = Ok demo_session.
Proof.
  apply (from_dict_defaults
           [("created_at", PStr "2024-01-01T10:00:00"); ("id", PStr "abcd1234")]
           "abcd1234" demo_time); reflexivity.
Defined.

(** X7.  In a serialized turn the routing, the token count and the latency
    are optional: a turn whose "routing" is absent, null or an empty
    dictionary is read with no routing decision, and missing "tokens_used"
    and "latency_ms" read as 0; but "user_message", "assistant_response"
    and "timestamp" are required, and a turn without one of them raises
    [KeyError] on the first that is missing. *)
Theorem turn_from_dict_optional_keys :
  forall (d : dict pyval) (um ar : string) (ts : datetime),
    dict_get d "routing" = None \/ dict_get d "routing" = Some PNone
    \/ dict_get d "routing" = Some (PDict []) ->
    dict_get d "tokens_used" = None ->
    dict_get d "latency_ms" = None ->
    (dict_get d "user_message" = Some (PStr um) ->
     dict_get d "assistant_response" = Some (PStr ar) ->
     dict_get d "timestamp" = Some (PStr (isoformat ts)) ->
     turn_from_dict (PDict d) = Ok (mkTurn um ar None 0 0 ts))
    /\ (dict_get d "user_message" = None ->
        turn_from_dict (PDict d) = Raise (KeyError "user_message"))
    /\ (dict_get d "user_message" = Some (PStr um) ->
        dict_get d "assistant_response" = None ->
        turn_from_dict (PDict d) = Raise (KeyError "assistant_response"))
    /\ (dict_get d "user_message" = Some (PStr um) ->
        dict_get d "assistant_response" = Some (PStr ar) ->
        dict_get d "timestamp" = None ->
        turn_from_dict (PDict d) = Raise (KeyError "timestamp")).
Proof.
  intros d um ar ts Hr Ht Hl.
  assert (E : exists r, py_get (PDict d) "routing" PNone = Ok r
                        /\ py_truthy r = false).
  { unfold py_get. destruct Hr as [H|[H|H]]; rewrite H; eauto. }
  destruct E as (r & Er & Etr).
  unfold turn_from_dict. rewrite Er. cbn [rbind]. rewrite Etr. cbn [rbind].
  unfold py_getitem, py_get. rewrite Ht, Hl.
  split_all.
  - intros Hu Ha Hs. rewrite Hu, Ha, Hs. cbn [rbind].
    rewrite fromisoformat_isoformat. reflexivity.
  - intros Hu. now rewrite Hu.
  - intros Hu Ha. now rewrite Hu, Ha.
  - intros Hu Ha Hs. now rewrite Hu, Ha, Hs.
Qed.

Lemma turn_from_dict_minimal :
  turn_from_dict
    (PDict [("user_message", PStr "hi"); ("assistant_response", PStr "hello");
            ("routing", PNone); ("timestamp", PStr "2024-01-01T10:00:00")])
  = Ok (mkTurn "hi" "hello" None 0 0 demo_time).
Proof.
  apply (proj1 (turn_from_dict_optional_keys
                  [("user_message", PStr "hi");
                   ("assistant_response", PStr "hello");
                   ("routing", PNone);
                   ("timestamp", PStr "2024-01-01T10:00:00")]
                  "hi" "hello" demo_time
                  (or_intror (or_introl eq_refl)) eq_refl eq_refl));
    reflexivity.
Defined.

(* ===================================================================== *)
(** * Further properties: the session store *)
(* ===================================================================== *)

Lemma dict_set_fresh {V} (d : dict V) k v :
  ~ In k (dict_keys d) -> dict_set d k v = (d ++ [(k, v)])%list.
Proof.
  induction d as [|[k0 v0] d IH]; simpl; intros H; [reflexivity|].
  destruct (String.eqb k0 k) eqn:E.
  - apply String.eqb_eq in E. subst. exfalso. apply H. now left.
  - rewrite IH; [reflexivity|]. intros Hin. apply H. now right.
Qed.

Lemma dict_del_fresh {V} (d : dict V) k :
  ~ In k (dict_keys d) -> dict_del d k = d.
Proof.
  induction d as [|[k0 v0] d IH]; simpl; intros H; [reflexivity|].
  destruct (String.eqb k0 k) eqn:E.
  - apply String.eqb_eq in E. subst. exfalso. apply H. now left.
  - rewrite IH; [reflexivity|]. intros Hin. apply H. now right.
Qed.


Lemma dict_set_NoDup {V} (d : dict V) k v :
  NoDup (dict_keys d) -> NoDup (dict_keys (dict_set d k v)).
Proof.
  intros H. rewrite dict_set_keys_order.
  destruct (dict_contains d k) eqn:E; [assumption|].
  apply dict_contains_false, dict_get_none_keys in E.
  apply NoDup_app; [assumption|repeat constructor; intros []|].
  intros x Hx [Hk|[]]. subst. contradiction.
Qed.

Lemma dict_del_NoDup {V} (d : dict V) k :
  NoDup (dict_keys d) -> NoDup (dict_keys (dict_del d k)).
Proof.
  induction d as [|[k0 v0] d IH]; simpl; intros H; [constructor|].
  inversion H as [|x l Hnin Hnd]; subst.
  destruct (String.eqb k0 k); [now apply IH|].
  simpl. constructor; [|now apply IH].
  intros Hin. apply dict_del_keys in Hin. tauto.
Qed.

(** X8.  [create_session] stores the new session under its id: looking the
    id up then gives that session, also when the id was already taken;
    every other id reads as before, and no file is written. *)
Theorem create_session_stores :
  forall (fresh : string) (now : datetime) (e : Env),
  exists e1,
    create_session fresh now e = (Ok (new_Session fresh now), e1)
    /\ fst (get_session fresh e1) = Ok (Some (new_Session fresh now))
    /\ (forall k, k <> fresh ->
                  fst (get_session k e1) = fst (get_session k e))
    /\ (exists l, fst (list_sessions e1) = Ok l
                  /\ In (new_Session fresh now) l)
    /\ files e1 = files e
    /\ warnings e1 = warnings e.
Proof.
  intros fresh now e. eexists. split; [reflexivity|].
  unfold get_session, list_sessions, gets.
  cbn [fst manager _sessions set_sessions new_Session session_id files warnings].
  split_all; try reflexivity.
  - now rewrite dict_get_set_same.
  - intros k Hk. now rewrite dict_get_set_other.
  - eexists. split; [reflexivity|]. unfold dict_values.
    apply in_map_iff. exists (fresh, new_Session fresh now). split; [reflexivity|].
    assert (G : forall (d : dict Session) k v, In (k, v) (dict_set d k v)).
    { intros d k v. induction d as [|[k0 v0] d IH]; simpl; [now left|].
      destruct (String.eqb k0 k); [now left|now right]. }
    apply G.
Qed.

(** X9.  [get_or_create_session] returns the stored session of a known,
    non-empty id and changes nothing; for no id, the empty id or an unknown
    id it creates a session, and the id of that session is the freshly
    drawn one, not the id that was asked for. *)
Theorem get_or_create_session_cases :
  forall (fresh : string) (now : datetime) (e : Env),
    (forall i s,
        i <> EmptyString ->
        dict_get (_sessions (manager e)) i = Some s ->
        get_or_create_session fresh now (Some i) e = (Ok s, e))
    /\ (forall sid,
           (sid = None \/ sid = Some EmptyString
            \/ exists i, sid = Some i
                         /\ dict_get (_sessions (manager e)) i = None) ->
           get_or_create_session fresh now sid e = create_session fresh now e
           /\ exists s, fst (get_or_create_session fresh now sid e) = Ok s
                        /\ session_id s = fresh).
Proof.
  intros fresh now e. split.
  - intros i s Hi Hs. unfold get_or_create_session, bind, gets.
    apply String.eqb_neq in Hi. rewrite Hi, Hs. reflexivity.
  - intros sid H.
    assert (E : get_or_create_session fresh now sid e
                = create_session fresh now e).
    { unfold get_or_create_session. unfold bind at 1. unfold gets.
      destruct H as [->|[->|(i & -> & Hi)]]; try reflexivity.
      rewrite Hi. now destruct (String.eqb i EmptyString). }
    split; [exact E|]. rewrite E. eexists. split; reflexivity.
Qed.

Lemma load_items_NoDup : forall items e,
  NoDup (dict_keys (_sessions (manager e))) ->
  NoDup (dict_keys (_sessions (manager (snd (load_items items e))))).
Proof.
  induction items as [|[k v] items IH]; intros e H; [exact H|].
  simpl. unfold bind at 1. unfold lift.
  destruct (from_dict v) as [s| |]; try exact H.
  unfold bind at 1. unfold modify. apply IH.
  cbn [set_sessions manager _sessions]. now apply dict_set_NoDup.
Qed.

(** The association list of the store is a dictionary, always: a store is
    built with pairwise distinct keys, whatever the snapshot it loads, and
    creating, fetching, deleting and persisting keep them distinct. *)
Lemma store_ids_unique :
  (forall persist_path fs,
      NoDup (dict_keys
               (_sessions (manager (snd (new_SessionManager persist_path fs))))))
  /\ (forall e,
         NoDup (dict_keys (_sessions (manager e))) ->
         (forall fresh now,
             NoDup (dict_keys
                      (_sessions (manager (snd (create_session fresh now e))))))
         /\ (forall fresh now sid,
                NoDup (dict_keys
                         (_sessions
                            (manager
                               (snd (get_or_create_session fresh now sid e))))))
         /\ (forall sid,
                NoDup (dict_keys
                         (_sessions (manager (snd (delete_session sid e))))))
         /\ NoDup (dict_keys (_sessions (manager (snd (persist e)))))).
Proof.
  assert (Hcreate : forall e fresh now,
             NoDup (dict_keys (_sessions (manager e))) ->
             NoDup (dict_keys
                      (_sessions (manager (snd (create_session fresh now e)))))).
  { intros e fresh now H. cbn. now apply dict_set_NoDup. }
  split.
  - intros persist_path fs. unfold new_SessionManager.
    destruct persist_path as [path|]; [|constructor].
    destruct (dict_contains fs path) eqn:Ec; [|constructor].
    unfold _load_sessions. unfold bind at 1. unfold bind at 1. unfold gets.
    cbn [manager _persist_path files].
    destruct (dict_get fs path) as [text|]; [|constructor].
    unfold try_except. unfold bind at 1. unfold lift.
    destruct (json_loads text) as [data|x|]; cbn [fst snd].
    + unfold bind at 1.
      destruct (py_items data) as [items|x|]; cbn [fst snd].
      * pose proof (load_items_NoDup
                      items (mkEnv (mkSessionManager [] (Some path)) fs [])
                      (NoDup_nil _)) as H.
        destruct (load_items items
                    (mkEnv (mkSessionManager [] (Some path)) fs []))
          as [[u|x|] e']; cbn [snd] in *; try exact H.
        destruct x; exact H.
      * destruct x; constructor.
      * constructor.
    + destruct x; constructor.
    + constructor.
  - intros e H. split_all.
    + intros fresh now. now apply Hcreate.
    + intros fresh now sid. unfold get_or_create_session. unfold bind at 1.
      unfold gets.
      destruct sid as [i|]; [|now apply Hcreate].
      destruct (negb (String.eqb i EmptyString)); [|now apply Hcreate].
      destruct (dict_get (_sessions (manager e)) i); [exact H|now apply Hcreate].
    + intros sid. unfold delete_session. unfold bind at 1. unfold gets at 1.
      destruct (dict_contains (_sessions (manager e)) sid); [|exact H].
      unfold bind at 1. unfold modify. unfold bind at 1. unfold bind at 1.
      unfold gets.
      set (e' := set_sessions (fun d => dict_del d sid) e).
      assert (H' : NoDup (dict_keys (_sessions (manager e'))))
        by (cbn; now apply dict_del_NoDup).
      destruct (_persist_path (manager e')) as [path|] eqn:Hp; [|exact H'].
      rewrite (save_sessions_run e' path Hp).
      destruct (json_dumps _); exact H'.
    + unfold persist, bind, gets.
      destruct (_persist_path (manager e)) as [path|] eqn:Hp; [|exact H].
      rewrite (save_sessions_run e path Hp).
      destruct (json_dumps _); exact H.
Qed.

Lemma fold_dict_set_fresh {A V} (key : A -> string) (val : A -> V) (l : list A) :
  forall acc : dict V,
    NoDup (map key l) ->
    (forall a, In a l -> ~ In (key a) (dict_keys acc)) ->
    fold_left (fun d a => dict_set d (key a) (val a)) l acc
    = (acc ++ map (fun a => (key a, val a)) l)%list.
Proof.
  induction l as [|a l IH]; intros acc Hnd Hfresh; simpl.
  - now rewrite app_nil_r.
  - inversion Hnd as [|x xs Hnin Hnd']; subst.
    rewrite dict_set_fresh by (apply Hfresh; now left).
    rewrite IH; [now rewrite <- app_assoc|assumption|].
    intros b Hb Hin. unfold dict_keys in Hin. rewrite map_app in Hin.
    apply in_app_or in Hin as [Hin|[Hin|[]]].
    + apply (Hfresh b); [now right|exact Hin].
    + simpl in Hin. apply Hnin. rewrite Hin. now apply in_map.
Qed.

Lemma map_pair_eta {A B} (l : list (A * B)) :
  map (fun kv => (fst kv, snd kv)) l = l.
Proof. induction l as [|[a b] l IH]; simpl; [reflexivity|now rewrite IH]. Qed.

(** Loading what [to_dict] wrote stores each session under its key. *)
Lemma load_items_saved : forall (l : dict Session) e,
  exists e',
    load_items (map (fun kv => (fst kv, to_dict (snd kv))) l) e = (Ok tt, e')
    /\ _sessions (manager e')
       = fold_left (fun d kv => dict_set d (fst kv) (snd kv)) l
                   (_sessions (manager e))
    /\ warnings e' = warnings e.
Proof.
  induction l as [|[k s] l IH]; intros e.
  - exists e. repeat split.
  - destruct (IH (set_sessions (fun d => dict_set d k s) e))
      as (e' & Hrun & Hs & Hw).
    exists e'. split; [|split; [exact Hs|exact Hw]].
    simpl. unfold bind at 1. unfold lift. rewrite from_dict_to_dict.
    unfold bind at 1. unfold modify. exact Hrun.
Qed.

(** X10.  Persisting and starting again gives the store back: when the
    store persists to a path and the contexts and preferences of its
    sessions hold JSON values only, the snapshot that [persist] writes there
    loads, in a new store, to the same sessions under the same ids in the
    same order, without a warning. *)
Theorem persist_reload_round_trip :
  forall (e : Env) (path : string),
    NoDup (dict_keys (_sessions (manager e))) ->
    _persist_path (manager e) = Some path ->
    storable (_sessions (manager e)) = true ->
    exists e2 e3,
      persist e = (Ok tt, e2)
      /\ _sessions (manager e2) = _sessions (manager e)
      /\ new_SessionManager (Some path) (files e2) = (Ok tt, e3)
      /\ _sessions (manager e3) = _sessions (manager e)
      /\ warnings e3 = [].
Proof.
  intros e path Hnd Hp Hst.
  assert (Hcomp : dict_comp fst (fun kv => to_dict (snd kv)) (_sessions (manager e))
                  = map (fun kv => (fst kv, to_dict (snd kv)))
                        (_sessions (manager e))).
  { unfold dict_comp. rewrite fold_dict_set_fresh; [reflexivity|exact Hnd|].
    intros a _ []. }
  destruct (load_items_saved (_sessions (manager e))
                             (mkEnv (mkSessionManager [] (Some path))
                                    (dict_set (files e) path
                                       (JSONText
                                          (PDict
                                             (map (fun kv => (fst kv, to_dict (snd kv)))
                                                  (_sessions (manager e))))))
                                    []))
    as (e3 & Hrun & Hs & Hw).
  do 2 eexists. split.
  { unfold persist, bind, gets. rewrite Hp.
    apply save_sessions_ok; [exact Hp|exact Hst]. }
  split; [reflexivity|].
  cbn [files write_text]. rewrite Hcomp.
  assert (Hfile : dict_get (dict_set (files e) path
                              (JSONText
                                 (PDict
                                    (map (fun kv => (fst kv, to_dict (snd kv)))
                                         (_sessions (manager e))))))
                           path
                  = Some (JSONText
                            (PDict
                               (map (fun kv => (fst kv, to_dict (snd kv)))
                                    (_sessions (manager e))))))
    by apply dict_get_set_same.
  split; [|split].
  - unfold new_SessionManager, dict_contains. rewrite Hfile.
    unfold _load_sessions. unfold bind at 1. unfold bind at 1. unfold gets.
    cbn [manager _persist_path files]. rewrite Hfile.
    unfold try_except. unfold bind at 1. unfold lift. cbn [json_loads].
    unfold bind at 1. cbn [py_items]. rewrite Hrun. reflexivity.
  - rewrite Hs. cbn [manager _sessions].
    rewrite (fold_dict_set_fresh fst snd); [|exact Hnd|intros a _ []].
    apply map_pair_eta.
  - exact Hw.
Qed.

Lemma persist_reload_two_sessions :
  exists e2 e3,
    persist two_sessions = (Ok tt, e2)
    /\ _sessions (manager e2) = _sessions (manager two_sessions)
    /\ new_SessionManager (Some snapshot_path) (files e2) = (Ok tt, e3)
    /\ _sessions (manager e3) = _sessions (manager two_sessions)
    /\ warnings e3 = [].
Proof.
  apply (persist_reload_round_trip two_sessions snapshot_path).
  - repeat constructor; simpl; intuition discriminate.
  - reflexivity.
  - reflexivity.
Defined.

Lemma load_items_files : forall items e,
  files (snd (load_items items e)) = files e
  /\ warnings (snd (load_items items e)) = warnings e.
Proof.
  induction items as [|[k v] items IH]; intros e; [split; reflexivity|].
  simpl. unfold bind at 1. unfold bind at 2. unfold lift.
  destruct (from_dict v) as [s| |]; try (split; reflexivity).
  unfold bind at 1. unfold bind at 1. unfold modify.
  destruct (IH (set_sessions (fun d => dict_set d k s) e)) as [A B].
  split; [exact A|exact B].
Qed.

(** X11.  The store writes to its snapshot path and nowhere else: without a
    path no method writes a file at all; with one, deleting and persisting
    leave every other file as it was; and creating, fetching and listing
    sessions never write. *)
Theorem store_writes_only_snapshot :
  forall (e : Env),
    (_persist_path (manager e) = None ->
     (forall sid, files (snd (delete_session sid e)) = files e)
     /\ files (snd (persist e)) = files e)
    /\ (forall path other,
           _persist_path (manager e) = Some path -> other <> path ->
           (forall sid,
               dict_get (files (snd (delete_session sid e))) other
               = dict_get (files e) other)
           /\ dict_get (files (snd (persist e))) other = dict_get (files e) other)
    /\ (forall fresh now sid,
           files (snd (create_session fresh now e)) = files e
           /\ files (snd (get_or_create_session fresh now sid e)) = files e)
    /\ (forall sid, files (snd (get_session sid e)) = files e)
    /\ files (snd (list_sessions e)) = files e.
Proof.
  intros e. split; [|split; [|split; [|split]]].
  - intros Hp. split.
    + intros sid. unfold delete_session. unfold bind at 1. unfold gets at 1.
      destruct (dict_contains (_sessions (manager e)) sid); [|reflexivity].
      unfold bind, modify, gets. cbn [set_sessions manager _persist_path].
      now rewrite Hp.
    + unfold persist, bind, gets. now rewrite Hp.
  - intros path other H Hne. split.
    + intros sid. unfold delete_session. unfold bind at 1. unfold gets at 1.
      destruct (dict_contains (_sessions (manager e)) sid); [|reflexivity].
      unfold bind at 1. unfold modify. unfold bind at 1. unfold bind at 1.
      unfold gets.
      set (e' := set_sessions (fun d => dict_del d sid) e).
      change (_persist_path (manager e')) with (_persist_path (manager e)).
      rewrite H. rewrite (save_sessions_run e' path H).
      destruct (json_dumps _) as [text|x|];
        cbn [snd bind ret files write_text]; [|reflexivity|reflexivity].
      now apply dict_get_set_other.
    + unfold persist, bind, gets. rewrite H.
      rewrite (save_sessions_run e path H).
      destruct (json_dumps _) as [text|x|];
        cbn [snd files write_text]; [|reflexivity|reflexivity].
      now apply dict_get_set_other.
  - intros fresh now sid. split; [reflexivity|].
    unfold get_or_create_session. unfold bind at 1. unfold gets.
    destruct sid as [i|]; [|reflexivity].
    destruct (negb (String.eqb i EmptyString)); [|reflexivity].
    destruct (dict_get (_sessions (manager e)) i); reflexivity.
  - reflexivity.
  - reflexivity.
Qed.



Lemma new_SessionManager_outcome persist_path fs :
  exists r e',
    new_SessionManager persist_path fs = (r, e')
    /\ r <> Raise JSONDecodeError
    /\ (forall k, r <> Raise (KeyError k))
    /\ files e' = fs
    /\ (List.length (warnings e') <= 1)%nat.
Proof.
  assert (Hquiet : forall p,
             exists r e',
               (Ok tt, mkEnv (mkSessionManager [] p) fs []) = (r, e')
               /\ r <> Raise JSONDecodeError
               /\ (forall k, r <> Raise (KeyError k))
               /\ files e' = fs
               /\ (List.length (warnings e') <= 1)%nat).
  { intros p. do 2 eexists. split; [reflexivity|].
    split_all; try (intros; discriminate); [reflexivity|simpl; lia]. }
  unfold new_SessionManager.
  destruct persist_path as [path|]; [|apply Hquiet].
  destruct (dict_contains fs path); [|apply Hquiet].
  unfold _load_sessions. unfold bind at 1. unfold bind at 1. unfold gets.
  cbn [manager _persist_path files].
  destruct (dict_get fs path) as [text|]; [|apply Hquiet].
  set (e0 := mkEnv (mkSessionManager [] (Some path)) fs []).
  unfold try_except.
  set (body := (data <- lift (json_loads text);;
                items <- lift (py_items data);; load_items items)).
  assert (Hbody : files (snd (body e0)) = fs /\ warnings (snd (body e0)) = []).
  { unfold body. unfold bind at 1 3. unfold lift at 1 3.
    destruct (json_loads text) as [data|x|]; try (split; reflexivity).
    unfold bind at 1 2. unfold lift.
    destruct (py_items data) as [items|x|]; try (split; reflexivity).
    apply (load_items_files items e0). }
  destruct Hbody as [Hf Hw].
  destruct (body e0) as [[u|x|] e']; cbn [fst snd] in Hf, Hw.
  - do 2 eexists. split; [reflexivity|].
    split_all; try (intros; discriminate); [exact Hf|rewrite Hw; simpl; lia].
  - destruct x; do 2 eexists; (split; [reflexivity|]);
      cbn [files warnings print_warning]; unfold py_append; rewrite ?Hw;
      split_all; try (intros; discriminate); try exact Hf; simpl; lia.
  - do 2 eexists. split; [reflexivity|].
    split_all; try (intros; discriminate); [exact Hf|rewrite Hw; simpl; lia].
Qed.

(** X13.  Starting a store never lets a [JSONDecodeError] or a [KeyError]
    out, whatever the files hold: the [except] clause turns either into
    one warning; it writes no file; and it prints at most one warning. *)
Theorem load_absorbs_decode_and_key_errors :
  forall (persist_path : option string) (fs : dict file_text),
    fst (new_SessionManager persist_path fs) <> Raise JSONDecodeError
    /\ (forall k, fst (new_SessionManager persist_path fs) <> Raise (KeyError k))
    /\ files (snd (new_SessionManager persist_path fs)) = fs
    /\ (List.length (warnings (snd (new_SessionManager persist_path fs))) <= 1)%nat.
Proof.
  intros persist_path fs.
  destruct (new_SessionManager_outcome persist_path fs)
    as (r & e' & -> & H1 & H2 & H3 & H4).
  cbn [fst snd]. split_all; assumption.
Qed.

(* ===================================================================== *)
(** * Further properties: the catalog *)
(* ===================================================================== *)

Lemma dict_set_Forall_entries {V} (Q : string * V -> Prop) (d : dict V) k v :
  Forall Q d -> Q (k, v) -> Forall Q (dict_set d k v).
Proof.
  intros Hd Hv. induction d as [|[k0 v0] d IH]; simpl.
  - constructor; [assumption|constructor].
  - inversion Hd; subst. destruct (String.eqb k0 k); constructor; auto.
Qed.

Lemma dict_get_in {V} (d : dict V) k v : dict_get d k = Some v -> In (k, v) d.
Proof.
  induction d as [|[k0 v0] d IH]; simpl; [discriminate|].
  destruct (String.eqb k0 k) eqn:E.
  - apply String.eqb_eq in E. intros H. inversion H; subst. now left.
  - intros H. right. now apply IH.
Qed.

Lemma dict_comp_NoDup {A V} (key : A -> string) (val : A -> V) (l : list A) :
  NoDup (dict_keys (dict_comp key val l)).
Proof.
  unfold dict_comp.
  assert (G : forall acc : dict V,
             NoDup (dict_keys acc) ->
             NoDup (dict_keys (fold_left (fun d a => dict_set d (key a) (val a))
                                         l acc))).
  { induction l as [|a l IH]; intros acc H; simpl; [assumption|].
    apply IH. now apply dict_set_NoDup. }
  apply G. constructor.
Qed.

Lemma dict_comp_entries {A} (key : A -> string) (l : list A) :
  Forall (fun kv => In (snd kv) l /\ key (snd kv) = fst kv)
         (dict_comp key (fun a => a) l).
Proof.
  unfold dict_comp.
  assert (G : forall (l0 : list A) (acc : dict A),
             (forall a, In a l0 -> In a l) ->
             Forall (fun kv => In (snd kv) l /\ key (snd kv) = fst kv) acc ->
             Forall (fun kv => In (snd kv) l /\ key (snd kv) = fst kv)
                    (fold_left (fun d a => dict_set d (key a) a) l0 acc)).
  { induction l0 as [|a l0 IH]; intros acc Hsub Hacc; simpl; [assumption|].
    apply IH; [intros b Hb; apply Hsub; now right|].
    apply dict_set_Forall_entries; [assumption|].
    simpl. split; [apply Hsub; now left|reflexivity]. }
  apply G; [auto|constructor].
Qed.

(** X14.  The conductor keys its catalog by agent name: the keys are
    pairwise distinct, they are exactly the names of the agents it was
    given, the profile found under a key is one of the given agents and
    bears that name, and when the given names are distinct the catalog
    lists the agents in the order given. *)
Theorem new_Conductor_catalog :
  forall (l : list AgentProfile) (backend : OllamaClient)
         (cfg : option ConductorConfig),
    NoDup (dict_keys (agents (new_Conductor l backend cfg)))
    /\ (forall k, dict_contains (agents (new_Conductor l backend cfg)) k = true
                  <-> In k (map name l))
    /\ (forall k a, dict_get (agents (new_Conductor l backend cfg)) k = Some a ->
                    In a l /\ name a = k)
    /\ (NoDup (map name l) ->
        agents (new_Conductor l backend cfg) = map (fun a => (name a, a)) l).
Proof.
  intros l backend cfg. unfold new_Conductor. cbn [agents]. split_all.
  - apply dict_comp_NoDup.
  - intros k. rewrite <- dict_comp_keys with (val := fun a : AgentProfile => a).
    split.
    + intros H.
      destruct (in_dec string_dec k (dict_keys (dict_comp name (fun a => a) l)))
        as [Hin|Hnin]; [assumption|].
      apply dict_get_none_keys, dict_contains_false in Hnin. congruence.
    + apply dict_get_in_keys.
  - intros k a H. apply dict_get_in in H.
    pose proof (dict_comp_entries name l) as HF.
    rewrite Forall_forall in HF. apply (HF (k, a) H).
  - intros Hnd. unfold dict_comp.
    rewrite fold_dict_set_fresh; [reflexivity|assumption|intros a _ []].
Qed.

Lemma length_take (n : nat) (s : string) :
  (String.length (take n s) <= n)%nat.
Proof.
  unfold take. revert s. induction n as [|n IH]; intros s.
  - destruct s; simpl; lia.
  - destruct s as [|c s]; simpl; [lia|]. specialize (IH s). lia.
Qed.

(** X15.  The catalog text has one line per catalog entry, in catalog
    order, naming the key, the category and the role; a role is shown whole
    when it has at most 150 characters and otherwise as its first 150
    characters followed by "...", so that no line shows more than 153
    characters of role; the catalog of no agents is the empty text. *)
Theorem build_agent_catalog_lines :
  forall (agents : dict AgentProfile),
    _build_agent_catalog agents
    = join nl (map (fun kv =>
                      "- " ++ fst kv ++ " (" ++ category (snd kv) ++ "): "
                           ++ shown_role (snd kv))
                   agents)
    /\ (forall a, (String.length (shown_role a) <= 153)%nat)
    /\ (forall a, (String.length (agent_role a) <= 150)%nat ->
                  shown_role a = agent_role a)
    /\ (forall a, (150 < String.length (agent_role a))%nat ->
                  shown_role a = take 150 (agent_role a) ++ "...")
    /\ _build_agent_catalog [] = EmptyString.
Proof.
  intros agents. split_all.
  - unfold _build_agent_catalog.
    rewrite (fold_append_map
               (fun kv : string * AgentProfile =>
                  "- " ++ fst kv ++ " (" ++ category (snd kv) ++ "): "
                       ++ shown_role (snd kv))).
    reflexivity.
  - intros a. unfold shown_role.
    destruct (150 <? String.length (agent_role a))%nat eqn:E.
    + rewrite length_append. pose proof (length_take 150 (agent_role a)).
      simpl. lia.
    + apply Nat.ltb_ge in E. lia.
  - intros a H. unfold shown_role.
    apply Nat.ltb_ge in H. now rewrite H.
  - intros a H. unfold shown_role. apply Nat.ltb_lt in H. now rewrite H.
  - reflexivity.
Qed.

(* ===================================================================== *)
(** * Further properties: routing *)
(* ===================================================================== *)

Lemma parse_confidence_bounds self response d :
  _parse_routing_response self response = Ok d ->
  (0 <= confidence d /\ confidence d <= 1)%Q.
Proof.
  rewrite parse_unfold. cbv zeta. intros H. inversion H as [Hd]. clear H Hd.
  assert (Hc : forall c : Q, (0 <= c /\ c <= 1)%Q ->
               forall a r (b : bool) (o : option string),
                 (0 <= confidence
                         (if b
                          then match o with
                               | Some n => mkRoutingDecision n c r
                               | None => mkRoutingDecision "conductor" c
                                                           not_found_reasoning
                               end
                          else mkRoutingDecision a c r)
                  /\ confidence
                       (if b
                        then match o with
                             | Some n => mkRoutingDecision n c r
                             | None => mkRoutingDecision "conductor" c
                                                         not_found_reasoning
                             end
                        else mkRoutingDecision a c r) <= 1)%Q).
  { intros c Hc a r b o. destruct b; [destruct o|]; exact Hc. }
  apply Hc.
  destruct (extract_confidence response) as [g|]; [|split; discriminate].
  destruct (py_float g); [apply clamp_bounds|split; discriminate..].
Qed.

(** X16.  A handler that the reply names and the catalog holds, or the
    sentinel "conductor", is returned as extracted (in lower case), and the
    reasoning is the one parsed from the reply, or "Default routing" when
    the REASON line is missing: validation rewrites neither. *)
Theorem parse_known_handler_kept :
  forall (self : Conductor) (response a : string),
    extract_agent response = Some a ->
    a = "conductor" \/ dict_contains (agents self) a = true ->
    exists d,
      _parse_routing_response self response = Ok d
      /\ agent d = a
      /\ reasoning d = match extract_reason response with
                       | Some r => r
                       | None => "Default routing"
                       end.
Proof.
  intros self response a Ha Hk. rewrite parse_unfold, Ha. cbv zeta.
  assert (E : negb (String.eqb a "conductor")
              && negb (dict_contains (agents self) a) = false).
  { destruct Hk as [->|Hk]; [reflexivity|]. rewrite Hk.
    now destruct (String.eqb a "conductor"). }
  rewrite E. eexists. split; [reflexivity|]. split; reflexivity.
Qed.

Lemma parse_known_handler_backend_engineer :
  exists d,
    _parse_routing_response
      (demo_conductor (constant_backend "ok"))
      ("Agent: Backend-Engineer" ++ nl ++ "Reason: API design question") = Ok d
    /\ agent d = "backend-engineer"
    /\ reasoning d = "API design question".
Proof.
  destruct (parse_known_handler_kept
              (demo_conductor (constant_backend "ok"))
              ("Agent: Backend-Engineer" ++ nl ++ "Reason: API design question")
              "backend-engineer" eq_refl (or_intror eq_refl))
    as (d & Hd & Ha & Hr).
  exists d. split; [exact Hd|]. split; [exact Ha|]. rewrite Hr. reflexivity.
Defined.

(** X17.  Whatever text the backend answers to the routing request,
    [route] returns a decision and does not raise; the handler of the
    decision is "conductor" or a key of the catalog, its confidence lies in
    [0, 1], and the routing request is the one request sent. *)
Theorem route_returns_known_handler :
  forall (py_str : pyval -> string) (self : Conductor) (query : string)
         (w : World) (text : string),
    ollama self (calls w) (routing_request py_str self query w) = Ok text ->
    exists d,
      route py_str self query w
      = (Ok d,
         mkWorld (session w)
                 (calls w ++ [routing_request py_str self query w])%list
                 (S (route_entries w)))
      /\ _parse_routing_response self text = Ok d
      /\ (agent d = "conductor" \/ dict_contains (agents self) (agent d) = true)
      /\ (0 <= confidence d /\ confidence d <= 1)%Q.
Proof.
  intros py_str self query w text Hb. rewrite route_run, Hb.
  assert (Hp : exists d, _parse_routing_response self text = Ok d)
    by (rewrite parse_unfold; eauto).
  destruct Hp as [d Hd]. exists d. rewrite Hd. split; [reflexivity|].
  split; [reflexivity|]. split.
  - eapply parse_agent_in_catalog; eauto.
  - eapply parse_confidence_bounds; eauto.
Qed.

Lemma route_returns_on_garbage :
  exists d,
    route demo_str (demo_conductor (constant_backend "?? 42 ??")) "hello"
          demo_world
    = (Ok d,
       mkWorld (session demo_world)
               (calls demo_world
                  ++ [routing_request demo_str
                                      (demo_conductor (constant_backend "?? 42 ??"))
                                      "hello" demo_world])%list
               (S (route_entries demo_world)))
    /\ _parse_routing_response (demo_conductor (constant_backend "?? 42 ??"))
                               "?? 42 ??" = Ok d
    /\ (agent d = "conductor"
        \/ dict_contains (agents (demo_conductor (constant_backend "?? 42 ??")))
                         (agent d) = true)
    /\ (0 <= confidence d /\ confidence d <= 1)%Q.
Proof.
  apply (route_returns_known_handler
           demo_str (demo_conductor (constant_backend "?? 42 ??")) "hello"
           demo_world "?? 42 ??").
  reflexivity.
Defined.

Lemma closest_match_nil a : closest_match a [] = None.
Proof. reflexivity. Qed.

(** X18.  A conductor without specialists answers everything itself: when
    the catalog is empty and the backend answers, an unforced [respond]
    returns with the handler "conductor" and no specialist text, having
    sent the routing request and then the chat request. *)
Theorem respond_empty_catalog :
  forall (py_str : pyval -> string) (self : Conductor) (query : string)
         (w : World),
    agents self = [] ->
    (forall sent c, exists t, ollama self sent c = Ok t) ->
    exists r d w',
      respond py_str self query None w = (Ok r, w')
      /\ response_routing r = Some d
      /\ agent d = "conductor"
      /\ specialist_response r = None
      /\ calls w' = (calls w ++ [routing_request py_str self query w;
                                 chat_request self query w])%list.
Proof.
  intros py_str self query w Hempty Hb.
  destruct (Hb (calls w) (routing_request py_str self query w)) as [text Ht].
  assert (Hp : exists d, _parse_routing_response self text = Ok d
                         /\ agent d = "conductor").
  { rewrite parse_unfold. cbv zeta. rewrite Hempty. cbn [dict_keys map].
    rewrite closest_match_nil.
    destruct (negb _ && negb _) eqn:E.
    - eexists. split; reflexivity.
    - eexists. split; [reflexivity|]. cbn [agent].
      unfold dict_contains in E. cbn [dict_get negb] in E.
      rewrite andb_true_r in E. apply negb_false_iff in E.
      now apply String.eqb_eq. }
  destruct Hp as (d & Hd & Hagent).
  unfold respond, respond_step1. cbn [given].
  unfold bind at 1. rewrite route_run, Ht, Hd.
  unfold respond_step2. rewrite Hagent. cbn [String.eqb Ascii.eqb Bool.eqb].
  unfold bind at 1. unfold bind at 1. unfold _respond_directly.
  unfold bind at 1. cbn [gets]. rewrite send_run.
  match goal with |- context [ollama self ?h ?c] =>
    destruct (Hb h c) as [t' Ht']; rewrite Ht' end.
  do 3 eexists. split; [reflexivity|].
  cbn [response_routing specialist_response snd calls log_call].
  split; [reflexivity|]. split; [exact Hagent|]. split; [reflexivity|].
  unfold chat_request, py_append. cbn [session]. rewrite <- app_assoc.
  reflexivity.
Qed.

Lemma respond_lone_conductor :
  exists r d w',
    respond demo_str (lone_conductor (constant_backend "AGENT: ethical-hacker"))
            "hello" None demo_world = (Ok r, w')
    /\ response_routing r = Some d
    /\ agent d = "conductor"
    /\ specialist_response r = None
    /\ calls w'
       = (calls demo_world
            ++ [routing_request
                  demo_str
                  (lone_conductor (constant_backend "AGENT: ethical-hacker"))
                  "hello" demo_world;
                chat_request
                  (lone_conductor (constant_backend "AGENT: ethical-hacker"))
                  "hello" demo_world])%list.
Proof.
  apply (respond_empty_catalog
           demo_str (lone_conductor (constant_backend "AGENT: ethical-hacker"))
           "hello" demo_world).
  - reflexivity.
  - intros sent c. now exists "AGENT: ethical-hacker".
Defined.

(* ===================================================================== *)
(** * Further properties: the paths of [respond] *)
(* ===================================================================== *)

(** X19.  A forced handler that is neither empty, nor the sentinel, nor a
    key of the catalog is not refused: [handoff] sends nothing and gives
    the text "Agent <name> not found.", which one presentation request then
    presents; the response carries the backend's answer to that request as
    message and the not-found text as specialist text. *)
Theorem respond_forced_unknown_handler :
  forall (py_str : pyval -> string) (self : Conductor) (query f : string)
         (w : World) (final : string),
    f <> EmptyString ->
    f <> "conductor" ->
    dict_get (agents self) f = None ->
    ollama self (calls w)
           (presentation_request self query f ("Agent " ++ f ++ " not found."))
    = Ok final ->
    respond py_str self query (Some f) w
    = (Ok (mkConductorResponse
             final
             (Some (mkRoutingDecision f 1 "Agent forced by request"))
             0 (Some ("Agent " ++ f ++ " not found."))),
       mkWorld (session w)
               (calls w
                  ++ [presentation_request self query f
                                           ("Agent " ++ f ++ " not found.")])%list
               (route_entries w)).
Proof.
  intros py_str self query f w final Hf Hc Hget Hfinal.
  unfold respond, respond_step1. rewrite (given_some f Hf).
  rewrite bind_ret_run. unfold respond_step2. cbn [agent].
  apply String.eqb_neq in Hc. rewrite Hc.
  unfold handoff. rewrite Hget. unfold bind at 1. rewrite bind_ret_run.
  unfold _present_specialist_response. rewrite bind_send_run.
  fold (presentation_request self query f ("Agent " ++ f ++ " not found.")).
  rewrite Hfinal. reflexivity.
Qed.

Lemma respond_forced_ghost :
  respond demo_str (demo_conductor (constant_backend "ok")) "hello"
          (Some "ghost") demo_world
  = (Ok (mkConductorResponse
           "ok" (Some (mkRoutingDecision "ghost" 1 "Agent forced by request"))
           0 (Some "Agent ghost not found.")),
     mkWorld demo_session
             [presentation_request (demo_conductor (constant_backend "ok"))
                                   "hello" "ghost" "Agent ghost not found."]
             0).
Proof.
  apply (respond_forced_unknown_handler
           demo_str (demo_conductor (constant_backend "ok")) "hello" "ghost"
           demo_world "ok"); try discriminate; reflexivity.
Defined.

Lemma length_get_chat_history_bound s n :
  (0 < n)%Z ->
  (List.length (get_chat_history s n) <= 2 * Z.to_nat n)%nat.
Proof.
  intros Hn. rewrite get_chat_history_positive by assumption.
  rewrite length_flat_map_turn_messages, length_last_n. lia.
Qed.

(** X20.  When the resolved handler is the sentinel and the backend answers
    the chat request, [respond] sends that one request and returns its
    answer as message, with no specialist text.  The request carries the
    chat history of the session followed by the query as last user message;
    with a positive turn limit it holds at most two messages per allowed
    turn and the query. *)
Theorem respond_direct_path :
  forall (py_str : pyval -> string) (self : Conductor) (query : string)
         (force_agent : option string) (w w1 : World)
         (routing : RoutingDecision) (text : string),
    respond_step1 py_str self query force_agent w = (Ok routing, w1) ->
    agent routing = "conductor" ->
    ollama self (calls w1) (chat_request self query w1) = Ok text ->
    respond py_str self query force_agent w
    = (Ok (mkConductorResponse text (Some routing) 0 None),
       mkWorld (session w1) (calls w1 ++ [chat_request self query w1])%list
               (route_entries w1))
    /\ (exists history,
           chat_request self query w1
           = Chat (conductor_model (config self))
                  (history ++ [mkChatMessage "user" query])%list
                  (response_temperature (config self))
           /\ history = get_chat_history (session w1)
                                         (max_context_turns (config self))
           /\ ((0 < max_context_turns (config self))%Z ->
               (List.length history
                <= 2 * Z.to_nat (max_context_turns (config self)))%nat)).
Proof.
  intros py_str self query force_agent w w1 routing text H1 Ha Ht. split.
  - unfold respond. unfold bind at 1. rewrite H1.
    unfold respond_step2. rewrite Ha. cbn [String.eqb Ascii.eqb Bool.eqb].
    unfold bind at 1. unfold bind at 1. unfold _respond_directly.
    unfold bind at 1. cbn [gets]. rewrite send_run.
    fold (chat_request self query w1). rewrite Ht. reflexivity.
  - eexists. split; [reflexivity|]. split; [reflexivity|].
    apply length_get_chat_history_bound.
Qed.

Lemma respond_direct_forced_conductor :
  respond demo_str (demo_conductor (constant_backend "hi there")) "hello"
          (Some "conductor") (mkWorld three_turns [] 0)
  = (Ok (mkConductorResponse
           "hi there"
           (Some (mkRoutingDecision "conductor" 1 "Agent forced by request"))
           0 None),
     mkWorld three_turns
             [chat_request (demo_conductor (constant_backend "hi there"))
                           "hello" (mkWorld three_turns [] 0)]
             0).
Proof.
  apply (proj1 (respond_direct_path
                  demo_str (demo_conductor (constant_backend "hi there"))
                  "hello" (Some "conductor") (mkWorld three_turns [] 0)
                  (mkWorld three_turns [] 0)
                  (mkRoutingDecision "conductor" 1 "Agent forced by request")
                  "hi there" eq_refl eq_refl eq_refl)).
Defined.

(** X21.  A failed backend request ends [respond] with the exception of
    that request and nothing is sent after it: when the routing request
    fails, neither the chat nor the hand-off is attempted; when the
    hand-off fails, the presentation is not sent; when the presentation
    fails, the two requests have been sent and the exception is the
    presentation's. *)
Theorem respond_backend_failure :
  forall (py_str : pyval -> string) (self : Conductor) (query : string)
         (w : World) (x : PyExc),
    (ollama self (calls w) (routing_request py_str self query w) = Raise x ->
     respond py_str self query None w
     = (Raise x,
        mkWorld (session w)
                (calls w ++ [routing_request py_str self query w])%list
                (S (route_entries w))))
    /\ (forall force_agent w1 routing profile,
           respond_step1 py_str self query force_agent w = (Ok routing, w1) ->
           agent routing <> "conductor" ->
           dict_get (agents self) (agent routing) = Some profile ->
           (ollama self (calls w1)
                   (handoff_request py_str self query (agent routing) w1)
            = Raise x ->
            respond py_str self query force_agent w
            = (Raise x,
               mkWorld (session w1)
                       (calls w1
                          ++ [handoff_request py_str self query
                                              (agent routing) w1])%list
                       (route_entries w1)))
           /\ (forall raw,
                  ollama self (calls w1)
                         (handoff_request py_str self query (agent routing) w1)
                  = Ok raw ->
                  ollama self
                         (calls w1
                            ++ [handoff_request py_str self query
                                                (agent routing) w1])%list
                         (presentation_request self query (agent routing) raw)
                  = Raise x ->
                  respond py_str self query force_agent w
                  = (Raise x,
                     mkWorld (session w1)
                             (calls w1
                                ++ [handoff_request py_str self query
                                                    (agent routing) w1;
                                    presentation_request self query
                                                         (agent routing) raw])%list
                             (route_entries w1)))).
Proof.
  intros py_str self query w x. split.
  - intros Hb. unfold respond, respond_step1. cbn [given].
    unfold bind at 1. rewrite route_run, Hb. reflexivity.
  - intros force_agent w1 routing profile H1 Hne Hget.
    assert (E : respond py_str self query force_agent w
                = bind (bind (send self (handoff_request py_str self query
                                                         (agent routing) w1))
                             (fun raw =>
                                bind (_present_specialist_response
                                        self query (agent routing) raw)
                                     (fun t => ret (t, Some raw))))
                       (fun out =>
                          ret (mkConductorResponse (fst out) (Some routing) 0
                                                   (snd out))) w1).
    { unfold respond. unfold bind at 1. rewrite H1.
      unfold respond_step2. apply String.eqb_neq in Hne. rewrite Hne.
      unfold handoff. rewrite Hget. reflexivity. }
    rewrite E. split.
    + intros Hb. unfold bind at 1. rewrite bind_send_run, Hb. reflexivity.
    + intros raw Hraw Hb. unfold bind at 1. rewrite bind_send_run, Hraw.
      unfold _present_specialist_response. unfold bind at 1.
      rewrite send_run.
      fold (presentation_request self query (agent routing) raw).
      cbn [calls log_call]. unfold py_append. rewrite Hb.
      unfold log_call, py_append. cbn [session calls route_entries].
      now rewrite <- app_assoc.
Qed.

Lemma respond_backend_down :
  respond demo_str (demo_conductor failing_backend) "hello" None demo_world
  = (Raise HTTPError,
     mkWorld demo_session
             [routing_request demo_str (demo_conductor failing_backend)
                              "hello" demo_world]
             1)
  /\ respond demo_str (demo_conductor failing_backend) "hello"
             (Some "ethical-hacker") demo_world
     = (Raise HTTPError,
        mkWorld demo_session
                [handoff_request demo_str (demo_conductor failing_backend)
                                 "hello" "ethical-hacker" demo_world]
                0).
Proof.
  split.
  - apply (proj1 (respond_backend_failure
                    demo_str (demo_conductor failing_backend) "hello"
                    demo_world HTTPError)).
    reflexivity.
  - destruct (proj2 (respond_backend_failure
                       demo_str (demo_conductor failing_backend) "hello"
                       demo_world HTTPError)
                    (Some "ethical-hacker") demo_world
                    (mkRoutingDecision "ethical-hacker" 1
                                       "Agent forced by request")
                    ethical_hacker eq_refl ltac:(discriminate) eq_refl)
      as [A _].
    exact (A eq_refl).
Defined.

(* ===================================================================== *)
(** * Further properties: the chat endpoint *)
(* ===================================================================== *)

(** The session that [get_or_create_session] returns is the one the store
    then holds under [held_under]. *)
Lemma get_or_create_held fresh now sid e held store :
  get_or_create_session fresh now sid e = (Ok held, store) ->
  dict_get (_sessions (manager store))
           (held_under fresh sid (_sessions (manager e))) = Some held
  /\ files store = files e.
Proof.
  unfold get_or_create_session, held_under, dict_contains.
  unfold bind at 1. unfold gets.
  assert (Hcreate : create_session fresh now e = (Ok held, store) ->
                    dict_get (_sessions (manager store)) fresh = Some held
                    /\ files store = files e).
  { intros H. inversion H; subst. cbn. now rewrite dict_get_set_same. }
  destruct sid as [i|]; [|exact Hcreate].
  destruct (negb (String.eqb i EmptyString)); cbn [andb]; [|exact Hcreate].
  destruct (dict_get (_sessions (manager e)) i) as [s|] eqn:Hi; [|exact Hcreate].
  intros H. inversion H; subst. split; [exact Hi|reflexivity].
Qed.

(** X22.  A chat request that [respond] answers records exactly one turn,
    after the answer: the session that the store holds for the request then
    has the turns it had, followed by one turn made of the request's
    message, the response's message and its routing decision; every other
    session and every file is as before; the reply names the id of that
    session; and outside developer mode the reply shows neither the routing
    nor the specialist's text. *)
Theorem chat_records_one_turn :
  forall (py_str : pyval -> string) (fresh : string)
         (created turn_time : datetime) (latency_ms : Q)
         (request : ChatRequest) (state : AppState) (c : Conductor)
         (held : Session) (store : Env) (response : ConductorResponse)
         (w : World),
    app_conductor state = Some c ->
    get_or_create_session fresh created (request_session_id request)
                          (app_store state) = (Ok held, store) ->
    respond py_str c (request_message request) (request_force_agent request)
            (mkWorld held (app_calls state) (app_route_entries state))
    = (Ok response, w) ->
    exists cr state' recorded,
      chat py_str fresh created turn_time latency_ms request state
      = (Reply cr, state')
      /\ chat_message cr = message response
      /\ chat_session_id cr = session_id held
      /\ (app_dev_mode state = false ->
          chat_routing cr = None /\ chat_specialist_response cr = None)
      /\ dict_get (_sessions (manager (app_store state')))
                  (held_under fresh (request_session_id request)
                              (_sessions (manager (app_store state))))
         = Some recorded
      /\ turns recorded
         = (turns held
              ++ [mkTurn (request_message request) (message response)
                         (response_routing response)
                         (response_tokens_used response) latency_ms
                         turn_time])%list
      /\ (forall k,
             k <> held_under fresh (request_session_id request)
                             (_sessions (manager (app_store state))) ->
             dict_get (_sessions (manager (app_store state'))) k
             = dict_get (_sessions (manager store)) k)
      /\ files (app_store state') = files (app_store state).
Proof.
  intros py_str fresh created turn_time latency_ms request state c held store
         response w Hc Hg Hr.
  assert (Hs : session w = held).
  { change held with
      (session (mkWorld held (app_calls state) (app_route_entries state))).
    replace w with
      (snd (respond py_str c (request_message request)
                    (request_force_agent request)
                    (mkWorld held (app_calls state) (app_route_entries state))))
      by now rewrite Hr.
    apply preserves_respond; reflexivity. }
  destruct (get_or_create_held _ _ _ _ _ _ Hg) as [_ Hfiles].
  unfold chat. rewrite Hc, Hg, Hr, Hs.
  do 3 eexists. split; [reflexivity|].
  cbn [chat_message chat_session_id chat_routing chat_specialist_response
       app_store manager _sessions set_sessions files].
  split; [reflexivity|]. split; [reflexivity|]. split.
  { intros Hd. rewrite Hd. split; reflexivity. }
  split; [apply dict_get_set_same|]. split; [reflexivity|]. split.
  - intros k Hk. now apply dict_get_set_other.
  - exact Hfiles.
Qed.

Lemma chat_records_one_turn_demo :
  exists cr state' recorded,
    chat demo_str "12345678" demo_time demo_time 0
         (mkChatRequest "hello" (Some "abcd1234") None) demo_state
    = (Reply cr, state')
    /\ chat_message cr = "ok"
    /\ chat_session_id cr = "abcd1234"
    /\ (app_dev_mode demo_state = false ->
        chat_routing cr = None /\ chat_specialist_response cr = None)
    /\ dict_get (_sessions (manager (app_store state'))) "abcd1234"
       = Some recorded
    /\ turns recorded
       = [mkTurn "hello" "ok"
                 (Some (mkRoutingDecision "conductor" (1 # 2) "Default routing"))
                 0 0 demo_time]
    /\ (forall k, k <> "abcd1234" ->
                  dict_get (_sessions (manager (app_store state'))) k
                  = dict_get (_sessions (manager two_sessions)) k)
    /\ files (app_store state') = files (app_store demo_state).
Proof.
  exact (chat_records_one_turn
           demo_str "12345678" demo_time demo_time 0
           (mkChatRequest "hello" (Some "abcd1234") None) demo_state
           (demo_conductor (constant_backend "ok")) demo_session two_sessions
           (mkConductorResponse
              "ok"
              (Some (mkRoutingDecision "conductor" (1 # 2) "Default routing"))
              0 None)
           (mkWorld demo_session
                    [routing_request demo_str
                                     (demo_conductor (constant_backend "ok"))
                                     "hello" demo_world;
                     chat_request (demo_conductor (constant_backend "ok"))
                                  "hello" demo_world]
                    1)
           eq_refl eq_refl eq_refl).
Defined.

(** X23.  A chat request that fails records no turn: without a conductor
    the endpoint answers 503 and touches nothing; when [respond] raises it
    answers 500 and the store is left as [get_or_create_session] left it,
    so that the session of a known id is unchanged, while a session created
    for the request stays in the store without a turn. *)
Theorem chat_failure_records_nothing :
  forall (py_str : pyval -> string) (fresh : string)
         (created turn_time : datetime) (latency_ms : Q)
         (request : ChatRequest) (state : AppState),
    (app_conductor state = None ->
     chat py_str fresh created turn_time latency_ms request state
     = (HTTPException 503, state))
    /\ (forall c held store x w,
           app_conductor state = Some c ->
           get_or_create_session fresh created (request_session_id request)
                                 (app_store state) = (Ok held, store) ->
           respond py_str c (request_message request)
                   (request_force_agent request)
                   (mkWorld held (app_calls state) (app_route_entries state))
           = (Raise x, w) ->
           exists state',
             chat py_str fresh created turn_time latency_ms request state
             = (HTTPException 500, state')
             /\ app_store state' = store
             /\ dict_get (_sessions (manager (app_store state')))
                         (held_under fresh (request_session_id request)
                                     (_sessions (manager (app_store state))))
                = Some held
             /\ (forall i, request_session_id request = Some i ->
                           i <> EmptyString ->
                           dict_contains (_sessions (manager (app_store state))) i
                           = true ->
                           app_store state' = app_store state)).
Proof.
  intros py_str fresh created turn_time latency_ms request state. split.
  - intros Hc. unfold chat. now rewrite Hc.
  - intros c held store x w Hc Hg Hr.
    destruct (get_or_create_held _ _ _ _ _ _ Hg) as [Hheld _].
    unfold chat. rewrite Hc, Hg, Hr. eexists. split; [reflexivity|].
    cbn [app_store]. split; [reflexivity|]. split; [exact Hheld|].
    intros i Hi Hne Hk. unfold get_or_create_session in Hg.
    unfold bind at 1 in Hg. unfold gets in Hg. rewrite Hi in Hg.
    apply String.eqb_neq in Hne. rewrite Hne in Hg. cbn [negb] in Hg.
    unfold dict_contains in Hk.
    destruct (dict_get (_sessions (manager (app_store state))) i);
      [|discriminate Hk].
    now inversion Hg.
Qed.

Lemma chat_backend_down :
  exists state',
    chat demo_str "12345678" demo_time demo_time 0
         (mkChatRequest "hello" (Some "abcd1234") None)
         (mkAppState (Some (demo_conductor failing_backend)) true two_sessions
                     [] 0)
    = (HTTPException 500, state')
    /\ app_store state' = two_sessions.
Proof.
  edestruct (proj2 (chat_failure_records_nothing
                      demo_str "12345678" demo_time demo_time 0
                      (mkChatRequest "hello" (Some "abcd1234") None)
                      (mkAppState (Some (demo_conductor failing_backend)) true
                                  two_sessions [] 0)))
    as [state' [A [B _]]].
  - reflexivity.
  - reflexivity.
  - reflexivity.
  - exists state'. split; [exact A | exact B].
Defined.

(* ===================================================================== *)
(** * Further properties: replies in the expected format *)
(* ===================================================================== *)

Lemma prefix_colon : forall (w s : string),
  prefix (w ++ ":") s = true -> no_colon s = false.
Proof.
  induction w as [|a w IH]; intros [|c s]; cbn [append prefix];
    try discriminate.
  - destruct (ascii_dec ":" c) as [<-|]; [reflexivity|discriminate].
  - destruct (ascii_dec a c); [|discriminate]. intros H.
    unfold no_colon in *. cbn [string_forall]. rewrite (IH s H).
    apply andb_false_r.
Qed.

Lemma py_in_colon (w : string) : forall s,
  py_in (w ++ ":") s = true -> no_colon s = false.
Proof.
  induction s as [|c s IH]; cbn [py_in].
  - destruct (prefix (w ++ ":") EmptyString) eqn:E; [|discriminate].
    intros _. now apply (prefix_colon w).
  - destruct (prefix (w ++ ":") (String c s)) eqn:E.
    + intros _. now apply (prefix_colon w).
    + intros H. unfold no_colon in *. cbn [string_forall].
      rewrite (IH H). apply andb_false_r.
Qed.

Lemma lower_no_colon : forall s, no_colon (lower s) = no_colon s.
Proof.
  assert (C : forall ch, Ascii.eqb (lower_char ch) ":" = Ascii.eqb ch ":").
  { intros ch. destruct ch as [[] [] [] [] [] [] [] []]; reflexivity. }
  unfold no_colon. induction s as [|c s IH]; [reflexivity|].
  cbn [lower string_forall]. now rewrite C, IH.
Qed.

(** A reply without a colon holds none of the key words. *)
Lemma no_colon_no_keyword (w response : string) :
  no_colon response = true -> py_in (w ++ ":") (lower response) = false.
Proof.
  intros H. destruct (py_in (w ++ ":") (lower response)) eqn:E; [|reflexivity].
  apply py_in_colon in E. rewrite lower_no_colon in E. congruence.
Qed.

(** X24.  Two kinds of reply parse to the three defaults, handler
    "conductor", confidence 0.5 and reasoning "Default routing", whatever
    the catalog: a reply without a colon; and a reply in ASCII in which
    none of the three key words occurs, in any case of letters.  The second
    is stated for ASCII, where [str.lower] and the case folding of [re]
    agree on every Python string. *)
Theorem parse_without_keywords :
  forall (self : Conductor) (response : string),
    (no_colon response = true ->
     _parse_routing_response self response
     = Ok (mkRoutingDecision "conductor" (1 # 2) "Default routing"))
    /\ (string_forall is_ascii response = true ->
        py_in "agent:" (lower response) = false ->
        py_in "confidence:" (lower response) = false ->
        py_in "reason:" (lower response) = false ->
        _parse_routing_response self response
        = Ok (mkRoutingDecision "conductor" (1 # 2) "Default routing")).
Proof.
  intros self response.
  destruct (missing_keyword response) as (Ma & Mc & Mr).
  split.
  - intros H. rewrite parse_unfold.
    rewrite (Ma (no_colon_no_keyword "agent" response H)).
    rewrite (Mc (no_colon_no_keyword "confidence" response H)).
    rewrite (Mr (no_colon_no_keyword "reason" response H)).
    reflexivity.
  - intros _ Ha Hc Hr.
    rewrite parse_unfold, (Ma Ha), (Mc Hc), (Mr Hr). reflexivity.
Qed.

Lemma parse_without_keywords_chatter :
  _parse_routing_response (demo_conductor (constant_backend "ok"))
                          "I am not sure which AGENT fits: maybe none?"
  = Ok (mkRoutingDecision "conductor" (1 # 2) "Default routing")
  /\ _parse_routing_response (demo_conductor (constant_backend "ok"))
                             "REASON to doubt, CONFIDENCE low, AGENT unknown"
     = Ok (mkRoutingDecision "conductor" (1 # 2) "Default routing").
Proof.
  split.
  - apply (proj2 (parse_without_keywords
                    (demo_conductor (constant_backend "ok"))
                    "I am not sure which AGENT fits: maybe none?"));
      reflexivity.
  - apply (proj1 (parse_without_keywords
                    (demo_conductor (constant_backend "ok"))
                    "REASON to doubt, CONFIDENCE low, AGENT unknown")).
    reflexivity.
Defined.

(** A greedy loop runs to the end of the characters of its set when the
    rest of the pattern matches there. *)
Lemma m_greedy_star_max cs k p rest m :
  all_in cs p = true ->
  k rest = Some m ->
  (rest = EmptyString
   \/ exists c r, rest = String c r /\ cset_mem cs c = false) ->
  m_greedy_star cs k (p ++ rest) = Some m.
Proof.
  intros Hp Hk Hrest. induction p as [|ch p IH]; cbn [append].
  - destruct Hrest as [->|(c & r & -> & Hc)]; simpl; [exact Hk|].
    now rewrite Hc.
  - cbn [all_in] in Hp. apply andb_true_iff in Hp as [Hch Hp].
    simpl. rewrite Hch. now rewrite (IH Hp).
Qed.

(** A lazy loop goes on while the rest of the pattern fails. *)
Lemma m_lazy_star_to_end cs k p m :
  all_in cs p = true ->
  (forall c s, cset_mem cs c = true -> k (String c s) = None) ->
  k EmptyString = Some m ->
  m_lazy_star cs k p = Some m.
Proof.
  intros Hp Hfail Hend. induction p as [|ch p IH]; simpl.
  - now rewrite Hend.
  - cbn [all_in] in Hp. apply andb_true_iff in Hp as [Hch Hp].
    rewrite (Hfail ch p Hch), Hch. now apply IH.
Qed.

Lemma lower_char_colon ch :
  lower_char ch = ":"%char -> ch = ":"%char.
Proof.
  destruct ch as [[] [] [] [] [] [] [] []]; vm_compute; congruence.
Qed.

Lemma lower_append (s t : string) : lower (s ++ t) = lower s ++ lower t.
Proof. induction s as [|c s IH]; simpl; [reflexivity|now rewrite IH]. Qed.

(** A key word cannot begin inside a token without colon that a newline
    follows. *)
Lemma prefix_blocked : forall (v w rest : string),
  keyword_ok w = true ->
  no_colon v = true ->
  prefix w (lower (v ++ String "010"%char rest)) = false.
Proof.
  induction v as [|ch v IH]; intros w rest Hw Hv.
  - destruct w as [|x w]; [discriminate Hw|]. cbn [append lower].
    change (lower_char "010"%char) with "010"%char. cbn [prefix].
    destruct (ascii_dec x "010"%char) as [->|Hx]; [|reflexivity].
    exfalso. destruct w; discriminate Hw.
  - destruct w as [|x w]; [discriminate Hw|]. cbn [append lower prefix].
    destruct (ascii_dec x (lower_char ch)) as [Hx|Hx]; [|reflexivity].
    unfold no_colon in Hv. cbn [string_forall] in Hv.
    apply andb_true_iff in Hv as [Hch Hv].
    destruct w as [|y w].
    + exfalso. cbn [keyword_ok] in Hw. apply Ascii.eqb_eq in Hw. subst x.
      symmetry in Hx. apply lower_char_colon in Hx. subst ch. discriminate Hch.
    + apply IH; [|exact Hv].
      cbn [keyword_ok] in Hw. apply andb_true_iff in Hw as [_ Hw]. exact Hw.
Qed.

(** The search passes over such a token. *)
Lemma re_search_skip_token w rest0 : forall (v rest : string),
  keyword_ok (lower w) = true ->
  no_colon v = true ->
  re_search (lits w rest0) (v ++ String "010"%char rest)
  = re_search (lits w rest0) (String "010"%char rest).
Proof.
  induction v as [|ch v IH]; intros rest Hw Hv; [reflexivity|].
  cbn [append]. cbn [re_search].
  destruct (match_here (lits w rest0) (String ch (v ++ String "010"%char rest)))
    as [m|] eqn:E.
  - apply run_lits_prefix in E.
    change (String ch (v ++ String "010"%char rest))
      with (String ch v ++ String "010"%char rest) in E.
    rewrite prefix_blocked in E by assumption. discriminate E.
  - apply IH; [assumption|].
    unfold no_colon in *. cbn [string_forall] in Hv.
    now apply andb_true_iff in Hv as [_ Hv].
Qed.

Lemma re_search_here r s m :
  match_here r s = Some m -> re_search r s = Some m.
Proof. intros H. destruct s; simpl; now rewrite H. Qed.

(** The search passes over text in which the first letter of the key word
    does not occur. *)
Lemma re_search_skip_prefix w0 w rest0 : forall (p s : string),
  string_forall (fun ch => negb (Ascii.eqb (lower_char ch) (lower_char w0))) p
  = true ->
  re_search (lits (String w0 w) rest0) (p ++ s)
  = re_search (lits (String w0 w) rest0) s.
Proof.
  induction p as [|ch p IH]; intros s Hp; [reflexivity|].
  cbn [string_forall] in Hp. apply andb_true_iff in Hp as [Hch Hp].
  cbn [append re_search].
  destruct (match_here (lits (String w0 w) rest0) (String ch (p ++ s)))
    as [m|] eqn:E.
  - apply run_lits_prefix in E. cbn [lower prefix] in E.
    destruct (ascii_dec (lower_char w0) (lower_char ch)) as [Hx|Hx];
      [|discriminate E].
    rewrite Hx, Ascii.eqb_refl in Hch. discriminate Hch.
  - now apply IH.
Qed.

(** A literal word matches itself, whatever the case of the letters. *)
Lemma run_lits_match rest0 : forall (w w' s : string) cap k,
  lower w' = lower w ->
  run (lits w rest0) (w' ++ s) cap k = run rest0 s cap k.
Proof.
  induction w as [|c w IH]; intros w' s cap k H.
  - destruct w'; [reflexivity|discriminate H].
  - destruct w' as [|c' w']; [discriminate H|].
    cbn [lower] in H. inversion H as [[Hc Hw]].
    cbn [lits run append m_quant]. unfold m_one. cbn [cset_mem].
    rewrite Hc, Ascii.eqb_refl. now apply IH.
Qed.

(** A line "KEY: token", followed by a newline, gives the token as group 1
    of a pattern  KEY:\s*(x+)  whose set x holds every character of the token,
    no white space and not the newline. *)
Lemma match_line_token (w w' : string) (cs : cset) (tok rest : string) :
  lower w' = lower w ->
  tok <> EmptyString ->
  all_in cs tok = true ->
  (forall ch, cset_mem cs ch = true -> is_space ch = false) ->
  match_here (lits w (Chr CSpace GreedyStar (Grp (Chr cs GreedyPlus Eps) Eps)))
             (w' ++ " " ++ tok ++ String "010"%char rest)
  = Some (mkMatch (Some tok)).
Proof.
  intros Hw Hne Htok Hcs. unfold match_here.
  rewrite run_lits_match by assumption.
  destruct tok as [|ch tok]; [contradiction|].
  cbn [all_in] in Htok. apply andb_true_iff in Htok as [Hch Htok].
  cbn [run m_quant].
  change (" " ++ String ch tok ++ String "010"%char rest)
    with (" " ++ String ch (tok ++ String "010"%char rest)).
  apply m_greedy_star_max.
  - reflexivity.
  - rewrite Hch.
    change (String ch (tok ++ String "010"%char rest))
      with (String ch tok ++ String "010"%char rest).
    rewrite (m_greedy_star_max
               cs _ tok (String "010"%char rest)
               (mkMatch (Some (String ch tok)))); [reflexivity|exact Htok| |].
    + cbn [run]. now rewrite consumed_append.
    + right. exists "010"%char, rest. split; [reflexivity|].
      destruct (cset_mem cs "010"%char) eqn:E; [|reflexivity].
      apply Hcs in E. discriminate E.
  - right. exists ch, (tok ++ String "010"%char rest). split; [reflexivity|].
    cbn [cset_mem]. now apply Hcs.
Qed.

Lemma digit_dot_not_space ch :
  cset_mem CDigitDot ch = true -> is_space ch = false.
Proof.
  destruct ch as [[] [] [] [] [] [] [] []]; vm_compute; congruence.
Qed.

Lemma non_space_not_space ch :
  cset_mem CNonSpace ch = true -> is_space ch = false.
Proof. cbn [cset_mem]. now destruct (is_space ch). Qed.

Lemma digit_dot_no_colon : forall s,
  all_in CDigitDot s = true -> no_colon s = true.
Proof.
  induction s as [|ch s IH]; [reflexivity|].
  cbn [all_in]. intros H. apply andb_true_iff in H as [Hch Hs].
  unfold no_colon. cbn [string_forall]. fold (no_colon s). rewrite (IH Hs).
  rewrite andb_true_r.
  destruct (Ascii.eqb ch ":"%char) eqn:E; [|reflexivity].
  apply Ascii.eqb_eq in E. subst ch. discriminate Hch.
Qed.

(** The text of a float literal is a non-empty run of digits and dots. *)
Lemma py_float_all_in s q :
  py_float s = Ok q -> s <> EmptyString /\ all_in CDigitDot s = true.
Proof.
  unfold py_float. intros H. split.
  - intros ->. discriminate H.
  - assert (G : forall s num den n dot,
               scan_decimal s num den n dot <> None ->
               all_in CDigitDot s = true).
    { clear. induction s as [|c s IH]; intros num den n dot H; [reflexivity|].
      cbn [scan_decimal] in H. cbn [all_in cset_mem].
      destruct (is_digit c) eqn:Ed.
      - cbn [orb andb]. eapply IH; eauto.
      - destruct (Ascii.eqb c "."%char) eqn:Ec; [|contradiction].
        cbn [orb andb]. destruct dot; [contradiction|]. eapply IH; eauto. }
    apply (G s 0%Z 1%positive 0%nat false).
    destruct (scan_decimal s 0 1 0 false); [discriminate|discriminate H].
Qed.

(** The line "REASON: text" at the end of the reply gives the text as
    group 1. *)
Lemma match_reason_line (w' r : string) :
  lower w' = "reason:" ->
  r <> EmptyString ->
  lstrip r = r ->
  all_in CAny r = true ->
  match_here REASON_RE (w' ++ " " ++ r) = Some (mkMatch (Some r)).
Proof.
  intros Hw Hne Hl Hr. unfold match_here, REASON_RE.
  rewrite run_lits_match by exact Hw.
  destruct r as [|ch r]; [contradiction|].
  assert (Hch : is_space ch = false).
  { cbn [lstrip] in Hl. destruct (is_space ch) eqn:E; [|reflexivity].
    exfalso.
    assert (L : forall s, (String.length (lstrip s) <= String.length s)%nat).
    { clear. induction s as [|c s IH]; simpl; [lia|].
      destruct (is_space c); simpl; lia. }
    specialize (L r). rewrite Hl in L. simpl in L. lia. }
  cbn [all_in] in Hr. apply andb_true_iff in Hr as [Hany Hr].
  cbn [run m_quant].
  apply m_greedy_star_max.
  - reflexivity.
  - rewrite Hany. apply m_lazy_star_to_end; [exact Hr| |].
    + intros c s Hc. cbn [cset_mem] in Hc. apply negb_true_iff in Hc.
      cbn [run m_quant]. unfold m_one. cbn [cset_mem]. rewrite Hc.
      cbn [at_eos]. destruct s; [now rewrite Hc|reflexivity].
    + cbn [run m_quant]. unfold m_one. cbn [at_eos run].
      unfold consumed. cbn [String.length]. rewrite Nat.sub_0_r.
      change (S (String.length r)) with (String.length (String ch r)).
      assert (T : forall s, take (String.length s) s = s).
      { clear. unfold take. induction s as [|c s IH]; simpl; [reflexivity|].
        now rewrite IH. }
      now rewrite T.
  - right. exists ch, r. split; [reflexivity|]. exact Hch.
Qed.

Lemma strip_non_space : forall s, all_in CNonSpace s = true -> strip s = s.
Proof.
  assert (R : forall s, all_in CNonSpace s = true -> rstrip s = s).
  { induction s as [|c s IH]; [reflexivity|].
    cbn [all_in cset_mem]. intros H. apply andb_true_iff in H as [Hc Hs].
    apply negb_true_iff in Hc. cbn [rstrip]. rewrite (IH Hs), Hc.
    now destruct s. }
  intros s H. unfold strip.
  assert (L : lstrip s = s).
  { destruct s as [|c s]; [reflexivity|].
    cbn [all_in cset_mem] in H. apply andb_true_iff in H as [Hc _].
    apply negb_true_iff in Hc. cbn [lstrip]. now rewrite Hc. }
  rewrite L. now apply R.
Qed.

Section ThreeLines.
Variables a c r : string.
Variable q : Q.
Hypothesis a_not_empty : a <> EmptyString.
Hypothesis a_no_space : all_in CNonSpace a = true.
Hypothesis a_no_colon : no_colon a = true.
Hypothesis c_float : py_float c = Ok q.
Hypothesis r_not_empty : r <> EmptyString.
Hypothesis r_no_leading_space : lstrip r = r.
Hypothesis r_one_line : all_in CAny r = true.

Lemma reply_agent_match :
  re_search AGENT_RE (three_line_reply a c r) = Some (mkMatch (Some a)).
Proof.
  apply re_search_here. unfold three_line_reply.
  set (rest := "CONFIDENCE: " ++ c ++ nl ++ "REASON: " ++ r).
  exact (match_line_token "AGENT:" "AGENT:" CNonSpace a rest eq_refl
                          a_not_empty a_no_space non_space_not_space).
Qed.

Lemma reply_confidence_match :
  re_search CONFIDENCE_RE (three_line_reply a c r) = Some (mkMatch (Some c)).
Proof.
  destruct (py_float_all_in c q c_float) as [Hne Hall].
  unfold three_line_reply.
  set (t3 := "REASON: " ++ r).
  set (t2 := "CONFIDENCE: " ++ c ++ nl ++ t3).
  unfold CONFIDENCE_RE.
  rewrite (re_search_skip_prefix "C" "ONFIDENCE:" _ "AGENT: " (a ++ nl ++ t2))
    by reflexivity.
  change (a ++ nl ++ t2) with (a ++ String "010"%char t2).
  rewrite re_search_skip_token by (try reflexivity; exact a_no_colon).
  change (String "010"%char t2) with (nl ++ t2).
  rewrite (re_search_skip_prefix "C" "ONFIDENCE:" _ nl t2) by reflexivity.
  apply re_search_here. unfold t2.
  exact (match_line_token "CONFIDENCE:" "CONFIDENCE:" CDigitDot c t3 eq_refl
                          Hne Hall digit_dot_not_space).
Qed.

Lemma reply_reason_match :
  re_search REASON_RE (three_line_reply a c r) = Some (mkMatch (Some r)).
Proof.
  destruct (py_float_all_in c q c_float) as [Hne Hall].
  unfold three_line_reply.
  set (t3 := "REASON: " ++ r).
  unfold REASON_RE.
  rewrite (re_search_skip_prefix
             "R" "EASON:" _ "AGENT: " (a ++ nl ++ "CONFIDENCE: " ++ c ++ nl ++ t3))
    by reflexivity.
  change (a ++ nl ++ "CONFIDENCE: " ++ c ++ nl ++ t3)
    with (a ++ String "010"%char ("CONFIDENCE: " ++ c ++ nl ++ t3)).
  rewrite re_search_skip_token by (try reflexivity; exact a_no_colon).
  change (String "010"%char ("CONFIDENCE: " ++ c ++ nl ++ t3))
    with ((nl ++ "CONFIDENCE: ") ++ c ++ nl ++ t3).
  rewrite (re_search_skip_prefix "R" "EASON:" _ (nl ++ "CONFIDENCE: ")
                                 (c ++ nl ++ t3)) by reflexivity.
  change (c ++ nl ++ t3) with (c ++ String "010"%char t3).
  rewrite re_search_skip_token
    by (try reflexivity; now apply digit_dot_no_colon).
  change (String "010"%char t3) with (nl ++ t3).
  rewrite (re_search_skip_prefix "R" "EASON:" _ nl t3) by reflexivity.
  apply re_search_here. unfold t3.
  exact (match_reason_line "REASON:" r eq_refl r_not_empty r_no_leading_space
                           r_one_line).
Qed.
End ThreeLines.

(** X25.  A reply in the format that the routing prompt asks for is read
    as written.  Let the reply be the three lines "AGENT: a",
    "CONFIDENCE: c" and "REASON: r", where the handler [a] is a non-empty
    word without white space or colon, [c] is a float literal of digits and
    at most one dot, and the reason [r] is a non-empty line that does not
    begin with white space.  When [a], in lower case, is the sentinel or a
    key of the catalog, the decision has handler [a] in lower case, the
    value of [c] clamped into [0, 1] as confidence, and [r] without
    trailing white space as reasoning. *)
Theorem parse_three_line_reply :
  forall (self : Conductor) (a c r : string) (q : Q),
    a <> EmptyString ->
    all_in CNonSpace a = true ->
    no_colon a = true ->
    py_float c = Ok q ->
    r <> EmptyString ->
    lstrip r = r ->
    all_in CAny r = true ->
    lower a = "conductor" \/ dict_contains (agents self) (lower a) = true ->
    _parse_routing_response self (three_line_reply a c r)
    = Ok (mkRoutingDecision (lower a) (py_max 0 (py_min 1 q)) (strip r)).
Proof.
  intros self a c r q Ha1 Ha2 Ha3 Hc Hr1 Hr2 Hr3 Hk.
  rewrite parse_unfold.
  unfold extract_agent, extract_confidence, extract_reason.
  rewrite (reply_agent_match a c r Ha1 Ha2).
  rewrite (reply_confidence_match a c r q Ha3 Hc).
  rewrite (reply_reason_match a c r q Ha3 Hc Hr1 Hr2 Hr3).
  cbn [group1 option_map]. rewrite (strip_non_space a Ha2), Hc. cbv zeta.
  assert (E : negb (String.eqb (lower a) "conductor")
              && negb (dict_contains (agents self) (lower a)) = false).
  { destruct Hk as [->|Hk]; [reflexivity|]. rewrite Hk.
    now destruct (String.eqb (lower a) "conductor"). }
  now rewrite E.
Qed.

Lemma parse_three_line_reply_demo :
  _parse_routing_response
    (demo_conductor (constant_backend "ok"))
    (three_line_reply "Ethical-Hacker" "0.92" "Query about security review  ")
  = Ok (mkRoutingDecision "ethical-hacker" (92 # 100)
                          "Query about security review").
Proof.
  apply (parse_three_line_reply
           (demo_conductor (constant_backend "ok"))
           "Ethical-Hacker" "0.92" "Query about security review  " (92 # 100));
    try discriminate; try reflexivity.
  right. reflexivity.
Defined.
